(** * Course reminder system: a shallow embedding and its properties

    The development follows the Python sources

      - [email_reminder_system.py]  (class [EmailReminderSystem]:
        [load_schedule_data], [parse_date], [get_reminder_dates],
        [create_email_content], [send_email],
        [check_and_send_reminders], [run_daily_check]);
      - [create_calendar_invite.py] ([create_ics_file],
        [create_calendar_invitations],
        [send_calendar_invitation_email],
        [send_all_calendar_invitations]).

    Library routines the sources call are modelled next to them:
    [datetime] calendar arithmetic and [strftime] (CPython
    [Lib/_pydatetime.py]) in [Calendar], [datetime.strptime] (CPython
    [Lib/_strptime.py]) in [Strptime], [pd.concat] in [Loading],
    [os.path.basename], [str.replace] and [MIMEText] in [Sending].
    Strings are byte strings; a line feed is written [LF] and a
    backslash in a literal stands for itself. *)

From Stdlib Require Import ZArith Ascii String List Lia DecimalString.
From stdpp Require Import base option list gmap strings sorting.

Open Scope string_scope.
Open Scope list_scope.
Open Scope Z_scope.

(** ** Exceptions and results *)

Inductive exn : Set :=
| ValueError
| OverflowError
| KeyError
| AttributeError
| OtherError.

Inductive result (A : Type) : Type :=
| Ok (a : A)
| Raise (e : exn).
Arguments Ok {A} a.
Arguments Raise {A} e.

Definition is_ok {A} (r : result A) : bool :=
  match r with Ok _ => true | Raise _ => false end.

Definition rbind {A B} (r : result A) (k : A -> result B) : result B :=
  match r with
  | Ok a => k a
  | Raise e => Raise e
  end.

Notation "'let*' x ':=' m 'in' k" := (rbind m (fun x => k))
  (at level 10, x name, k at level 200).

(** ** Text helpers *)

Definition LF : string := String (ascii_of_nat 10) EmptyString.

(** [str(n)] for a non-negative integer. *)
Definition str_of_Z (n : Z) : string :=
  NilZero.string_of_uint (N.to_uint (Z.to_N n)).

(** ['%0wd' % n]: decimal rendering, padded with zeros on the left. *)
Definition zfill (w : nat) (n : Z) : string :=
  let s := str_of_Z n in
  string_of_list_ascii (repeat "0"%char (w - String.length s)%nat) +:+ s.

Definition is_digit (c : ascii) : bool :=
  let n := nat_of_ascii c in (48 <=? n)%nat && (n <=? 57)%nat.

(** [int(s)] on a capture of [strptime]: the digits, base ten; the
    blanks a capture may start with are skipped as [int] does. *)
Definition int_of_digits (s : list ascii) : Z :=
  fold_left
    (fun acc c => if is_digit c then 10 * acc + (Z.of_nat (nat_of_ascii c) - 48) else acc)
    s 0.

(** [s.replace(a, b)] for single characters. *)
Fixpoint replace_char (a b : ascii) (s : string) : string :=
  match s with
  | EmptyString => EmptyString
  | String c s' => String (if Ascii.eqb c a then b else c) (replace_char a b s')
  end.

(** ** Calendar arithmetic of [datetime] *)

Module Calendar.

Definition MINYEAR : Z := 1.
Definition MAXYEAR : Z := 9999.
(** [date.max.toordinal()] *)
Definition _MAXORDINAL : Z := 3652059.

Definition _is_leap (y : Z) : bool :=
  (y mod 4 =? 0) && (negb (y mod 100 =? 0) || (y mod 400 =? 0)).

Definition _DAYS_IN_MONTH : list Z :=
  [-1; 31; 28; 31; 30; 31; 30; 31; 31; 30; 31; 30; 31].

Definition _DAYS_BEFORE_MONTH : list Z :=
  [-1; 0; 31; 59; 90; 120; 151; 181; 212; 243; 273; 304; 334].

Definition _days_in_month (y m : Z) : Z :=
  if (m =? 2) && _is_leap y then 29
  else nth (Z.to_nat m) _DAYS_IN_MONTH 0.

Definition _days_before_year (y : Z) : Z :=
  let y := y - 1 in y * 365 + y / 4 - y / 100 + y / 400.

Definition _days_before_month (y m : Z) : Z :=
  nth (Z.to_nat m) _DAYS_BEFORE_MONTH 0
  + (if (m >? 2) && _is_leap y then 1 else 0).

Definition _ymd2ord (y m d : Z) : Z :=
  _days_before_year y + _days_before_month y m + d.

(** A [datetime.datetime] without microseconds and time zone. *)
Record datetime : Set := mk_datetime {
  year : Z; month : Z; day : Z;
  hour : Z; minute : Z; second : Z
}.

(** The field checks of the [datetime] constructor. *)
Definition check_fields (t : datetime) : bool :=
  (MINYEAR <=? year t) && (year t <=? MAXYEAR)
  && (1 <=? month t) && (month t <=? 12)
  && (1 <=? day t) && (day t <=? _days_in_month (year t) (month t))
  && (0 <=? hour t) && (hour t <=? 23)
  && (0 <=? minute t) && (minute t <=? 59)
  && (0 <=? second t) && (second t <=? 59).

Definition new_datetime (y m d H M S : Z) : result datetime :=
  let t := mk_datetime y m d H M S in
  if check_fields t then Ok t else Raise ValueError.

(** A [datetime.date], kept as its proleptic Gregorian ordinal
    ([date.toordinal()]); comparison of dates is comparison of
    ordinals. *)
Definition date : Set := Z.

Definition representable (o : Z) : Prop := 0 < o <= _MAXORDINAL.

Definition representableb (o : Z) : bool := (0 <? o) && (o <=? _MAXORDINAL).

(** [t.date()] *)
Definition date_of (t : datetime) : date :=
  _ymd2ord (year t) (month t) (day t).

(** [d - timedelta(days=n)]: [OverflowError] outside
    [date.min .. date.max] (a [timedelta] too large to build lands
    outside as well). *)
Definition date_minus_days (d : date) (n : Z) : result date :=
  let o := d - n in
  if representableb o then Ok o else Raise OverflowError.

(** [(a - b).days] *)
Definition days_between (a b : date) : Z := a - b.

(** [%Y] of [strftime].  The directive is left to the C library:
    some libraries write the year with four digits, glibc writes the
    number as it is; newer versions of CPython pad the year
    themselves. *)
Inductive year_format : Set := Padded | Unpadded.

Definition strftime_Y (yf : year_format) (y : Z) : string :=
  match yf with
  | Padded => zfill 4 y
  | Unpadded => str_of_Z y
  end.

(** [t.strftime('%Y-%m-%d')] and [t.strftime('%Y%m%d')]. *)
Definition strftime_iso (yf : year_format) (t : datetime) : string :=
  strftime_Y yf (year t) +:+ "-" +:+ zfill 2 (month t) +:+ "-" +:+ zfill 2 (day t).

Definition strftime_basic (yf : year_format) (t : datetime) : string :=
  strftime_Y yf (year t) +:+ zfill 2 (month t) +:+ zfill 2 (day t).

(** [t.date().isoformat()], the date as [str] and [isoformat] write
    it: the year has four digits on every platform. *)
Definition isoformat_date (t : datetime) : string :=
  zfill 4 (year t) +:+ "-" +:+ zfill 2 (month t) +:+ "-" +:+ zfill 2 (day t).

(** [str(t)] of a time stamp. *)
Definition str_datetime (t : datetime) : string :=
  isoformat_date t +:+ " " +:+ zfill 2 (hour t) +:+ ":" +:+ zfill 2 (minute t)
  +:+ ":" +:+ zfill 2 (second t).

End Calendar.

(** ** [datetime.strptime] *)

Module Strptime.
Import Calendar.

Inductive directive : Set := dY | dm | dd | dH | dM | dS.

(** A compiled format: directives, literal characters, and a run of
    blanks, which the library turns into [\s+]. *)
Inductive token : Set :=
| Dir (d : directive)
| Lit (c : ascii)
| Blanks.

Inductive cclass : Set :=
| Digit
| Rng (lo hi : ascii)
| Chr (c : ascii).

Definition in_class (k : cclass) (c : ascii) : bool :=
  match k with
  | Digit => is_digit c
  | Rng lo hi => (nat_of_ascii lo <=? nat_of_ascii c)%nat
                 && (nat_of_ascii c <=? nat_of_ascii hi)%nat
  | Chr x => Ascii.eqb c x
  end.

(** The ASCII characters [\s] matches. *)
Definition is_space (c : ascii) : bool :=
  let n := nat_of_ascii c in
  ((9 <=? n) && (n <=? 13) || (28 <=? n) && (n <=? 32))%nat.

(** The regular expression of each directive, as its ordered
    alternatives (table of [TimeRE.__init__]). *)
Definition alternatives (d : directive) : list (list cclass) :=
  match d with
  | dY => [[Digit; Digit; Digit; Digit]]
  | dm => [[Chr "1"; Rng "0" "2"]; [Chr "0"; Rng "1" "9"]; [Rng "1" "9"]]
  | dd => [[Chr "3"; Rng "0" "1"]; [Rng "1" "2"; Digit];
           [Chr "0"; Rng "1" "9"]; [Rng "1" "9"]; [Chr " "; Rng "1" "9"]]
  | dH => [[Chr "2"; Rng "0" "3"]; [Rng "0" "1"; Digit]; [Digit]]
  | dM => [[Rng "0" "5"; Digit]; [Digit]]
  | dS => [[Chr "6"; Rng "0" "1"]; [Rng "0" "5"; Digit]; [Digit]]
  end%char.

Definition directive_of (c : ascii) : option directive :=
  if Ascii.eqb c "Y" then Some dY
  else if Ascii.eqb c "m" then Some dm
  else if Ascii.eqb c "d" then Some dd
  else if Ascii.eqb c "H" then Some dH
  else if Ascii.eqb c "M" then Some dM
  else if Ascii.eqb c "S" then Some dS
  else None.

(** [TimeRE.pattern]: [None] for a directive outside the table
    (a [ValueError] in the library). *)
Fixpoint compile (fmt : list ascii) : option (list token) :=
  match fmt with
  | [] => Some []
  | c :: rest =>
      if Ascii.eqb c "%" then
        match rest with
        | [] => None
        | x :: rest' =>
            match directive_of x, compile rest' with
            | Some d, Some ts => Some (Dir d :: ts)
            | _, _ => None
            end
        end
      else
        match compile rest with
        | None => None
        | Some ts =>
            if is_space c then
              match ts with
              | Blanks :: _ => Some ts
              | _ => Some (Blanks :: ts)
              end
            else Some (Lit c :: ts)
        end
  end.

(** One alternative against the head of the input: the text it
    consumed and the rest. *)
Fixpoint match_seq (ks : list cclass) (s : list ascii)
  : option (list ascii * list ascii) :=
  match ks with
  | [] => Some ([], s)
  | k :: ks' =>
      match s with
      | [] => None
      | c :: s' =>
          if in_class k c then
            match match_seq ks' s' with
            | Some (m, r) => Some (c :: m, r)
            | None => None
            end
          else None
      end
  end.

(** [\s+]: every way to consume one or more blanks, longest first. *)
Fixpoint match_blanks (s : list ascii) : list (list ascii) :=
  match s with
  | c :: s' => if is_space c then match_blanks s' ++ [s'] else []
  | [] => []
  end.

Definition found_dict : Set := list (directive * list ascii).

(** Every match of the compiled format against a prefix of the
    input, in the order a backtracking matcher finds them; the head
    is the match [re.match] returns. *)
Fixpoint matches (ts : list token) (s : list ascii)
  : list (found_dict * list ascii) :=
  match ts with
  | [] => [([], s)]
  | Dir d :: ts' =>
      flat_map
        (fun alt =>
           match match_seq alt s with
           | Some (m, r) =>
               map (fun fr => ((d, m) :: fst fr, snd fr)) (matches ts' r)
           | None => []
           end)
        (alternatives d)
  | Lit c :: ts' =>
      match s with
      | x :: s' => if Ascii.eqb x c then matches ts' s' else []
      | [] => []
      end
  | Blanks :: ts' => flat_map (matches ts') (match_blanks s)
  end.

Definition directive_eqb (a b : directive) : bool :=
  match a, b with
  | dY, dY | dm, dm | dd, dd | dH, dH | dM, dM | dS, dS => true
  | _, _ => false
  end.

Fixpoint group (d : directive) (f : found_dict) (default : Z) : Z :=
  match f with
  | [] => default
  | (d', m) :: f' => if directive_eqb d d' then int_of_digits m else group d f' default
  end.

(** [datetime.strptime(data, fmt)]: a [ValueError] when the format
    does not match, when input is left over, or when the fields do
    not make a date and time. *)
Definition strptime (data fmt : string) : result datetime :=
  match compile (list_ascii_of_string fmt) with
  | None => Raise ValueError
  | Some ts =>
      match matches ts (list_ascii_of_string data) with
      | [] => Raise ValueError
      | (found, rest) :: _ =>
          match rest with
          | _ :: _ => Raise ValueError
          | [] =>
              new_datetime (group dY found 1900) (group dm found 1)
                (group dd found 1) (group dH found 0) (group dM found 0)
                (group dS found 0)
          end
      end
  end.

End Strptime.

Import Calendar.

(** ** Values of a schedule row *)

(** What a cell of the loaded sheet, or a [row.get] on it, can be:
    [None] (no such column), a missing number, a missing time stamp,
    text, or a time stamp read from a date cell. *)
Inductive value : Set :=
| VNone
| VNaN
| VNaT
| VStr (s : string)
| VTimestamp (t : datetime).

(** [pd.isna(v)] *)
Definition isna (v : value) : bool :=
  match v with
  | VNone | VNaN | VNaT => true
  | VStr _ | VTimestamp _ => false
  end.

(** [str(v)], also what an f-string prints for [{v}]. *)
Definition str (v : value) : string :=
  match v with
  | VNone => "None"
  | VNaN => "nan"
  | VNaT => "NaT"
  | VStr s => s
  | VTimestamp t => str_datetime t
  end.

(** [row.get(key, default)] on a row of the data frame. *)
Definition row_get (row : gmap string value) (key : string) (default : value) : value :=
  match row !! key with
  | Some v => v
  | None => default
  end.

(** What [parse_date] hands back when it does not return [None]: a
    date and time, or the [NaT] the fallback can answer with.  [NaT]
    is true in a condition and raises [ValueError] on [.date()] and
    [.strftime()]. *)
Inductive stamp : Set :=
| Moment (t : datetime)
| NaT.

Definition stamp_date (s : stamp) : result date :=
  match s with
  | Moment t => Ok (date_of t)
  | NaT => Raise ValueError
  end.

Definition stamp_strftime_iso (yf : year_format) (s : stamp) : result string :=
  match s with
  | Moment t => Ok (strftime_iso yf t)
  | NaT => Raise ValueError
  end.

(** ** The reminder system *)

Module Reminder.

(** The keys of [email_config.json] the reminder check reads. *)
Record config : Type := mk_config {
  date_columns : gmap string string;
  reminder_days : list Z;
  recipients : list string
}.

Record event_data : Set := mk_event {
  event_name : value;
  program : value;
  start_date : string;
  end_date : string
}.

(** A call of [send_email], with the reminder type it was made for. *)
Record dispatch : Set := mk_dispatch {
  d_type : string;
  d_event : event_data;
  d_subject : string;
  d_content : string
}.

Inductive levelname : Set := INFO | WARNING | ERROR.

Inductive log_record : Set :=
| Could_not_parse_date (v : value)
| Error_processing_row (e : exn)
| Email_sent_successfully (n : nat)
| Failed_to_send_email
| Sent_reminder (reminder_type : string) (name : value)
| Sent_reminders_today (n : Z).

Definition level (r : log_record) : levelname :=
  match r with
  | Could_not_parse_date _ => WARNING
  | Error_processing_row _ | Failed_to_send_email => ERROR
  | Email_sent_successfully _ | Sent_reminder _ _ | Sent_reminders_today _ => INFO
  end.

(** A computation of the reminder check: it reads and extends the
    list of messages handed to the mail transport, writes log records,
    and returns or raises. *)
Definition M (A : Type) : Type :=
  list dispatch -> result A * list log_record * list dispatch.

Definition ret {A} (a : A) : M A := fun ob => (Ok a, [], ob).

Definition raise {A} (e : exn) : M A := fun ob => (Raise e, [], ob).

Definition bind {A B} (m : M A) (k : A -> M B) : M B :=
  fun ob =>
    match m ob with
    | (Ok a, l, ob') =>
        match k a ob' with
        | (r, l', ob'') => (r, l ++ l', ob'')
        end
    | (Raise e, l, ob') => (Raise e, l, ob')
    end.

Definition lift {A} (r : result A) : M A := fun ob => (r, [], ob).

Definition logger (r : log_record) : M unit := fun ob => (Ok tt, [r], ob).

(** A call that only returns or raises and writes log records. *)
Definition emit {A} (p : result A * list log_record) : M A :=
  fun ob => (fst p, snd p, ob).

(** [try: m  except Exception as e: h e] *)
Definition try_except {A} (m : M A) (h : exn -> M A) : M A :=
  fun ob =>
    match m ob with
    | (Ok a, l, ob') => (Ok a, l, ob')
    | (Raise e, l, ob') =>
        match h e ob' with
        | (r, l', ob'') => (r, l ++ l', ob'')
        end
    end.

Notation "'let!' x ':=' m 'in' k" := (bind m (fun x => k))
  (at level 10, x name, k at level 200).
Notation "m ';;!' k" := (bind m (fun _ => k))
  (at level 100, right associativity).

(** [config['date_columns'][key]] *)
Definition date_column (cfg : config) (key : string) : result string :=
  match date_columns cfg !! key with
  | Some c => Ok c
  | None => Raise KeyError
  end.

Definition date_formats : list string :=
  ["%Y-%m-%d"; "%m/%d/%Y"; "%d/%m/%Y"; "%Y-%m-%d %H:%M:%S"; "%m/%d/%Y %H:%M:%S"].

(** The loop of [parse_date] over [date_formats]: the first format
    that parses returns; [ValueError] moves on to the next format, any
    other exception leaves the loop. *)
Fixpoint try_formats (s : string) (fmts : list string) : result (option datetime) :=
  match fmts with
  | [] => Ok None
  | fmt :: rest =>
      match Strptime.strptime s fmt with
      | Ok t => Ok (Some t)
      | Raise ValueError => try_formats s rest
      | Raise e => Raise e
      end
  end.

(** [[s1, s2, ...]] with [today in]: membership in a list of dates. *)
Definition date_in (d : date) (ds : list date) : bool := bool_decide (d ∈ ds).

Section System.

(** How the platform's [strftime] writes the year. *)
Variable yf : year_format.

(** [pd.to_datetime], the fallback of [parse_date]; [Raise] stands
    for any exception it leaves with. *)
Variable to_datetime : value -> result stamp.

(** The outcome of the SMTP session of [send_email] for a message,
    given the messages sent before it in the run. *)
Variable transport : list dispatch -> dispatch -> bool.

Variable cfg : config.

(** [parse_date(date_str)]: its value or exception, and the log
    records it writes. *)
Definition parse_date (date_str : value) : result (option stamp) * list log_record :=
  if isna date_str then (Ok None, [])
  else
    match try_formats (str date_str) date_formats with
    | Raise e => (Raise e, [])
    | Ok (Some t) => (Ok (Some (Moment t)), [])
    | Ok None =>
        match to_datetime date_str with
        | Ok s => (Ok (Some s), [])
        | Raise _ => (Ok None, [Could_not_parse_date date_str])
        end
    end.

(** The loop of [get_reminder_dates] over [config['reminder_days']],
    with the list built so far. *)
Fixpoint reminder_days_loop (today : date) (start_date : stamp)
  (end_date : option stamp) (days_list : list Z) (reminder_dates : list date)
  : result (list date) :=
  match days_list with
  | [] => Ok reminder_dates
  | days :: rest =>
      if days >? 0 then
        let* sd := stamp_date start_date in
        let* reminder_date := date_minus_days sd days in
        reminder_days_loop today start_date end_date rest
          (if reminder_date >=? today then reminder_dates ++ [reminder_date]
           else reminder_dates)
      else
        match (days <? 0), end_date with
        | true, Some e =>
            let* ed := stamp_date e in
            let* reminder_date := date_minus_days ed days in
            reminder_days_loop today start_date end_date rest
              (if reminder_date >=? today then reminder_dates ++ [reminder_date]
               else reminder_dates)
        | _, _ => reminder_days_loop today start_date end_date rest reminder_dates
        end
  end.

(** [get_reminder_dates(start_date, end_date)]; [today] is the
    [datetime.now().date()] the method reads. *)
Definition get_reminder_dates (today : date) (start_date end_date : option stamp)
  : result (list date) :=
  match start_date with
  | None => Ok []
  | Some s =>
      let* reminder_dates := reminder_days_loop today s end_date (reminder_days cfg) [] in
      Ok (merge_sort Z.le reminder_dates)
  end.

(** Lines 279-292 of [check_and_send_reminders]: the reminder type
    from [days_diff], [None] for the final [continue]. *)
Definition determine_reminder_type (today : date) (start_date : stamp)
  (end_date : option stamp) : result (option string) :=
  let* sd := stamp_date start_date in
  let days_diff := days_between sd today in
  if days_diff =? 14 then Ok (Some "2_weeks_before")
  else if days_diff =? 7 then Ok (Some "1_week_before")
  else if days_diff =? 2 then Ok (Some "2_days_before")
  else if days_diff =? 1 then Ok (Some "1_day_before")
  else
    match end_date with
    | Some e =>
        let* ed := stamp_date e in
        if days_between today ed =? 14 then Ok (Some "2_weeks_after")
        else Ok None
    | None => Ok None
    end.

(** Lines 270-292: from the parsed dates to the reminder type due
    today; [None] when the row is passed over. *)
Definition reminder_due (today : date) (start_date end_date : option stamp)
  : result (option string) :=
  match start_date with
  | None => Ok None
  | Some s =>
      let* reminder_dates := get_reminder_dates today start_date end_date in
      if date_in today reminder_dates
      then determine_reminder_type today s end_date
      else Ok None
  end.

(** [create_email_content(event_data, reminder_type)]: the six
    branches share the greeting and the details block and differ in
    the sentence between them. *)
Definition reminder_sentence (name reminder_type : string) : string :=
  if String.eqb reminder_type "2_weeks_before" then
    "This is a reminder that " +:+ name +:+ " is scheduled to start in 2 weeks."
  else if String.eqb reminder_type "1_week_before" then
    "This is a reminder that " +:+ name +:+ " is scheduled to start in 1 week."
  else if String.eqb reminder_type "2_days_before" then
    "This is a reminder that " +:+ name +:+ " is starting in 2 days."
  else if String.eqb reminder_type "1_day_before" then
    "This is a reminder that " +:+ name +:+ " is starting tomorrow."
  else if String.eqb reminder_type "2_weeks_after" then
    "This is a follow-up reminder for " +:+ name +:+ " which ended 2 weeks ago."
  else
    "This is a reminder about " +:+ name +:+ ".".

Definition create_email_content (ev : event_data) (reminder_type : string)
  : string * string :=
  let name := str (event_name ev) in
  let subject := "Course Reminder: " +:+ name in
  let content :=
    LF +:+ "Dear Team," +:+ LF +:+ LF
    +:+ reminder_sentence name reminder_type +:+ LF +:+ LF
    +:+ "Course Details:" +:+ LF
    +:+ "- Course: " +:+ name +:+ LF
    +:+ "- Program: " +:+ str (program ev) +:+ LF
    +:+ "- Start Date: " +:+ start_date ev +:+ LF
    +:+ "- End Date: " +:+ end_date ev +:+ LF in
  (subject, content).

(** [send_email(subject, content)] as [check_and_send_reminders]
    calls it: the message goes to the transport, whose failure is
    caught and logged inside the method. *)
Definition send_email (d : dispatch) : M bool :=
  fun ob =>
    if transport ob d
    then (Ok true, [Email_sent_successfully (length (recipients cfg))], ob ++ [d])
    else (Ok false, [Failed_to_send_email], ob ++ [d]).

(** The [event_data] dictionary of lines 295-300. *)
Definition row_event_data (row : gmap string value) (start_text end_text : string)
  : event_data :=
  mk_event
    (row_get row "Course Name"
       (row_get row "Event Name" (row_get row "Name" (VStr "Event"))))
    (row_get row "Program Name" (VStr "N/A"))
    start_text end_text.

(** The message [create_email_content] makes of it. *)
Definition reminder_message (ev : event_data) (reminder_type : string) : dispatch :=
  let sc := create_email_content ev reminder_type in
  mk_dispatch reminder_type ev (fst sc) (snd sc).

(** One pass of the [for] loop body, inside its [try]: [true] when
    [sent_count] is incremented. *)
Definition process_row (today : date) (row : gmap string value) : M bool :=
  let! start_col := lift (date_column cfg "start_date") in
  let! start_date := emit (parse_date (row_get row start_col VNone)) in
  let! end_col := lift (date_column cfg "end_date") in
  let! end_date := emit (parse_date (row_get row end_col VNone)) in
  let! due := lift (reminder_due today start_date end_date) in
  match due, start_date with
  | Some reminder_type, Some sd =>
      let! start_text := lift (stamp_strftime_iso yf sd) in
      let! end_text :=
        lift (match end_date with
              | Some e => stamp_strftime_iso yf e
              | None => Ok "N/A"
              end) in
      let ev := row_event_data row start_text end_text in
      let! sent := send_email (reminder_message ev reminder_type) in
      if sent then
        logger (Sent_reminder reminder_type (event_name ev)) ;;! ret true
      else ret false
  | _, _ => ret false
  end.

(** The [for] loop over the rows, with the per-row [try]/[except]. *)
Fixpoint iterrows (today : date) (rows : list (gmap string value)) (sent_count : Z)
  : M Z :=
  match rows with
  | [] => ret sent_count
  | row :: rest =>
      let! sent :=
        try_except (process_row today row)
          (fun e => logger (Error_processing_row e) ;;! ret false) in
      iterrows today rest (if sent then sent_count + 1 else sent_count)
  end.

(** [check_and_send_reminders()] on the loaded [schedule_data]. *)
Definition check_and_send_reminders (today : date)
  (schedule_data : list (gmap string value)) : M Z :=
  let! sent_count := iterrows today schedule_data 0 in
  logger (Sent_reminders_today sent_count) ;;! ret sent_count.

End System.

End Reminder.

(** ** Calendar invitations *)

Module Invite.

(** [x.strftime('%Y%m%d')] after the [isinstance(x, str)] test of
    [create_ics_file]: text goes through [strptime], a time stamp is
    used as it is, anything else has no usable [strftime]. *)
Definition ics_date (yf : year_format) (x : value) : result string :=
  match x with
  | VStr s =>
      let* t := Strptime.strptime s "%Y-%m-%d" in Ok (strftime_basic yf t)
  | VTimestamp t => Ok (strftime_basic yf t)
  | VNaT => Raise ValueError
  | VNone | VNaN => Raise AttributeError
  end.

(** The description written when none is supplied; the separators
    are the two characters backslash and [n]. *)
Definition synthesized_description (course_name start_date end_date program : value)
  : string :=
  "Course: " +:+ str course_name +:+ "\n" +:+ "Program: " +:+ str program
  +:+ "\n" +:+ "Start: " +:+ str start_date +:+ "\n" +:+ "End: " +:+ str end_date.

(** [create_ics_file(course_name, start_date, end_date, program,
    description)]; [event_id] is the [uuid4] drawn and [now_ics] the
    formatted current time. *)
Definition create_ics_file (yf : year_format) (event_id now_ics : string)
  (course_name start_date end_date program : value) (description : string)
  : result string :=
  match ics_date yf start_date with
  | Raise e => Raise e
  | Ok start_ics =>
      match ics_date yf end_date with
      | Raise e => Raise e
      | Ok end_ics =>
          Ok ("BEGIN:VCALENDAR" +:+ LF
              +:+ "VERSION:2.0" +:+ LF
              +:+ "PRODID:-//Course Reminder System//Course Event//EN" +:+ LF
              +:+ "BEGIN:VEVENT" +:+ LF
              +:+ "UID:" +:+ event_id +:+ "@course-reminder-system.com" +:+ LF
              +:+ "DTSTAMP:" +:+ now_ics +:+ LF
              +:+ "DTSTART;VALUE=DATE:" +:+ start_ics +:+ LF
              +:+ "DTEND;VALUE=DATE:" +:+ end_ics +:+ LF
              +:+ "SUMMARY:" +:+ str course_name +:+ LF
              +:+ "DESCRIPTION:"
              +:+ (if String.eqb description ""
                   then synthesized_description course_name start_date end_date program
                   else description) +:+ LF
              +:+ "LOCATION:UBC" +:+ LF
              +:+ "STATUS:CONFIRMED" +:+ LF
              +:+ "TRANSP:OPAQUE" +:+ LF
              +:+ "END:VEVENT" +:+ LF
              +:+ "END:VCALENDAR")
      end
  end.

(** [course_name.replace(' ', '_').replace('/', '_')]: only text has
    this method with these arguments. *)
Definition sanitized_name (course_name : value) : result string :=
  match course_name with
  | VStr s => Ok (replace_char "/" "_" (replace_char " " "_" s))
  | VTimestamp _ | VNaT => Raise OtherError
  | VNone | VNaN => Raise AttributeError
  end.

Section Invitations.

Variable yf : year_format.

(** The identifier and the time stamp drawn for the row at index [i]. *)
Variable uuid4 : Z -> string.
Variable now_ics : Z -> string.

(** One pass of the loop body of [create_calendar_invitations] for
    the row at index [i]: the file name and its content, [None] for a
    row passed over. *)
Definition invitation_for_row (i : Z) (row : gmap string value)
  : result (option (string * string)) :=
  let course_name := row_get row "Course Name" (VStr ("Course " +:+ str_of_Z (i + 1))) in
  let start_date := row_get row "Start Date" VNone in
  let end_date := row_get row "End Date" VNone in
  let program := row_get row "Program Name" (VStr "Unknown Program") in
  if isna start_date || isna end_date then Ok None
  else
    match create_ics_file yf (uuid4 i) (now_ics i) course_name start_date end_date program ""
    with
    | Raise e => Raise e
    | Ok ics_content =>
        match sanitized_name course_name with
        | Raise e => Raise e
        | Ok name => Ok (Some ("calendar_invites/" +:+ name +:+ ".ics", ics_content))
        end
    end.

(** The loop of [create_calendar_invitations]: the files written, in
    order; a row that raises is logged and left out. *)
Fixpoint invitations_from (i : Z) (rows : list (gmap string value))
  : list (string * string) :=
  match rows with
  | [] => []
  | row :: rest =>
      match invitation_for_row i row with
      | Ok (Some f) => f :: invitations_from (i + 1) rest
      | Ok None | Raise _ => invitations_from (i + 1) rest
      end
  end.

Definition create_calendar_invitations (schedule_data : list (gmap string value))
  : list (string * string) :=
  invitations_from 0 schedule_data.

End Invitations.

End Invite.

(** ** Vocabulary of the properties *)

Import Reminder.

(** The date a configured offset stands for: [days] before the start
    for a positive offset, [|days|] after the end for a negative one
    when there is an end date, none for zero. *)
Definition candidate (sd : date) (ed : option date) (days : Z) : option date :=
  if days >? 0 then Some (sd - days)
  else if days <? 0 then
    match ed with
    | Some e => Some (e - days)
    | None => None
    end
  else None.

(** The dates [get_reminder_dates] collects before sorting. *)
Definition enumerate (today sd : date) (ed : option date) (days_list : list Z)
  : list date :=
  filter (fun c => today <= c) (omap (candidate sd ed) days_list).

(** Every configured offset lands on a date [datetime.date] can hold. *)
Definition offsets_representable (sd : date) (ed : option date) (days_list : list Z)
  : Prop :=
  Forall (fun days => forall c, candidate sd ed days = Some c -> representable c)
    days_list.

Definition offsets_representableb (sd : date) (ed : option date) (days_list : list Z)
  : bool :=
  forallb
    (fun days =>
       match candidate sd ed days with
       | Some c => representableb c
       | None => true
       end)
    days_list.

(** The reminder type the branches of [check_and_send_reminders] give
    to a number of days before the start. *)
Definition before_start_type (d : Z) : option string :=
  if d =? 14 then Some "2_weeks_before"
  else if d =? 7 then Some "1_week_before"
  else if d =? 2 then Some "2_days_before"
  else if d =? 1 then Some "1_day_before"
  else None.

(** The tie-break in the specification's words: the before-start
    offsets in ascending order, then the after-end offset; the first
    match gives the type. *)
Definition ascending_before_start : list (Z * string) :=
  [(1, "1_day_before"); (2, "2_days_before"); (7, "1_week_before");
   (14, "2_weeks_before")].

Definition first_match_ascending (days_until_start : Z) (days_since_end : option Z)
  : option string :=
  match find (fun p => days_until_start =? fst p) ascending_before_start with
  | Some p => Some (snd p)
  | None =>
      match days_since_end with
      | Some n => if n =? 14 then Some "2_weeks_after" else None
      | None => None
      end
  end.

(** [(today - end_date.date()).days] where the end date has a date. *)
Definition days_since_end (today : date) (end_date : option stamp) : option Z :=
  match end_date with
  | Some (Moment e) => Some (days_between today (date_of e))
  | Some NaT | None => None
  end.

(** The message of type [ty] for a row whose dates were parsed to
    [s] and [fin]: the event data of lines 295-300 and what
    [create_email_content] makes of them. *)
Definition due_message (yf : year_format) (row : gmap string value) (s : datetime)
  (fin : option datetime) (ty : string) : dispatch :=
  reminder_message
    (row_event_data row (strftime_iso yf s)
       (match fin with
        | Some e => strftime_iso yf e
        | None => "N/A"
        end))
    ty.

Definition with_reminder_days (cfg : config) (ds : list Z) : config :=
  mk_config (date_columns cfg) ds (recipients cfg).

(** The messages a computation hands to the transport, and its log. *)
Definition outbox_of {A} (r : result A * list log_record * list dispatch)
  : list dispatch := snd r.

Definition log_of {A} (r : result A * list log_record * list dispatch)
  : list log_record := snd (fst r).

Definition result_of {A} (r : result A * list log_record * list dispatch)
  : result A := fst (fst r).

(** [needle in haystack] for text. *)
Definition contains (haystack needle : string) : Prop :=
  exists pre post, haystack = pre +:+ needle +:+ post.

(** What the loop of [check_and_send_reminders] makes of one pass:
    whether it counts, and what the [except] clause logs. *)
Definition counted (r : result bool) : bool :=
  match r with
  | Ok b => b
  | Raise _ => false
  end.

Definition caught (r : result bool) : list log_record :=
  match r with
  | Ok _ => []
  | Raise e => [Error_processing_row e]
  end.

(** ** Sample data *)

(** The configuration [load_config] writes when there is none. *)
Definition default_columns : gmap string string :=
  <["start_date" := "Start Date"]> (<["end_date" := "End Date"]> ∅).

Definition default_config : config :=
  mk_config default_columns [14; 7; 2; 1; -14]
    ["recipient1@example.com"; "recipient2@example.com"].

Definition failing_fallback : value -> result stamp := fun _ => Raise ValueError.

Definition delivering : list dispatch -> dispatch -> bool := fun _ _ => true.

(** 10 January 2025 *)
Definition sample_today : date := 739261.

Definition course_row (name start finish : string) : gmap string value :=
  <["Course Name" := VStr name]>
    (<["Start Date" := VStr start]> (<["End Date" := VStr finish]> ∅)).

(** A row with a start date and no end date column. *)
Definition open_row (name start : string) : gmap string value :=
  <["Course Name" := VStr name]> (<["Start Date" := VStr start]> ∅).

(** The default configuration with one reminder, three days before
    the start. *)
Definition three_days_config : config := with_reminder_days default_config [3].


(** The default configuration with an offset of zero added. *)
Definition zero_offset_config : config :=
  with_reminder_days default_config [14; 7; 2; 1; 0; -14].

(** A row with a name and no date columns. *)
Definition undated_row (name : string) : gmap string value :=
  <["Course Name" := VStr name]> ∅.

(** An identifier and a time stamp for the invitations of the
    examples. *)
Definition sample_uuid4 : Z -> string :=
  fun _ => "123e4567-e89b-42d3-a456-426614174000".

Definition sample_now_ics : Z -> string := fun _ => "20250110T090000Z".

(** ** Vocabulary of the further properties *)

(** The message a row gives rise to, read off its cells alone: the
    one [process_row] hands to the transport, if any. *)
Definition row_message (yf : year_format) (to_datetime : value -> result stamp)
  (cfg : config)
  (today : date) (row : gmap string value) : option dispatch :=
  match date_column cfg "start_date", date_column cfg "end_date" with
  | Ok sc, Ok ec =>
      match fst (parse_date to_datetime (row_get row sc VNone)),
            fst (parse_date to_datetime (row_get row ec VNone)) with
      | Ok (Some sd), Ok ed =>
          match reminder_due cfg today (Some sd) ed,
                stamp_strftime_iso yf sd,
                match ed with
                | Some e => stamp_strftime_iso yf e
                | None => Ok "N/A"
                end with
          | Ok (Some ty), Ok start_text, Ok end_text =>
              Some (reminder_message (row_event_data row start_text end_text) ty)
          | _, _, _ => None
          end
      | _, _ => None
      end
  | _, _ => None
  end.

(** How many of the messages [extra], handed to the transport one
    after the other on top of [ob], it delivers. *)
Fixpoint successes (transport : list dispatch -> dispatch -> bool)
  (ob extra : list dispatch) : Z :=
  match extra with
  | [] => 0
  | d :: rest =>
      (if transport ob d then 1 else 0) + successes transport (ob ++ [d]) rest
  end.

(** The five reminder types of [check_and_send_reminders]. *)
Definition reminder_types : list string :=
  ["2_weeks_before"; "1_week_before"; "2_days_before"; "1_day_before";
   "2_weeks_after"].

(** A transport that delivers nothing. *)
Definition refusing : list dispatch -> dispatch -> bool := fun _ _ => false.

(** The default configuration without its [date_columns] entries. *)
Definition columnless_config : config :=
  mk_config ∅ [14; 7; 2; 1; -14] ["recipient1@example.com"].

(** The default configuration with one more reminder, three thousand
    years before the start. *)
Definition far_offset_config : config :=
  with_reminder_days default_config [14; 1095000].

(** A check that can be run on every value of a field of a date or
    time: written with [w] digits, the value is matched by the
    directive [d] as a whole, by the first alternative that matches,
    and read back as the same number. *)
Definition field_ok (d : Strptime.directive) (w : nat) (v : Z) : bool :=
  let zf := list_ascii_of_string (zfill w v) in
  match Strptime.matches [Strptime.Dir d] zf with
  | ([(d', m)], []) :: _ =>
      String.eqb (string_of_list_ascii m) (zfill w v)
      && (int_of_digits zf =? v)
      && forallb (fun alt => (length alt <=? length zf)%nat) (Strptime.alternatives d)
      && match zf with
         | c :: _ => is_digit c && negb (Strptime.is_space c)
         | [] => false
         end
  | _ => false
  end.

(** Written with four digits, the year is four digits. *)
Definition four_digits (y : Z) : bool :=
  match list_ascii_of_string (zfill 4 y) with
  | [a; b; c; d] => is_digit a && is_digit b && is_digit c && is_digit d
  | _ => false
  end.

(** [f] holds of the [n] integers from [lo] on. *)
Definition range_ok (f : Z -> bool) (lo : Z) (n : nat) : bool :=
  forallb (fun i => f (lo + Z.of_nat i)) (seq 0 n).

(** The date of a time stamp, at midnight: what [%Y-%m-%d] reads. *)
Definition midnight (t : datetime) : datetime :=
  mk_datetime (year t) (month t) (day t) 0 0 0.

(** From the year 1000 on, the number of a year has four digits as
    it is. *)
Definition year_as_it_is (y : Z) : bool := String.eqb (str_of_Z y) (zfill 4 y).

(** Before the year 1000 it has one to three digits. *)
Definition short_year (y : Z) : bool :=
  let ds := list_ascii_of_string (str_of_Z y) in
  (1 <=? length ds)%nat && (length ds <=? 3)%nat && forallb is_digit ds.

(** ** Loading the workbook *)

Module Loading.

(** A data frame: its columns, and its rows with one cell per
    column.  [pd.read_excel(excel_file, sheet_name=None)] gives one
    per sheet, in sheet order, under the sheet's name. *)
Record frame : Type := mk_frame {
  columns : gset string;
  rows : list (gmap string value)
}.

Definition well_formed (df : frame) : Prop :=
  Forall (fun row => dom row = columns df) (rows df).

(** [df['Sheet'] = sheet_name] *)
Definition set_sheet (sheet_name : string) (df : frame) : frame :=
  mk_frame ({["Sheet"]} ∪ columns df)
    (map (insert "Sheet" (VStr sheet_name)) (rows df)).

Inductive load_error : Set :=
| FileNotFoundError
| No_objects_to_concatenate.

Inductive loaded (A : Type) : Type :=
| Returned (a : A)
| Failed (e : load_error).
Arguments Returned {A} a.
Arguments Failed {A} e.

Inductive daily_record : Type :=
| Starting_daily_check
| Loaded_records (n : nat)
| Error_loading_schedule_data (e : load_error)
| During_check (r : log_record)
| Daily_check_completed (n : Z)
| Error_in_daily_check (e : load_error + exn).

Section Frames.

(** The missing value [pd.concat] puts into the cells of a column a
    frame does not have ([NaN], or [NaT] in a column of dates). *)
Variable fill : string -> value.

(** A row on the columns [cols]: its own cell where it has one. *)
Definition reindex (cols : gset string) (row : gmap string value)
  : gmap string value :=
  set_to_map (fun c => (c, default (fill c) (row !! c))) cols.

(** [pd.concat(all_data, ignore_index=True)]: the rows of the frames
    in order, on the union of their columns; [ValueError] for no
    frame at all. *)
Definition concat (all_data : list frame) : loaded (list (gmap string value)) :=
  match all_data with
  | [] => Failed No_objects_to_concatenate
  | _ :: _ =>
      let cols := ⋃ (columns <$> all_data) in
      Returned (flat_map (fun df => map (reindex cols) (rows df)) all_data)
  end.

(** [load_schedule_data()]; the workbook is [None] when the file is
    not there.  The exception is logged and raised again. *)
Definition load_schedule_data (workbook : option (list (string * frame)))
  : loaded (list (gmap string value)) * list daily_record :=
  match workbook with
  | None => (Failed FileNotFoundError, [Error_loading_schedule_data FileNotFoundError])
  | Some excel_data =>
      let all_data := map (fun nd => set_sheet (fst nd) (snd nd)) excel_data in
      match concat all_data with
      | Returned schedule_data =>
          (Returned schedule_data, [Loaded_records (length schedule_data)])
      | Failed e => (Failed e, [Error_loading_schedule_data e])
      end
  end.

Variable yf : year_format.
Variable to_datetime : value -> result stamp.
Variable transport : list dispatch -> dispatch -> bool.
Variable cfg : config.

(** [run_daily_check()]: the log it writes and the messages handed
    to the transport; it returns nothing and catches every exception. *)
Definition run_daily_check (workbook : option (list (string * frame))) (today : date)
  (ob : list dispatch) : list daily_record * list dispatch :=
  match load_schedule_data workbook with
  | (Returned schedule_data, l) =>
      match check_and_send_reminders yf to_datetime transport cfg today schedule_data ob
      with
      | (Ok sent_count, l', ob') =>
          (Starting_daily_check :: l ++ map During_check l'
           ++ [Daily_check_completed sent_count], ob')
      | (Raise e, l', ob') =>
          (Starting_daily_check :: l ++ map During_check l'
           ++ [Error_in_daily_check (inr e)], ob')
      end
  | (Failed e, l) =>
      (Starting_daily_check :: l ++ [Error_in_daily_check (inl e)], ob)
  end.

End Frames.

End Loading.

(** Two sheets for the examples: the first has a program column, the
    second has none. *)
Definition sample_workbook : list (string * Loading.frame) :=
  [("KCDS",
    Loading.mk_frame {["Course Name"; "Start Date"; "Program Name"]}
      [<["Course Name" := VStr "A"]>
         (<["Start Date" := VStr "2025-01-24"]> (<["Program Name" := VStr "P"]> ∅))]);
   ("NLP",
    Loading.mk_frame {["Course Name"; "Start Date"]}
      [<["Course Name" := VStr "B"]> (<["Start Date" := VStr "2025-01-17"]> ∅)])].

Definition nan_fill : string -> value := fun _ => VNaN.

(** The columns of the loaded schedule: [Sheet] and the columns of
    every sheet. *)
Definition all_columns (excel_data : list (string * Loading.frame)) : gset string :=
  {["Sheet"]} ∪ ⋃ ((fun nd => Loading.columns (snd nd)) <$> excel_data).

(** What a row of the sheet [sheet_name] becomes in the loaded
    schedule. *)
Definition loaded_row (fill : string -> value)
  (excel_data : list (string * Loading.frame)) (sheet_name : string)
  (row : gmap string value) : gmap string value :=
  Loading.reindex fill (all_columns excel_data) (<["Sheet" := VStr sheet_name]> row).

(** ** Sending the invitations *)

Module Sending.

(** [os.path.basename(path)] with [/] as separator: what follows the
    last slash; [acc] is what was read since the last one. *)
Fixpoint basename_from (acc path : string) : string :=
  match path with
  | EmptyString => acc
  | String c rest =>
      if Ascii.eqb c "/" then basename_from EmptyString rest
      else basename_from (acc +:+ String c EmptyString) rest
  end.

Definition basename (path : string) : string := basename_from EmptyString path.

(** [s.replace(old, new)] for a non-empty [old]: the occurrences of
    [old] from left to right, without overlap; [skip] characters of an
    occurrence just replaced are still to be passed. *)
Fixpoint replace_from (skip : nat) (old new s : string) : string :=
  match s with
  | EmptyString => EmptyString
  | String c rest =>
      match skip with
      | S k => replace_from k old new rest
      | O =>
          if String.prefix old s
          then new +:+ replace_from (String.length old - 1) old new rest
          else String c (replace_from 0 old new rest)
      end
  end.

Definition str_replace (old new s : string) : string := replace_from 0 old new s.

(** The course name [send_all_calendar_invitations] takes from a
    file name. *)
Definition course_name_of_file (ics_file : string) : string :=
  replace_char "_" " " (str_replace ".ics" "" (basename ics_file)).

(** A message [send_calendar_invitation_email] hands to the SMTP
    session. *)
Record mail : Set := mk_mail {
  recipient : string;
  ics_file : string;
  course_name : string
}.

(** What [f.read()] returns: text for a file opened in text mode,
    bytes for one opened with ['rb']. *)
Inductive file_content : Set :=
| Text (s : string)
| Bytes (b : string).

(** [MIMEText(_text)] with no character set given: the constructor
    starts with [_text.encode('us-ascii')], a method text has and bytes
    have not. *)
Definition MIMEText (_text : file_content) : result string :=
  match _text with
  | Text s => Ok s
  | Bytes _ => Raise AttributeError
  end.

(** The files on disk, by path, once [files] have been written in
    order. *)
Fixpoint write_files (disk : gmap string string) (files : list (string * string))
  : gmap string string :=
  match files with
  | [] => disk
  | (path, content) :: rest => write_files (<[path := content]> disk) rest
  end.

(** [open(path, 'rb').read()]; a path that is not there raises
    [FileNotFoundError]. *)
Definition read_bytes (disk : gmap string string) (path : string) : result file_content :=
  match disk !! path with
  | Some content => Ok (Bytes content)
  | None => Raise OtherError
  end.

Section Send.

Variable yf : year_format.
Variable uuid4 : Z -> string.
Variable now_ics : Z -> string.

(** The outcome of the SMTP session for a mail, given the mails
    handed over before it. *)
Variable transport : list mail -> mail -> bool.

(** [send_calendar_invitation_email(recipient_email, ics_file_path,
    course_name)] with the mails handed over so far.  The attachment
    is made of the file before the [try] that guards the SMTP session,
    so what [open] or [MIMEText] raise leaves the function. *)
Definition send_calendar_invitation_email (disk : gmap string string)
  (recipient_email ics_file_path course_name : string) (sent : list mail)
  : result bool * list mail :=
  match read_bytes disk ics_file_path with
  | Raise e => (Raise e, sent)
  | Ok content =>
      match MIMEText content with
      | Raise e => (Raise e, sent)
      | Ok _ =>
          let m := mk_mail recipient_email ics_file_path course_name in
          (Ok (transport sent m), sent ++ [m])
      end
  end.

(** The inner loop over [config['recipients']]. *)
Fixpoint send_to_recipients (disk : gmap string string) (file name : string)
  (recipients : list string) (sent : list mail) (success_count : Z)
  : result Z * list mail :=
  match recipients with
  | [] => (Ok success_count, sent)
  | r :: rest =>
      match send_calendar_invitation_email disk r file name sent with
      | (Raise e, sent') => (Raise e, sent')
      | (Ok delivered, sent') =>
          send_to_recipients disk file name rest sent'
            (if delivered then success_count + 1 else success_count)
      end
  end.

(** The outer loop over [calendar_files]. *)
Fixpoint send_files (disk : gmap string string) (calendar_files recipients : list string)
  (sent : list mail) (success_count : Z) : result Z * list mail :=
  match calendar_files with
  | [] => (Ok success_count, sent)
  | file :: rest =>
      match send_to_recipients disk file (course_name_of_file file) recipients sent
              success_count with
      | (Raise e, sent') => (Raise e, sent')
      | (Ok success_count', sent') => send_files disk rest recipients sent' success_count'
      end
  end.

(** [send_all_calendar_invitations()] on the loaded schedule and the
    files on disk before it: what it returns or raises, with the two
    numbers of the closing log line ([None] when it returns early for
    want of files), and the mails handed to the SMTP session. *)
Definition send_all_calendar_invitations (disk : gmap string string)
  (schedule_data : list (gmap string value)) (recipients : list string)
  : result (option (Z * Z)) * list mail :=
  let created := Invite.create_calendar_invitations yf uuid4 now_ics schedule_data in
  let calendar_files := map fst created in
  match calendar_files with
  | [] => (Ok None, [])
  | _ :: _ =>
      let total_emails :=
        Z.of_nat (length calendar_files) * Z.of_nat (length recipients) in
      match send_files (write_files disk created) calendar_files recipients [] 0 with
      | (Raise e, sent) => (Raise e, sent)
      | (Ok success_count, sent) => (Ok (Some (success_count, total_emails)), sent)
      end
  end.

End Send.

End Sending.

(** * Properties *)

(** ** The model on concrete inputs *)

Example strptime_iso_ex :
  Strptime.strptime "2025-01-10" "%Y-%m-%d" = Ok (mk_datetime 2025 1 10 0 0 0).
Proof. vm_compute. reflexivity. Qed.

Example strptime_stamp_ex :
  Strptime.strptime "2025-01-10  09:05:00" "%Y-%m-%d %H:%M:%S"
  = Ok (mk_datetime 2025 1 10 9 5 0).
Proof. vm_compute. reflexivity. Qed.

Example strptime_bad_day_ex :
  Strptime.strptime "02/30/2025" "%m/%d/%Y" = Raise ValueError.
Proof. vm_compute. reflexivity. Qed.

Example strptime_leftover_ex :
  Strptime.strptime "2025-01-32" "%Y-%m-%d" = Raise ValueError.
Proof. vm_compute. reflexivity. Qed.

Example sample_today_ex : date_of (mk_datetime 2025 1 10 0 0 0) = sample_today.
Proof. vm_compute. reflexivity. Qed.

Example max_ordinal_ex : date_of (mk_datetime 9999 12 31 0 0 0) = _MAXORDINAL.
Proof. vm_compute. reflexivity. Qed.

Example min_ordinal_ex : date_of (mk_datetime 1 1 1 0 0 0) = 1.
Proof. vm_compute. reflexivity. Qed.

(** ** Date arithmetic *)

Lemma representableb_spec o : representableb o = true <-> representable o.
Proof.
  unfold representableb, representable.
  rewrite andb_true_iff, Z.ltb_lt, Z.leb_le. tauto.
Qed.

Lemma date_minus_days_ok d n :
  representable (d - n) -> date_minus_days d n = Ok (d - n).
Proof.
  intros H. unfold date_minus_days.
  apply representableb_spec in H. cbv zeta. rewrite H. reflexivity.
Qed.

Lemma date_minus_days_inv d n o :
  date_minus_days d n = Ok o -> o = d - n.
Proof.
  unfold date_minus_days. cbv zeta.
  destruct (representableb (d - n)); congruence.
Qed.

(** ** Enumeration of the reminder dates *)

Lemma enumerate_cons today sd ed days rest :
  enumerate today sd ed (days :: rest)
  = match candidate sd ed days with
    | Some c => if c >=? today then c :: enumerate today sd ed rest
                else enumerate today sd ed rest
    | None => enumerate today sd ed rest
    end.
Proof.
  unfold enumerate. simpl.
  destruct (candidate sd ed days) as [c|]; [|reflexivity].
  rewrite filter_cons.
  destruct (Z.geb_spec c today); case_decide; try lia; reflexivity.
Qed.

Lemma enumerate_nil today sd ed : enumerate today sd ed [] = [].
Proof. reflexivity. Qed.

Lemma elem_of_enumerate today sd ed x days_list :
  x ∈ enumerate today sd ed days_list
  <-> today <= x /\ exists days, days ∈ days_list /\ candidate sd ed days = Some x.
Proof.
  unfold enumerate. rewrite list_elem_of_filter, list_elem_of_omap. tauto.
Qed.

(** One step of the loop, on a record whose dates are proper time
    stamps. *)
Lemma reminder_days_loop_cons today s fin days rest acc :
  reminder_days_loop today (Moment s) (option_map Moment fin) (days :: rest) acc
  = match candidate (date_of s) (option_map date_of fin) days with
    | Some c =>
        if representableb c
        then reminder_days_loop today (Moment s) (option_map Moment fin) rest
               (if c >=? today then acc ++ [c] else acc)
        else Raise OverflowError
    | None => reminder_days_loop today (Moment s) (option_map Moment fin) rest acc
    end.
Proof.
  simpl. unfold candidate, date_minus_days.
  destruct (days >? 0).
  - simpl. destruct (representableb (date_of s - days)); reflexivity.
  - destruct (days <? 0); [|reflexivity].
    destruct fin as [e|]; simpl; [|reflexivity].
    destruct (representableb (date_of e - days)); reflexivity.
Qed.

Lemma reminder_days_loop_ok today s fin days_list : forall acc,
  offsets_representable (date_of s) (option_map date_of fin) days_list ->
  reminder_days_loop today (Moment s) (option_map Moment fin) days_list acc
  = Ok (acc ++ enumerate today (date_of s) (option_map date_of fin) days_list).
Proof.
  induction days_list as [|days rest IH]; intros acc Hrep.
  - simpl. rewrite enumerate_nil, app_nil_r. reflexivity.
  - apply Forall_cons in Hrep as [Hd Hrest].
    rewrite reminder_days_loop_cons, enumerate_cons.
    destruct (candidate (date_of s) (option_map date_of fin) days) as [c|];
      [|apply IH; assumption].
    specialize (Hd c eq_refl). apply representableb_spec in Hd. rewrite Hd.
    rewrite IH by assumption.
    destruct (c >=? today); [|reflexivity].
    rewrite <- app_assoc. reflexivity.
Qed.

Lemma reminder_days_loop_inv today s fin days_list : forall acc l,
  reminder_days_loop today (Moment s) (option_map Moment fin) days_list acc = Ok l ->
  l = acc ++ enumerate today (date_of s) (option_map date_of fin) days_list.
Proof.
  induction days_list as [|days rest IH]; intros acc l H.
  - simpl in H. injection H as <-. rewrite enumerate_nil, app_nil_r. reflexivity.
  - rewrite reminder_days_loop_cons in H. rewrite enumerate_cons.
    destruct (candidate (date_of s) (option_map date_of fin) days) as [c|];
      [|apply IH; assumption].
    destruct (representableb c); [|discriminate].
    apply IH in H. subst l.
    destruct (c >=? today); [|reflexivity].
    rewrite <- app_assoc. reflexivity.
Qed.

Lemma elem_of_merge_sort_le (x : Z) (l : list Z) : x ∈ merge_sort Z.le l <-> x ∈ l.
Proof. rewrite merge_sort_Permutation. reflexivity. Qed.

Lemma date_in_spec d ds : date_in d ds = true <-> d ∈ ds.
Proof. unfold date_in. apply bool_decide_eq_true. Qed.

Lemma get_reminder_dates_ok cfg today s fin :
  offsets_representable (date_of s) (option_map date_of fin) (reminder_days cfg) ->
  get_reminder_dates cfg today (Some (Moment s)) (option_map Moment fin)
  = Ok (merge_sort Z.le
          (enumerate today (date_of s) (option_map date_of fin) (reminder_days cfg))).
Proof.
  intros H. unfold get_reminder_dates.
  rewrite reminder_days_loop_ok by assumption. reflexivity.
Qed.

Lemma get_reminder_dates_inv cfg today s fin dates :
  get_reminder_dates cfg today (Some (Moment s)) (option_map Moment fin) = Ok dates ->
  dates = merge_sort Z.le
            (enumerate today (date_of s) (option_map date_of fin) (reminder_days cfg)).
Proof.
  unfold get_reminder_dates. intros H.
  destruct (reminder_days_loop today (Moment s) (option_map Moment fin)
              (reminder_days cfg) []) as [l|] eqn:Hl; [|discriminate].
  apply reminder_days_loop_inv in Hl. simpl in H. injection H as <-.
  rewrite Hl. reflexivity.
Qed.

(** ** Parsing never raises *)

Lemma new_datetime_raises y m d H M S e :
  new_datetime y m d H M S = Raise e -> e = ValueError.
Proof.
  unfold new_datetime. cbv zeta.
  destruct (check_fields _); congruence.
Qed.

Lemma strptime_raises data fmt e :
  Strptime.strptime data fmt = Raise e -> e = ValueError.
Proof.
  unfold Strptime.strptime.
  destruct (Strptime.compile _) as [ts|]; [|congruence].
  destruct (Strptime.matches _ _) as [|[found rest] ?]; [congruence|].
  destruct rest; [|congruence].
  apply new_datetime_raises.
Qed.

Lemma try_formats_total s fmts : exists o, try_formats s fmts = Ok o.
Proof.
  induction fmts as [|fmt rest IH]; simpl; [eauto|].
  destruct (Strptime.strptime s fmt) as [t|e] eqn:E; [eauto|].
  apply strptime_raises in E. subst e. exact IH.
Qed.

Lemma parse_date_total to_datetime v :
  exists o l, parse_date to_datetime v = (Ok o, l).
Proof.
  unfold parse_date.
  destruct (isna v); [eauto|].
  destruct (try_formats_total (str v) date_formats) as [o ->].
  destruct o; [eauto|].
  destruct (to_datetime v); eauto.
Qed.

(** The first format that parses decides; formats before it raised
    [ValueError]. *)
Lemma try_formats_first s pre fmt post t :
  Forall (fun f => Strptime.strptime s f = Raise ValueError) pre ->
  Strptime.strptime s fmt = Ok t ->
  try_formats s (pre ++ fmt :: post) = Ok (Some t).
Proof.
  intros Hpre Hfmt. induction Hpre as [|f pre Hf _ IH]; simpl.
  - rewrite Hfmt. reflexivity.
  - rewrite Hf. exact IH.
Qed.

Lemma try_formats_none s fmts :
  Forall (fun f => Strptime.strptime s f = Raise ValueError) fmts ->
  try_formats s fmts = Ok None.
Proof.
  intros H. induction H as [|f fmts Hf _ IH]; simpl; [reflexivity|].
  rewrite Hf. exact IH.
Qed.

Lemma try_formats_none_inv s fmts :
  try_formats s fmts = Ok None ->
  Forall (fun f => Strptime.strptime s f = Raise ValueError) fmts.
Proof.
  induction fmts as [|f fmts IH]; simpl; intros H; [constructor|].
  destruct (Strptime.strptime s f) as [t|e] eqn:E; [discriminate|].
  pose proof (strptime_raises _ _ _ E) as ->.
  constructor; [exact E | apply IH, H].
Qed.

(** ** One row of the reminder check *)

Section Rows.

Variable yf : year_format.
Variable to_datetime : value -> result stamp.
Variable transport : list dispatch -> dispatch -> bool.
Variable cfg : config.

(** The row whose dates parse and for which a reminder is due: one
    message goes to the transport. *)
Lemma process_row_due today row ob sc ec sd ed l1 l2 ty start_text end_text :
  date_column cfg "start_date" = Ok sc ->
  date_column cfg "end_date" = Ok ec ->
  parse_date to_datetime (row_get row sc VNone) = (Ok (Some sd), l1) ->
  parse_date to_datetime (row_get row ec VNone) = (Ok ed, l2) ->
  reminder_due cfg today (Some sd) ed = Ok (Some ty) ->
  stamp_strftime_iso yf sd = Ok start_text ->
  match ed with Some e => stamp_strftime_iso yf e | None => Ok "N/A" end = Ok end_text ->
  let d := reminder_message (row_event_data row start_text end_text) ty in
  process_row yf to_datetime transport cfg today row ob
  = (Ok (transport ob d),
     l1 ++ l2
     ++ (if transport ob d
         then [Email_sent_successfully (length (recipients cfg));
               Sent_reminder ty (event_name (d_event d))]
         else [Failed_to_send_email]),
     ob ++ [d]).
Proof.
  intros Hsc Hec Hs He Hdue Hst Het d.
  unfold process_row, bind, lift, emit, send_email, logger, ret.
  rewrite Hsc, Hs. cbn [fst snd]. rewrite Hec, He. cbn [fst snd].
  rewrite Hdue, Hst, Het. fold d.
  destruct (transport ob d); cbn [app]; rewrite ?app_nil_r; reflexivity.
Qed.

(** Every pass either leaves the outbox as it was and does not
    count, or is the pass of [process_row_due]. *)
Lemma process_row_cases today row ob :
  (outbox_of (process_row yf to_datetime transport cfg today row ob) = ob
   /\ result_of (process_row yf to_datetime transport cfg today row ob) <> Ok true)
  \/ exists sc ec sd ed l1 l2 ty start_text end_text,
      date_column cfg "start_date" = Ok sc
      /\ date_column cfg "end_date" = Ok ec
      /\ parse_date to_datetime (row_get row sc VNone) = (Ok (Some sd), l1)
      /\ parse_date to_datetime (row_get row ec VNone) = (Ok ed, l2)
      /\ reminder_due cfg today (Some sd) ed = Ok (Some ty)
      /\ stamp_strftime_iso yf sd = Ok start_text
      /\ match ed with Some e => stamp_strftime_iso yf e | None => Ok "N/A" end
         = Ok end_text.
Proof.
  unfold process_row, bind, lift, emit, outbox_of, result_of.
  destruct (date_column cfg "start_date") as [sc|] eqn:Hsc;
    [|left; split; [reflexivity|discriminate]].
  destruct (parse_date to_datetime (row_get row sc VNone)) as [[sdo|] l1] eqn:Hs;
    cbn [fst snd]; [|left; split; [reflexivity|discriminate]].
  destruct (date_column cfg "end_date") as [ec|] eqn:Hec;
    [|left; split; [reflexivity|discriminate]].
  destruct (parse_date to_datetime (row_get row ec VNone)) as [[ed|] l2] eqn:He;
    cbn [fst snd]; [|left; split; [reflexivity|discriminate]].
  destruct (reminder_due cfg today sdo ed) as [[ty|]|] eqn:Hdue;
    [ |left; split; [reflexivity|discriminate]..].
  destruct sdo as [sd|]; [|left; split; [reflexivity|discriminate]].
  destruct (stamp_strftime_iso yf sd) as [start_text|] eqn:Hst;
    [|left; split; [reflexivity|discriminate]].
  destruct (match ed with Some e => stamp_strftime_iso yf e | None => Ok "N/A" end)
    as [end_text|] eqn:Het; [|left; split; [reflexivity|discriminate]].
  right. exists sc, ec, sd, ed, l1, l2, ty, start_text, end_text. tauto.
Qed.

(** A pass adds at most one message. *)
Lemma process_row_outbox today row ob :
  exists extra,
    outbox_of (process_row yf to_datetime transport cfg today row ob) = ob ++ extra
    /\ (length extra <= 1)%nat.
Proof.
  destruct (process_row_cases today row ob) as [[Hob _]|H].
  - exists []. rewrite Hob, app_nil_r. split; [reflexivity|simpl; lia].
  - destruct H as (sc & ec & sd & ed & l1 & l2 & ty & st & et & H1 & H2 & H3 & H4 & H5 & H6 & H7).
    erewrite process_row_due by eassumption.
    eexists [_]. split; [reflexivity|simpl; lia].
Qed.

(** A row without a usable start date is passed over. *)
Lemma process_row_no_start today row ob sc l1 :
  date_column cfg "start_date" = Ok sc ->
  parse_date to_datetime (row_get row sc VNone) = (Ok None, l1) ->
  outbox_of (process_row yf to_datetime transport cfg today row ob) = ob
  /\ result_of (process_row yf to_datetime transport cfg today row ob) <> Ok true
  /\ exists l2, log_of (process_row yf to_datetime transport cfg today row ob) = l1 ++ l2
      /\ forall r, r ∈ l2 -> exists v, r = Could_not_parse_date v.
Proof.
  intros Hsc Hs.
  unfold process_row, bind, lift, emit, outbox_of, result_of, log_of.
  rewrite Hsc, Hs. cbn [fst snd].
  destruct (date_column cfg "end_date") as [ec|] eqn:Hec.
  - destruct (parse_date_total to_datetime (row_get row ec VNone)) as (ed & l2 & He).
    rewrite He. cbn [fst snd reminder_due ret].
    repeat split; try discriminate.
    exists l2. rewrite !app_nil_r. split; [reflexivity|].
    intros r Hr. unfold parse_date in He.
    destruct (isna _); [injection He as _ <-; inversion Hr|].
    destruct (try_formats _ _) as [[?|]|]; try (injection He as _ <-; inversion Hr).
    destruct (to_datetime _); injection He as _ <-.
    + inversion Hr.
    + apply list_elem_of_singleton in Hr. eauto.
  - cbn [fst snd]. repeat split; try discriminate.
    exists []. split; [rewrite app_nil_r; reflexivity|]. intros r Hr. inversion Hr.
Qed.

End Rows.

(** ** The loop over the rows *)

Section Batch.

Variable yf : year_format.
Variable to_datetime : value -> result stamp.
Variable transport : list dispatch -> dispatch -> bool.
Variable cfg : config.

Abbreviation process := (process_row yf to_datetime transport cfg).
Abbreviation loop := (iterrows yf to_datetime transport cfg).

(** One pass, then the rest of the loop. *)
Lemma iterrows_cons today row rest k ob r l ob1 r2 l2 ob2 :
  process today row ob = (r, l, ob1) ->
  loop today rest (if counted r then k + 1 else k) ob1 = (r2, l2, ob2) ->
  loop today (row :: rest) k ob = (r2, (l ++ caught r) ++ l2, ob2).
Proof.
  intros Hp Hq. cbn [iterrows]. unfold bind at 1. unfold try_except.
  rewrite Hp. destruct r as [b|e]; cbn [counted caught] in *.
  - rewrite Hq, app_nil_r. reflexivity.
  - unfold bind, logger, ret. cbn [app]. rewrite Hq. reflexivity.
Qed.

(** No exception leaves the loop. *)
Lemma iterrows_total today rows : forall k ob,
  exists n l ob', loop today rows k ob = (Ok n, l, ob').
Proof.
  induction rows as [|row rest IH]; intros k ob.
  - exists k, [], ob. reflexivity.
  - destruct (process today row ob) as [[r l] ob1] eqn:Hp.
    destruct (IH (if counted r then k + 1 else k) ob1) as (n & l2 & ob2 & Hq).
    exists n, ((l ++ caught r) ++ l2), ob2.
    eapply iterrows_cons; eassumption.
Qed.

Lemma iterrows_app today pre post : forall k ob m l1 ob1 r l2 ob2,
  loop today pre k ob = (Ok m, l1, ob1) ->
  loop today post m ob1 = (r, l2, ob2) ->
  loop today (pre ++ post) k ob = (r, l1 ++ l2, ob2).
Proof.
  induction pre as [|row rest IH]; intros k ob m l1 ob1 r l2 ob2 Hpre Hpost.
  - cbn in Hpre. injection Hpre as <- <- <-. exact Hpost.
  - destruct (process today row ob) as [[r0 l0] ob0] eqn:Hp.
    destruct (loop today rest (if counted r0 then k + 1 else k) ob0)
      as [[r' l'] ob'] eqn:Hrest.
    rewrite (iterrows_cons _ _ _ _ _ _ _ _ _ _ _ Hp Hrest) in Hpre.
    injection Hpre as -> <- ->.
    rewrite <- app_comm_cons.
    erewrite iterrows_cons; [|exact Hp|eapply IH; eassumption].
    rewrite app_assoc. reflexivity.
Qed.

(** A pass that neither sends nor counts can be dropped from the
    batch: the count and the messages of the run are the same. *)
Lemma iterrows_drop today pre row post k ob :
  (forall ob', outbox_of (process today row ob') = ob'
               /\ result_of (process today row ob') <> Ok true) ->
  result_of (loop today (pre ++ row :: post) k ob)
  = result_of (loop today (pre ++ post) k ob)
  /\ outbox_of (loop today (pre ++ row :: post) k ob)
     = outbox_of (loop today (pre ++ post) k ob).
Proof.
  intros Hinert.
  destruct (iterrows_total today pre k ob) as (m & l1 & ob1 & Hpre).
  destruct (Hinert ob1) as [Hob Hres].
  destruct (process today row ob1) as [[r0 l0] ob0] eqn:Hp.
  unfold outbox_of, result_of in Hob, Hres. cbn [fst snd] in Hob, Hres. subst ob0.
  assert (Hc : counted r0 = false).
  { destruct r0 as [[|]|]; [congruence|reflexivity..]. }
  destruct (loop today post m ob1) as [[r2 l2] ob2] eqn:Hpost.
  assert (Hrow : loop today (row :: post) m ob1 = (r2, (l0 ++ caught r0) ++ l2, ob2)).
  { eapply iterrows_cons; [exact Hp|]. rewrite Hc. exact Hpost. }
  rewrite (iterrows_app _ _ _ _ _ _ _ _ _ _ _ Hpre Hrow).
  rewrite (iterrows_app _ _ _ _ _ _ _ _ _ _ _ Hpre Hpost).
  split; reflexivity.
Qed.

(** The run adds at most one message per row. *)
Lemma iterrows_outbox today rows : forall k ob,
  exists extra,
    outbox_of (loop today rows k ob) = ob ++ extra
    /\ (length extra <= length rows)%nat.
Proof.
  induction rows as [|row rest IH]; intros k ob.
  - exists []. rewrite app_nil_r. split; [reflexivity|simpl; lia].
  - destruct (process_row_outbox yf to_datetime transport cfg today row ob)
      as (e1 & He1 & Hl1).
    destruct (process today row ob) as [[r0 l0] ob0] eqn:Hp.
    unfold outbox_of in He1. cbn [snd] in He1. subst ob0.
    destruct (IH (if counted r0 then k + 1 else k) (ob ++ e1)) as (e2 & He2 & Hl2).
    destruct (loop today rest (if counted r0 then k + 1 else k) (ob ++ e1))
      as [[r2 l2] ob2] eqn:Hrest.
    erewrite iterrows_cons; [|exact Hp|exact Hrest].
    unfold outbox_of in *. cbn [snd] in *. subst ob2.
    exists (e1 ++ e2). rewrite app_assoc. split; [reflexivity|].
    rewrite length_app. simpl. lia.
Qed.

Lemma check_and_send_reminders_eq today rows ob n l ob' :
  loop today rows 0 ob = (Ok n, l, ob') ->
  check_and_send_reminders yf to_datetime transport cfg today rows ob
  = (Ok n, l ++ [Sent_reminders_today n], ob').
Proof.
  intros H. unfold check_and_send_reminders, bind, logger, ret.
  rewrite H. reflexivity.
Qed.

End Batch.

(** ** The reminder type of the day *)

Lemma determine_reminder_type_ascending today s ed r :
  determine_reminder_type today (Moment s) ed = Ok r ->
  r = first_match_ascending (days_between (date_of s) today) (days_since_end today ed).
Proof.
  unfold determine_reminder_type, first_match_ascending, ascending_before_start.
  cbn [stamp_date rbind find fst snd].
  set (diff := days_between (date_of s) today).
  destruct (Z.eqb_spec diff 14) as [E14|N14].
  { rewrite E14. cbn. congruence. }
  destruct (Z.eqb_spec diff 7) as [E7|N7].
  { rewrite E7. cbn. congruence. }
  destruct (Z.eqb_spec diff 2) as [E2|N2].
  { rewrite E2. cbn. congruence. }
  destruct (Z.eqb_spec diff 1) as [E1|N1].
  { cbn. congruence. }
  destruct ed as [[e|]|]; cbn [stamp_date rbind days_since_end].
  - destruct (days_between today (date_of e) =? 14); congruence.
  - discriminate.
  - congruence.
Qed.

Lemma determine_reminder_type_moment today sd ed r :
  determine_reminder_type today sd ed = Ok r -> exists s, sd = Moment s.
Proof.
  destruct sd as [s|]; [eauto|]. unfold determine_reminder_type. cbn. discriminate.
Qed.

(** A reminder is due only on a listed date, with the type the
    branches give. *)
Lemma reminder_due_some cfg today sd ed ty :
  reminder_due cfg today (Some sd) ed = Ok (Some ty) ->
  determine_reminder_type today sd ed = Ok (Some ty)
  /\ exists dates, get_reminder_dates cfg today (Some sd) ed = Ok dates
                   /\ today ∈ dates.
Proof.
  unfold reminder_due.
  destruct (get_reminder_dates cfg today (Some sd) ed) as [dates|]; [|discriminate].
  cbn [rbind]. destruct (date_in today dates) eqn:Hin; [|discriminate].
  intros H. split; [exact H|]. exists dates. split; [reflexivity|].
  apply date_in_spec, Hin.
Qed.

Lemma reminder_due_listed cfg today sd ed dates :
  get_reminder_dates cfg today (Some sd) ed = Ok dates ->
  today ∈ dates ->
  reminder_due cfg today (Some sd) ed = determine_reminder_type today sd ed.
Proof.
  intros Hd Hin. unfold reminder_due. rewrite Hd. cbn [rbind].
  apply date_in_spec in Hin. rewrite Hin. reflexivity.
Qed.

Lemma reminder_due_not_listed cfg today sd ed dates :
  get_reminder_dates cfg today (Some sd) ed = Ok dates ->
  today ∉ dates ->
  reminder_due cfg today (Some sd) ed = Ok None.
Proof.
  intros Hd Hin. unfold reminder_due. rewrite Hd. cbn [rbind].
  destruct (date_in today dates) eqn:E; [|reflexivity].
  apply date_in_spec in E. contradiction.
Qed.

(** ** Reminders before the start *)

Lemma before_start_type_inv d ty :
  before_start_type d = Some ty ->
  (d = 14 /\ ty = "2_weeks_before") \/ (d = 7 /\ ty = "1_week_before")
  \/ (d = 2 /\ ty = "2_days_before") \/ (d = 1 /\ ty = "1_day_before").
Proof.
  unfold before_start_type.
  destruct (Z.eqb_spec d 14); [intros [= <-]; auto|].
  destruct (Z.eqb_spec d 7); [intros [= <-]; auto|].
  destruct (Z.eqb_spec d 2); [intros [= <-]; auto|].
  destruct (Z.eqb_spec d 1); [intros [= <-]; auto 6|].
  discriminate.
Qed.

Lemma before_start_type_none d :
  before_start_type d = None <-> d <> 14 /\ d <> 7 /\ d <> 2 /\ d <> 1.
Proof.
  unfold before_start_type.
  destruct (Z.eqb_spec d 14); [split; [discriminate|tauto]|].
  destruct (Z.eqb_spec d 7); [split; [discriminate|tauto]|].
  destruct (Z.eqb_spec d 2); [split; [discriminate|tauto]|].
  destruct (Z.eqb_spec d 1); [split; [discriminate|tauto]|].
  tauto.
Qed.

(** The four equality tests on [days_diff] are the label table. *)
Lemma determine_reminder_type_before today s ed ty :
  before_start_type (days_between (date_of s) today) = Some ty ->
  determine_reminder_type today (Moment s) ed = Ok (Some ty).
Proof.
  unfold determine_reminder_type, before_start_type. cbn [stamp_date rbind].
  destruct (_ =? 14); [congruence|].
  destruct (_ =? 7); [congruence|].
  destruct (_ =? 2); [congruence|].
  destruct (_ =? 1); [congruence|discriminate].
Qed.

Lemma determine_reminder_type_else today s ed :
  before_start_type (days_between (date_of s) today) = None ->
  determine_reminder_type today (Moment s) ed
  = match ed with
    | Some e =>
        let* d := stamp_date e in
        if days_between today d =? 14 then Ok (Some "2_weeks_after") else Ok None
    | None => Ok None
    end.
Proof.
  unfold determine_reminder_type, before_start_type. cbn [stamp_date rbind].
  destruct (_ =? 14); [discriminate|].
  destruct (_ =? 7); [discriminate|].
  destruct (_ =? 2); [discriminate|].
  destruct (_ =? 1); [discriminate|reflexivity].
Qed.

Lemma determine_reminder_type_before_inv today s ed d ty :
  before_start_type d = Some ty ->
  determine_reminder_type today (Moment s) ed = Ok (Some ty) ->
  days_between (date_of s) today = d.
Proof.
  intros Hd H.
  destruct (before_start_type (days_between (date_of s) today)) as [ty'|] eqn:E.
  - rewrite (determine_reminder_type_before _ _ _ _ E) in H. injection H as ->.
    apply before_start_type_inv in Hd, E.
    destruct Hd as [[-> ->]|[[-> ->]|[[-> ->]|[-> ->]]]];
      destruct E as [[E ?]|[[E ?]|[[E ?]|[E ?]]]]; congruence.
  - rewrite (determine_reminder_type_else _ _ _ E) in H.
    apply before_start_type_inv in Hd.
    destruct ed as [[e|]|]; cbn in H; try discriminate.
    destruct (_ =? 14); [|discriminate].
    destruct Hd as [[_ ->]|[[_ ->]|[[_ ->]|[_ ->]]]]; discriminate.
Qed.

Lemma offsets_representableb_spec sd ed days_list :
  offsets_representableb sd ed days_list = true ->
  offsets_representable sd ed days_list.
Proof.
  unfold offsets_representableb, offsets_representable.
  induction days_list as [|days rest IH]; cbn [forallb]; intros H; constructor.
  - apply andb_true_iff in H as [H _]. intros c Hc. rewrite Hc in H.
    apply representableb_spec, H.
  - apply IH. apply andb_true_iff in H as [_ H]. exact H.
Qed.

(** The candidate of a configured offset is listed exactly when it
    is not in the past. *)
Lemma candidate_listed cfg today s fin days c :
  offsets_representable (date_of s) (option_map date_of fin) (reminder_days cfg) ->
  days ∈ reminder_days cfg ->
  candidate (date_of s) (option_map date_of fin) days = Some c ->
  exists dates,
    get_reminder_dates cfg today (Some (Moment s)) (option_map Moment fin) = Ok dates
    /\ (today <= c -> c ∈ dates)
    /\ forall x, x ∈ dates -> today <= x.
Proof.
  intros Hrep Hin Hc. eexists. split; [apply get_reminder_dates_ok, Hrep|].
  split.
  - intros Hle. apply elem_of_merge_sort_le, elem_of_enumerate. eauto.
  - intros x Hx. apply elem_of_merge_sort_le, elem_of_enumerate in Hx. tauto.
Qed.

(** The pass over a row with proper dates for which [ty] is due. *)
Lemma process_row_due_proper yf to_datetime transport cfg today row ob sc ec s fin
  l1 l2 ty :
  date_column cfg "start_date" = Ok sc ->
  date_column cfg "end_date" = Ok ec ->
  parse_date to_datetime (row_get row sc VNone) = (Ok (Some (Moment s)), l1) ->
  parse_date to_datetime (row_get row ec VNone) = (Ok (option_map Moment fin), l2) ->
  reminder_due cfg today (Some (Moment s)) (option_map Moment fin) = Ok (Some ty) ->
  process_row yf to_datetime transport cfg today row ob
  = (Ok (transport ob (due_message yf row s fin ty)),
     l1 ++ l2
     ++ (if transport ob (due_message yf row s fin ty)
         then [Email_sent_successfully (length (recipients cfg));
               Sent_reminder ty (event_name (d_event (due_message yf row s fin ty)))]
         else [Failed_to_send_email]),
     ob ++ [due_message yf row s fin ty]).
Proof.
  intros Hsc Hec Hs He Hdue.
  eapply process_row_due; try eassumption; [reflexivity|].
  destruct fin; reflexivity.
Qed.

(** What a pass adds to the outbox is the message of what is due. *)
Lemma process_row_sent_inv yf to_datetime transport cfg today row ob sc ec s fin
  l1 l2 extra m :
  date_column cfg "start_date" = Ok sc ->
  date_column cfg "end_date" = Ok ec ->
  parse_date to_datetime (row_get row sc VNone) = (Ok (Some (Moment s)), l1) ->
  parse_date to_datetime (row_get row ec VNone) = (Ok (option_map Moment fin), l2) ->
  outbox_of (process_row yf to_datetime transport cfg today row ob) = ob ++ extra ->
  m ∈ extra ->
  reminder_due cfg today (Some (Moment s)) (option_map Moment fin) = Ok (Some (d_type m))
  /\ m = due_message yf row s fin (d_type m)
  /\ extra = [m].
Proof.
  intros Hsc Hec Hs He Hob Hm.
  destruct (process_row_cases yf to_datetime transport cfg today row ob)
    as [[Hob' _]|H].
  - rewrite Hob' in Hob. rewrite <- (app_nil_r ob) in Hob at 1.
    apply app_inv_head in Hob. subst extra. inversion Hm.
  - destruct H as (sc' & ec' & sd' & ed' & l1' & l2' & ty & st & et
                   & H1 & H2 & H3 & H4 & H5 & _).
    rewrite Hsc in H1. injection H1 as <-.
    rewrite Hec in H2. injection H2 as <-.
    rewrite Hs in H3. injection H3 as <- <-.
    rewrite He in H4. injection H4 as <- <-.
    rewrite (process_row_due_proper _ _ _ _ _ _ _ _ _ _ _ _ _ _ Hsc Hec Hs He H5)
      in Hob.
    unfold outbox_of in Hob. cbn [snd] in Hob. apply app_inv_head in Hob. subst extra.
    apply list_elem_of_singleton in Hm. subst m.
    cbn [due_message reminder_message d_type]. auto.
Qed.

(** [C1] (amended) For a record whose start date parses to a date
    and whose end date is absent or parses to a date, and a configured
    offset [d] among 14, 7, 2 and 1, when every configured offset lands
    on a date the calendar can hold: the enumeration lists
    [start_date - d] exactly when it is not before today; the reminder
    of the type of [d] is due exactly when today is [start_date - d];
    on that day the check hands the message of that type to the
    transport, a one-row batch sends exactly this one message, and on
    no other day does the row send a message of that type. *)
Theorem before_start_reminder_iff yf to_datetime transport cfg today s fin d ty :
  d ∈ reminder_days cfg ->
  before_start_type d = Some ty ->
  offsets_representable (date_of s) (option_map date_of fin) (reminder_days cfg) ->
  (exists dates,
      get_reminder_dates cfg today (Some (Moment s)) (option_map Moment fin) = Ok dates
      /\ (date_of s - d ∈ dates <-> today <= date_of s - d))
  /\ (reminder_due cfg today (Some (Moment s)) (option_map Moment fin) = Ok (Some ty)
      <-> today = date_of s - d)
  /\ (forall row sc ec l1 l2,
        date_column cfg "start_date" = Ok sc ->
        date_column cfg "end_date" = Ok ec ->
        parse_date to_datetime (row_get row sc VNone) = (Ok (Some (Moment s)), l1) ->
        parse_date to_datetime (row_get row ec VNone) = (Ok (option_map Moment fin), l2) ->
        (today = date_of s - d ->
         d_type (due_message yf row s fin ty) = ty
         /\ (forall ob,
               outbox_of (process_row yf to_datetime transport cfg today row ob)
               = ob ++ [due_message yf row s fin ty]
               /\ result_of (process_row yf to_datetime transport cfg today row ob)
                  = Ok (transport ob (due_message yf row s fin ty)))
         /\ outbox_of (check_and_send_reminders yf to_datetime transport cfg today [row] [])
            = [due_message yf row s fin ty])
        /\ (forall ob extra m,
              outbox_of (process_row yf to_datetime transport cfg today row ob)
              = ob ++ extra ->
              m ∈ extra -> d_type m = ty -> today = date_of s - d)).
Proof.
  intros Hin Hty Hrep.
  assert (Hpos : d > 0).
  { apply before_start_type_inv in Hty. lia. }
  assert (Hc : candidate (date_of s) (option_map date_of fin) d = Some (date_of s - d)).
  { unfold candidate. destruct (Z.gtb_spec d 0); [reflexivity|lia]. }
  destruct (candidate_listed cfg today s fin d _ Hrep Hin Hc) as (dates & Hd & Hl & Hall).
  assert (Hiff : reminder_due cfg today (Some (Moment s)) (option_map Moment fin)
                 = Ok (Some ty) <-> today = date_of s - d).
  { split.
    - intros H. apply reminder_due_some in H as [H _].
      apply (determine_reminder_type_before_inv _ _ _ _ _ Hty) in H.
      unfold days_between in H. lia.
    - intros ->. rewrite (reminder_due_listed _ _ _ _ _ Hd) by (apply Hl; lia).
      apply determine_reminder_type_before.
      unfold days_between. replace (date_of s - (date_of s - d)) with d by lia.
      exact Hty. }
  split; [|split].
  - exists dates. split; [exact Hd|]. split; [apply Hall|apply Hl].
  - exact Hiff.
  - intros row sc ec l1 l2 Hsc Hec Hps Hpe. split.
    + intros Htoday. apply Hiff in Htoday as Hdue.
      pose proof (fun ob => process_row_due_proper yf to_datetime transport cfg today
                              row ob sc ec s fin l1 l2 ty Hsc Hec Hps Hpe Hdue) as Hrow.
      split; [reflexivity|]. split.
      * intros ob. rewrite Hrow. split; reflexivity.
      * erewrite check_and_send_reminders_eq;
          [|eapply iterrows_cons; [apply Hrow|reflexivity]].
        reflexivity.
    + intros ob extra m Hob Hm Hmty. apply Hiff. rewrite <- Hmty.
      eapply process_row_sent_inv; eassumption.
Qed.

Lemma before_start_reminder_iff_witness :
  outbox_of (check_and_send_reminders Unpadded failing_fallback delivering default_config
               sample_today [open_row "X" "2025-01-24"] [])
  = [due_message Unpadded (open_row "X" "2025-01-24") (mk_datetime 2025 1 24 0 0 0)
       None "2_weeks_before"].
Proof.
  refine (proj2 (proj2 (proj1 (proj2 (proj2
            (before_start_reminder_iff Unpadded failing_fallback delivering
               default_config sample_today (mk_datetime 2025 1 24 0 0 0) None 14
               "2_weeks_before" _ _ _))
            (open_row "X" "2025-01-24") "Start Date" "End Date" [] [] _ _ _ _) _))).
  - apply list_elem_of_In. simpl. tauto.
  - reflexivity.
  - apply offsets_representableb_spec. reflexivity.
  - reflexivity.
  - reflexivity.
  - vm_compute. reflexivity.
  - vm_compute. reflexivity.
  - reflexivity.
Defined.

(** [C1], as stated, fails for a configured offset outside 14, 7, 2
    and 1: with [reminder_days = [3]] and a course starting in three
    days, today is [start_date - 3] and is listed, and no reminder is
    sent. *)
Lemma offset_three_sends_nothing :
  3 ∈ reminder_days three_days_config
  /\ sample_today = date_of (mk_datetime 2025 1 13 0 0 0) - 3
  /\ get_reminder_dates three_days_config sample_today
       (Some (Moment (mk_datetime 2025 1 13 0 0 0))) None = Ok [sample_today]
  /\ reminder_due three_days_config sample_today
       (Some (Moment (mk_datetime 2025 1 13 0 0 0))) None = Ok None
  /\ check_and_send_reminders Unpadded failing_fallback delivering three_days_config
       sample_today [open_row "X" "2025-01-13"] []
     = (Ok 0, [Sent_reminders_today 0], []).
Proof.
  split; [apply list_elem_of_In; simpl; tauto|].
  repeat split; vm_compute; reflexivity.
Qed.

(** ** Rows for which nothing is due *)

Lemma process_row_not_due yf to_datetime transport cfg today row ob sc ec sd ed l1 l2 :
  date_column cfg "start_date" = Ok sc ->
  date_column cfg "end_date" = Ok ec ->
  parse_date to_datetime (row_get row sc VNone) = (Ok sd, l1) ->
  parse_date to_datetime (row_get row ec VNone) = (Ok ed, l2) ->
  (forall ty, reminder_due cfg today sd ed <> Ok (Some ty)) ->
  outbox_of (process_row yf to_datetime transport cfg today row ob) = ob
  /\ result_of (process_row yf to_datetime transport cfg today row ob) <> Ok true.
Proof.
  intros Hsc Hec Hs He Hnone.
  destruct (process_row_cases yf to_datetime transport cfg today row ob) as [H|H];
    [exact H|].
  destruct H as (sc' & ec' & sd' & ed' & l1' & l2' & ty & st & et
                 & H1 & H2 & H3 & H4 & H5 & _).
  rewrite Hsc in H1. injection H1 as <-.
  rewrite Hec in H2. injection H2 as <-.
  rewrite Hs in H3. injection H3 as -> _.
  rewrite He in H4. injection H4 as -> _.
  exfalso. exact (Hnone ty H5).
Qed.

(** A property of every message a pass can add holds of every
    message the run adds. *)
Lemma iterrows_outbox_Forall yf to_datetime transport cfg today (P : dispatch -> Prop)
  rows :
  (forall row, row ∈ rows -> forall ob, exists extra,
      outbox_of (process_row yf to_datetime transport cfg today row ob) = ob ++ extra
      /\ Forall P extra) ->
  forall k ob, exists extra,
    outbox_of (iterrows yf to_datetime transport cfg today rows k ob) = ob ++ extra
    /\ Forall P extra.
Proof.
  induction rows as [|row rest IH]; intros Hrows k ob.
  - exists []. rewrite app_nil_r. split; [reflexivity|constructor].
  - destruct (Hrows row (list_elem_of_here _ _) ob) as (e1 & He1 & HP1).
    destruct (process_row yf to_datetime transport cfg today row ob)
      as [[r0 l0] ob0] eqn:Hp.
    unfold outbox_of in He1. cbn [snd] in He1. subst ob0.
    destruct (IH (fun r Hr => Hrows r (list_elem_of_further _ _ _ Hr))
                (if counted r0 then k + 1 else k) (ob ++ e1)) as (e2 & He2 & HP2).
    destruct (iterrows yf to_datetime transport cfg today rest
                (if counted r0 then k + 1 else k) (ob ++ e1))
      as [[r2 l2] ob2] eqn:Hrest.
    erewrite iterrows_cons; [|exact Hp|exact Hrest].
    unfold outbox_of in *. cbn [snd] in *. subst ob2.
    exists (e1 ++ e2). rewrite app_assoc. split; [reflexivity|].
    apply Forall_app. split; assumption.
Qed.

(** ** At most one reminder per row *)

Lemma determine_reminder_type_proper today s fin :
  determine_reminder_type today (Moment s) (option_map Moment fin)
  = Ok (first_match_ascending (days_between (date_of s) today)
          (days_since_end today (option_map Moment fin))).
Proof.
  destruct (determine_reminder_type today (Moment s) (option_map Moment fin))
    as [r|e] eqn:E.
  - f_equal. apply determine_reminder_type_ascending, E.
  - exfalso. revert E. unfold determine_reminder_type. cbn [stamp_date rbind].
    repeat (destruct (_ =? _); [discriminate|]).
    destruct fin as [e'|]; cbn [option_map stamp_date rbind]; [|discriminate].
    destruct (_ =? _); discriminate.
Qed.

(** [C2] For every row and every day the check hands at most one
    message (one reminder type, one email) to the transport for that
    row, and a run over a batch at most one per row.  The message of a
    row has the type of the first match on the dates parsed from that
    row, the before-start offsets tried in ascending order (1, 2, 7,
    14) and the after-end offset after them; on dates that are proper
    time stamps the branches of the check return exactly that first
    match, and a row for which today is a listed reminder date sends
    the message of the first match, or nothing when there is none. *)
Theorem one_reminder_per_row_first_match yf to_datetime transport cfg today :
  (forall row ob, exists extra,
      outbox_of (process_row yf to_datetime transport cfg today row ob) = ob ++ extra
      /\ (length extra <= 1)%nat
      /\ forall d, d ∈ extra ->
           exists sc ec s ed l1 l2,
             date_column cfg "start_date" = Ok sc
             /\ date_column cfg "end_date" = Ok ec
             /\ parse_date to_datetime (row_get row sc VNone) = (Ok (Some (Moment s)), l1)
             /\ parse_date to_datetime (row_get row ec VNone) = (Ok ed, l2)
             /\ Some (d_type d)
                = first_match_ascending (days_between (date_of s) today)
                    (days_since_end today ed))
  /\ (forall rows ob, exists extra,
        outbox_of (check_and_send_reminders yf to_datetime transport cfg today rows ob)
        = ob ++ extra
        /\ (length extra <= length rows)%nat)
  /\ (forall s fin,
        determine_reminder_type today (Moment s) (option_map Moment fin)
        = Ok (first_match_ascending (days_between (date_of s) today)
                (days_since_end today (option_map Moment fin))))
  /\ (forall row ob sc ec s fin l1 l2 dates,
        date_column cfg "start_date" = Ok sc ->
        date_column cfg "end_date" = Ok ec ->
        parse_date to_datetime (row_get row sc VNone) = (Ok (Some (Moment s)), l1) ->
        parse_date to_datetime (row_get row ec VNone) = (Ok (option_map Moment fin), l2) ->
        get_reminder_dates cfg today (Some (Moment s)) (option_map Moment fin)
        = Ok dates ->
        today ∈ dates ->
        outbox_of (process_row yf to_datetime transport cfg today row ob)
        = ob ++ match first_match_ascending (days_between (date_of s) today)
                        (days_since_end today (option_map Moment fin)) with
                | Some ty => [due_message yf row s fin ty]
                | None => []
                end).
Proof.
  split; [|split; [|split]].
  - intros row ob.
    destruct (process_row_cases yf to_datetime transport cfg today row ob)
      as [[Hob _]|H].
    + exists []. rewrite Hob, app_nil_r.
      split; [reflexivity|]. split; [simpl; lia|]. intros d Hd. inversion Hd.
    + destruct H as (sc & ec & sd & ed & l1 & l2 & ty & st & et
                     & H1 & H2 & H3 & H4 & H5 & H6 & H7).
      erewrite process_row_due by eassumption.
      eexists [_]. split; [reflexivity|]. split; [simpl; lia|].
      intros d Hd. apply list_elem_of_singleton in Hd. subst d.
      cbn [reminder_message d_type].
      destruct (reminder_due_some _ _ _ _ _ H5) as [Hty _].
      destruct (determine_reminder_type_moment _ _ _ _ Hty) as [s ->].
      exists sc, ec, s, ed, l1, l2. repeat (split; [assumption|]).
      apply determine_reminder_type_ascending, Hty.
  - intros rows ob.
    destruct (iterrows_total yf to_datetime transport cfg today rows 0 ob)
      as (n & l & ob' & Hloop).
    destruct (iterrows_outbox yf to_datetime transport cfg today rows 0 ob)
      as (extra & He & Hl).
    rewrite (check_and_send_reminders_eq _ _ _ _ _ _ _ _ _ _ Hloop).
    rewrite Hloop in He. exists extra. split; assumption.
  - apply determine_reminder_type_proper.
  - intros row ob sc ec s fin l1 l2 dates Hsc Hec Hs He Hdates Hin.
    pose proof (reminder_due_listed _ _ _ _ _ Hdates Hin) as Hdue.
    rewrite determine_reminder_type_proper in Hdue.
    destruct (first_match_ascending _ _) as [ty|].
    + erewrite process_row_due_proper by eassumption. reflexivity.
    + rewrite app_nil_r.
      eapply process_row_not_due; try eassumption.
      intros ty. rewrite Hdue. discriminate.
Qed.

(** ** Offsets without a branch *)

(** [C3] (amended) The match on [days_diff] knows the literal offsets
    14, 7, 2 and 1 only.  For a configured positive offset [d] outside
    them and a record with [start_date = today + d] whose end date is
    absent or not exactly 14 days before today (as for every record
    with [start_date <= end_date]): no reminder of any type is due,
    the row sends nothing, and, when every configured offset lands on
    a date the calendar can hold, today is among the enumerated
    reminder dates. *)
Theorem unmatched_offset_sends_nothing yf to_datetime transport cfg today s fin d :
  d ∈ reminder_days cfg ->
  d > 0 ->
  d <> 14 /\ d <> 7 /\ d <> 2 /\ d <> 1 ->
  date_of s = today + d ->
  (forall e, fin = Some e -> days_between today (date_of e) <> 14) ->
  (forall ty,
      reminder_due cfg today (Some (Moment s)) (option_map Moment fin) <> Ok (Some ty))
  /\ (forall row ob sc ec l1 l2,
        date_column cfg "start_date" = Ok sc ->
        date_column cfg "end_date" = Ok ec ->
        parse_date to_datetime (row_get row sc VNone) = (Ok (Some (Moment s)), l1) ->
        parse_date to_datetime (row_get row ec VNone) = (Ok (option_map Moment fin), l2) ->
        outbox_of (process_row yf to_datetime transport cfg today row ob) = ob)
  /\ (offsets_representable (date_of s) (option_map date_of fin) (reminder_days cfg) ->
      exists dates,
        get_reminder_dates cfg today (Some (Moment s)) (option_map Moment fin) = Ok dates
        /\ today ∈ dates
        /\ reminder_due cfg today (Some (Moment s)) (option_map Moment fin) = Ok None).
Proof.
  intros Hin Hpos Hd Hs Hend.
  assert (Hnone : before_start_type (days_between (date_of s) today) = None).
  { apply before_start_type_none. unfold days_between. lia. }
  assert (Hdet : determine_reminder_type today (Moment s) (option_map Moment fin)
                 = Ok None).
  { rewrite (determine_reminder_type_else _ _ _ Hnone).
    destruct fin as [e|]; cbn; [|reflexivity].
    destruct (Z.eqb_spec (days_between today (date_of e)) 14) as [E|_];
      [|reflexivity].
    exfalso. exact (Hend e eq_refl E). }
  assert (Hdue : forall ty,
             reminder_due cfg today (Some (Moment s)) (option_map Moment fin)
             <> Ok (Some ty)).
  { intros ty H. apply reminder_due_some in H as [H _]. congruence. }
  split; [exact Hdue|]. split.
  - intros row ob sc ec l1 l2 Hsc Hec Hps Hpe.
    eapply process_row_not_due; eassumption.
  - intros Hrep.
    assert (Hc : candidate (date_of s) (option_map date_of fin) d = Some today).
    { unfold candidate. destruct (Z.gtb_spec d 0); [f_equal; lia|lia]. }
    destruct (candidate_listed cfg today s fin d _ Hrep Hin Hc)
      as (dates & Hdates & Hl & _).
    exists dates. split; [exact Hdates|]. split; [apply Hl; lia|].
    rewrite (reminder_due_listed _ _ _ _ _ Hdates) by (apply Hl; lia).
    exact Hdet.
Qed.

Lemma unmatched_offset_sends_nothing_witness :
  exists dates,
    get_reminder_dates three_days_config sample_today
      (Some (Moment (mk_datetime 2025 1 13 0 0 0))) (option_map Moment None) = Ok dates
    /\ sample_today ∈ dates
    /\ reminder_due three_days_config sample_today
         (Some (Moment (mk_datetime 2025 1 13 0 0 0))) (option_map Moment None)
       = Ok None.
Proof.
  refine (proj2 (proj2 (unmatched_offset_sends_nothing Unpadded failing_fallback delivering
            three_days_config sample_today (mk_datetime 2025 1 13 0 0 0) None 3
            _ _ _ _ _)) _).
  - apply list_elem_of_In. simpl. tauto.
  - lia.
  - lia.
  - reflexivity.
  - discriminate.
  - apply offsets_representableb_spec. reflexivity.
Defined.

(** [C3], as stated, fails on a record whose end date lies 14 days
    before today: with [reminder_days = [3]], a start in three days
    and such an end date, the follow-up reminder is sent. *)
Lemma unmatched_offset_follow_up_sent :
  3 ∈ reminder_days three_days_config
  /\ date_of (mk_datetime 2025 1 13 0 0 0) = sample_today + 3
  /\ get_reminder_dates three_days_config sample_today
       (Some (Moment (mk_datetime 2025 1 13 0 0 0)))
       (Some (Moment (mk_datetime 2024 12 27 0 0 0))) = Ok [sample_today]
  /\ reminder_due three_days_config sample_today
       (Some (Moment (mk_datetime 2025 1 13 0 0 0)))
       (Some (Moment (mk_datetime 2024 12 27 0 0 0))) = Ok (Some "2_weeks_after")
  /\ map d_type
       (outbox_of (check_and_send_reminders Unpadded failing_fallback delivering
                     three_days_config sample_today
                     [course_row "X" "2025-01-13" "2024-12-27"] []))
     = ["2_weeks_after"].
Proof.
  split; [apply list_elem_of_In; simpl; tauto|].
  repeat split; vm_compute; reflexivity.
Qed.

(** ** Reminders after the end *)




(** ** Offsets the enumeration passes over *)

Lemma reminder_days_loop_nonzero today st ed days_list : forall acc,
  reminder_days_loop today st ed days_list acc
  = reminder_days_loop today st ed (filter (fun d => d <> 0) days_list) acc.
Proof.
  induction days_list as [|d rest IH]; intros acc; [reflexivity|].
  rewrite filter_cons. destruct (decide (d <> 0)) as [Hne|Hz].
  - cbn [reminder_days_loop].
    destruct (d >? 0).
    + destruct (stamp_date st) as [sd|]; cbn [rbind]; [|reflexivity].
      destruct (date_minus_days sd d); cbn [rbind]; [apply IH|reflexivity].
    + destruct (d <? 0); [|apply IH].
      destruct ed as [e|]; [|apply IH].
      destruct (stamp_date e) as [x|]; cbn [rbind]; [|reflexivity].
      destruct (date_minus_days x d); cbn [rbind]; [apply IH|reflexivity].
  - assert (d = 0) as -> by lia. cbn. apply IH.
Qed.

Lemma reminder_days_loop_positive today st days_list : forall acc,
  reminder_days_loop today st None days_list acc
  = reminder_days_loop today st None (filter (fun d => 0 < d) days_list) acc.
Proof.
  induction days_list as [|d rest IH]; intros acc; [reflexivity|].
  rewrite filter_cons. destruct (decide (0 < d)) as [Hpos|Hneg].
  - cbn [reminder_days_loop].
    destruct (Z.gtb_spec d 0); [|lia].
    destruct (stamp_date st) as [sd|]; cbn [rbind]; [|reflexivity].
    destruct (date_minus_days sd d); cbn [rbind]; [apply IH|reflexivity].
  - cbn [reminder_days_loop].
    destruct (Z.gtb_spec d 0); [lia|].
    destruct (d <? 0); apply IH.
Qed.

Lemma determine_reminder_type_no_end today sd r :
  determine_reminder_type today sd None = Ok r -> r <> Some "2_weeks_after".
Proof.
  unfold determine_reminder_type.
  destruct (stamp_date sd) as [d|]; cbn [rbind]; [|discriminate].
  repeat (destruct (_ =? _); [intros [= <-]; discriminate|]).
  intros [= <-]. discriminate.
Qed.

Lemma reminder_due_no_end cfg today sd :
  reminder_due cfg today sd None <> Ok (Some "2_weeks_after").
Proof.
  intros H. destruct sd as [st|]; [|discriminate].
  apply reminder_due_some in H as [H _].
  apply determine_reminder_type_no_end in H. congruence.
Qed.

(** ** Records without an end date *)

(** [C5] For a record whose end date is absent ([parse_date] gave
    [None]: the cell is missing, or no format and no fallback parsed
    it), whatever today and the configured offsets are: the
    enumeration is the one of the positive offsets alone, the
    after-end branch is never taken, and a run over rows without a
    usable end date hands no [2_weeks_after] message to the
    transport. *)
Theorem no_end_date_no_follow_up yf to_datetime transport cfg today :
  (forall sd,
      get_reminder_dates cfg today sd None
      = get_reminder_dates
          (with_reminder_days cfg (filter (fun d => 0 < d) (reminder_days cfg)))
          today sd None)
  /\ (forall sd, reminder_due cfg today sd None <> Ok (Some "2_weeks_after"))
  /\ (forall rows ob,
        (forall row ec,
            row ∈ rows ->
            date_column cfg "end_date" = Ok ec ->
            fst (parse_date to_datetime (row_get row ec VNone)) = Ok None) ->
        exists extra,
          outbox_of (check_and_send_reminders yf to_datetime transport cfg today rows ob)
          = ob ++ extra
          /\ Forall (fun msg => d_type msg <> "2_weeks_after") extra).
Proof.
  split; [|split].
  - intros [st|]; [|reflexivity]. unfold get_reminder_dates.
    cbn [with_reminder_days reminder_days].
    rewrite reminder_days_loop_positive. reflexivity.
  - intros sd. apply reminder_due_no_end.
  - intros rows ob Hrows.
    destruct (iterrows_total yf to_datetime transport cfg today rows 0 ob)
      as (n & l & ob' & Hloop).
    rewrite (check_and_send_reminders_eq _ _ _ _ _ _ _ _ _ _ Hloop).
    destruct (iterrows_outbox_Forall yf to_datetime transport cfg today
                (fun msg => d_type msg <> "2_weeks_after") rows) with (k := 0) (ob := ob)
      as (extra & He & HP).
    + intros row Hrow ob0.
      destruct (process_row_cases yf to_datetime transport cfg today row ob0)
        as [[Hob _]|H].
      * exists []. rewrite Hob, app_nil_r. split; [reflexivity|constructor].
      * destruct H as (sc & ec & sd & ed & l1 & l2 & ty & st & et
                       & H1 & H2 & H3 & H4 & H5 & H6 & H7).
        erewrite process_row_due by eassumption.
        eexists [_]. split; [reflexivity|].
        constructor; [|constructor]. cbn [reminder_message d_type].
        specialize (Hrows row ec Hrow H2). rewrite H4 in Hrows.
        cbn [fst] in Hrows. injection Hrows as ->.
        intros ->. exact (reminder_due_no_end _ _ _ H5).
    + rewrite Hloop in He. exists extra. split; assumption.
Qed.

(** ** The offset zero *)

Lemma reminder_due_start_today cfg today s ed ty :
  date_of s = today ->
  reminder_due cfg today (Some (Moment s)) ed = Ok (Some ty) ->
  ty = "2_weeks_after" /\ days_since_end today ed = Some 14.
Proof.
  intros Hs H. apply reminder_due_some in H as [H _].
  rewrite determine_reminder_type_else in H.
  - destruct ed as [[e|]|]; cbn in H; try discriminate.
    cbn [days_since_end].
    destruct (Z.eqb_spec (days_between today (date_of e)) 14) as [E|_];
      [|discriminate].
    injection H as <-. rewrite E. split; reflexivity.
  - apply before_start_type_none. unfold days_between. lia.
Qed.

(** [C10] (amended) A configured offset of exactly 0 is passed over:
    it stands for no candidate date, and the enumeration is the one of
    the non-zero offsets.  On the start date itself no before-start
    reminder is due; a record with [start_date = today] whose end
    date is absent or not exactly 14 days before today (as for every
    record with [start_date <= end_date]) produces no event, with or
    without 0 among the configured offsets. *)
Theorem zero_offset_ignored yf to_datetime transport cfg today s fin :
  date_of s = today ->
  (forall e, fin = Some e -> days_between today (date_of e) <> 14) ->
  (forall sd ed, candidate sd ed 0 = None)
  /\ (forall sd ed,
        get_reminder_dates cfg today sd ed
        = get_reminder_dates
            (with_reminder_days cfg (filter (fun d => d <> 0) (reminder_days cfg)))
            today sd ed)
  /\ (forall ed ty,
        reminder_due cfg today (Some (Moment s)) ed = Ok (Some ty) ->
        before_start_type (days_between (date_of s) today) = None
        /\ ty = "2_weeks_after")
  /\ (forall ty,
        reminder_due cfg today (Some (Moment s)) (option_map Moment fin)
        <> Ok (Some ty))
  /\ (forall row ob sc ec l1 l2,
        date_column cfg "start_date" = Ok sc ->
        date_column cfg "end_date" = Ok ec ->
        parse_date to_datetime (row_get row sc VNone) = (Ok (Some (Moment s)), l1) ->
        parse_date to_datetime (row_get row ec VNone) = (Ok (option_map Moment fin), l2) ->
        outbox_of (process_row yf to_datetime transport cfg today row ob) = ob)
  /\ (offsets_representable (date_of s) (option_map date_of fin) (reminder_days cfg) ->
      reminder_due cfg today (Some (Moment s)) (option_map Moment fin) = Ok None).
Proof.
  intros Hs Hend.
  assert (Hnone : forall ty,
             reminder_due cfg today (Some (Moment s)) (option_map Moment fin)
             <> Ok (Some ty)).
  { intros ty H. apply (reminder_due_start_today _ _ _ _ _ Hs) in H as [_ H].
    destruct fin as [e|]; cbn in H; [|discriminate].
    injection H as H. exact (Hend e eq_refl H). }
  split; [reflexivity|]. split; [|split; [|split; [|split]]].
  - intros [st|] ed; [|reflexivity]. unfold get_reminder_dates.
    cbn [with_reminder_days reminder_days].
    rewrite reminder_days_loop_nonzero. reflexivity.
  - intros ed ty H. split.
    + apply before_start_type_none. unfold days_between. lia.
    + apply (reminder_due_start_today _ _ _ _ _ Hs H).
  - exact Hnone.
  - intros row ob sc ec l1 l2 Hsc Hec Hps Hpe.
    eapply process_row_not_due; eassumption.
  - intros Hrep.
    pose proof (get_reminder_dates_ok cfg today s fin Hrep) as Hdates.
    destruct (decide (today ∈ merge_sort Z.le
                        (enumerate today (date_of s) (option_map date_of fin)
                           (reminder_days cfg)))) as [Hin|Hout].
    + rewrite (reminder_due_listed _ _ _ _ _ Hdates Hin).
      destruct (determine_reminder_type today (Moment s) (option_map Moment fin))
        as [[ty|]|] eqn:E; [| reflexivity |].
      * exfalso. apply (Hnone ty).
        rewrite (reminder_due_listed _ _ _ _ _ Hdates Hin). exact E.
      * exfalso. unfold determine_reminder_type in E. cbn [stamp_date rbind] in E.
        repeat (destruct (_ =? _) in E; [discriminate|]).
        destruct fin; cbn in E; [destruct (_ =? _) in E|]; discriminate.
    + apply (reminder_due_not_listed _ _ _ _ _ Hdates Hout).
Qed.

Lemma zero_offset_ignored_witness :
  reminder_due zero_offset_config sample_today
    (Some (Moment (mk_datetime 2025 1 10 0 0 0)))
    (option_map Moment (Some (mk_datetime 2025 1 12 0 0 0))) = Ok None.
Proof.
  refine (proj2 (proj2 (proj2 (proj2 (proj2
            (zero_offset_ignored Unpadded failing_fallback delivering zero_offset_config
               sample_today (mk_datetime 2025 1 10 0 0 0)
               (Some (mk_datetime 2025 1 12 0 0 0)) _ _))))) _).
  - reflexivity.
  - intros e [= <-]. vm_compute. discriminate.
  - apply offsets_representableb_spec. reflexivity.
Defined.

(** [C10], as stated, fails on a record whose end date lies 14 days
    before its start date: with 0 among the configured offsets and
    [start_date = today], the follow-up reminder is sent on the start
    date. *)
Lemma follow_up_sent_on_start_date :
  0 ∈ reminder_days zero_offset_config
  /\ date_of (mk_datetime 2025 1 10 0 0 0) = sample_today
  /\ reminder_due zero_offset_config sample_today
       (Some (Moment (mk_datetime 2025 1 10 0 0 0)))
       (Some (Moment (mk_datetime 2024 12 27 0 0 0))) = Ok (Some "2_weeks_after")
  /\ map d_type
       (outbox_of (check_and_send_reminders Unpadded failing_fallback delivering
                     zero_offset_config sample_today
                     [course_row "X" "2025-01-10" "2024-12-27"] []))
     = ["2_weeks_after"].
Proof.
  split; [apply list_elem_of_In; simpl; tauto|].
  repeat split; vm_compute; reflexivity.
Qed.

(** ** The calendar invitation *)

Lemma append_assoc (s1 s2 s3 : string) : (s1 +:+ s2) +:+ s3 = s1 +:+ s2 +:+ s3.
Proof.
  induction s1 as [|c s1 IH]; [reflexivity|]. exact (f_equal (String c) IH).
Qed.

Lemma ics_date_text_start yf : Invite.ics_date yf (VStr "2025-01-10") = Ok "20250110".
Proof. destruct yf; vm_compute; reflexivity. Qed.

Lemma ics_date_text_end yf : Invite.ics_date yf (VStr "2025-01-12") = Ok "20250112".
Proof. destruct yf; vm_compute; reflexivity. Qed.

Lemma ics_date_stamp_start yf :
  Invite.ics_date yf (VTimestamp (mk_datetime 2025 1 10 0 0 0)) = Ok "20250110".
Proof. destruct yf; vm_compute; reflexivity. Qed.

Lemma ics_date_stamp_end yf :
  Invite.ics_date yf (VTimestamp (mk_datetime 2025 1 12 0 0 0)) = Ok "20250112".
Proof. destruct yf; vm_compute; reflexivity. Qed.

(** [C7] For a record named [name] that starts on 2025-01-10 and
    ends on 2025-01-12, as text or as time stamps, the invitation
    carries the all-day range [DTSTART 20250110], [DTEND 20250112]
    (the end date as it is, not the day after), the summary [name],
    the description made of course, program, start and end when none
    is supplied (the supplied one otherwise), the location [UBC],
    status [CONFIRMED] and transparency [OPAQUE]. *)
Theorem invite_for_sample_record yf event_id now_ics name program :
  (exists pre post,
      Invite.create_ics_file yf event_id now_ics name (VStr "2025-01-10")
        (VStr "2025-01-12") program ""
      = Ok (pre
            +:+ "DTSTART;VALUE=DATE:20250110" +:+ LF
            +:+ "DTEND;VALUE=DATE:20250112" +:+ LF
            +:+ "SUMMARY:" +:+ str name +:+ LF
            +:+ "DESCRIPTION:Course: " +:+ str name +:+ "\nProgram: " +:+ str program
            +:+ "\nStart: 2025-01-10\nEnd: 2025-01-12" +:+ LF
            +:+ "LOCATION:UBC" +:+ LF
            +:+ "STATUS:CONFIRMED" +:+ LF
            +:+ "TRANSP:OPAQUE" +:+ LF
            +:+ post))
  /\ (exists pre post,
        Invite.create_ics_file yf event_id now_ics name
          (VTimestamp (mk_datetime 2025 1 10 0 0 0))
          (VTimestamp (mk_datetime 2025 1 12 0 0 0)) program ""
        = Ok (pre
              +:+ "DTSTART;VALUE=DATE:20250110" +:+ LF
              +:+ "DTEND;VALUE=DATE:20250112" +:+ LF
              +:+ "SUMMARY:" +:+ str name +:+ LF
              +:+ "DESCRIPTION:Course: " +:+ str name +:+ "\nProgram: " +:+ str program
              +:+ "\nStart: 2025-01-10 00:00:00\nEnd: 2025-01-12 00:00:00" +:+ LF
              +:+ "LOCATION:UBC" +:+ LF
              +:+ "STATUS:CONFIRMED" +:+ LF
              +:+ "TRANSP:OPAQUE" +:+ LF
              +:+ post))
  /\ (forall description,
        description <> "" ->
        exists pre post,
          Invite.create_ics_file yf event_id now_ics name (VStr "2025-01-10")
            (VStr "2025-01-12") program description
          = Ok (pre
                +:+ "DTSTART;VALUE=DATE:20250110" +:+ LF
                +:+ "DTEND;VALUE=DATE:20250112" +:+ LF
                +:+ "SUMMARY:" +:+ str name +:+ LF
                +:+ "DESCRIPTION:" +:+ description +:+ LF
                +:+ "LOCATION:UBC" +:+ LF
                +:+ "STATUS:CONFIRMED" +:+ LF
                +:+ "TRANSP:OPAQUE" +:+ LF
                +:+ post)).
Proof.
  split; [|split].
  - exists ("BEGIN:VCALENDAR" +:+ LF +:+ "VERSION:2.0" +:+ LF
            +:+ "PRODID:-//Course Reminder System//Course Event//EN" +:+ LF
            +:+ "BEGIN:VEVENT" +:+ LF
            +:+ "UID:" +:+ event_id +:+ "@course-reminder-system.com" +:+ LF
            +:+ "DTSTAMP:" +:+ now_ics +:+ LF),
           ("END:VEVENT" +:+ LF +:+ "END:VCALENDAR").
    unfold Invite.create_ics_file.
    rewrite ics_date_text_start, ics_date_text_end.
    unfold Invite.synthesized_description. cbn [String.eqb str].
    rewrite !append_assoc. reflexivity.
  - exists ("BEGIN:VCALENDAR" +:+ LF +:+ "VERSION:2.0" +:+ LF
            +:+ "PRODID:-//Course Reminder System//Course Event//EN" +:+ LF
            +:+ "BEGIN:VEVENT" +:+ LF
            +:+ "UID:" +:+ event_id +:+ "@course-reminder-system.com" +:+ LF
            +:+ "DTSTAMP:" +:+ now_ics +:+ LF),
           ("END:VEVENT" +:+ LF +:+ "END:VCALENDAR").
    unfold Invite.create_ics_file.
    rewrite ics_date_stamp_start, ics_date_stamp_end.
    unfold Invite.synthesized_description. cbn [String.eqb].
    change (str (VTimestamp (mk_datetime 2025 1 10 0 0 0))) with "2025-01-10 00:00:00".
    change (str (VTimestamp (mk_datetime 2025 1 12 0 0 0))) with "2025-01-12 00:00:00".
    rewrite !append_assoc. reflexivity.
  - intros description Hne.
    exists ("BEGIN:VCALENDAR" +:+ LF +:+ "VERSION:2.0" +:+ LF
            +:+ "PRODID:-//Course Reminder System//Course Event//EN" +:+ LF
            +:+ "BEGIN:VEVENT" +:+ LF
            +:+ "UID:" +:+ event_id +:+ "@course-reminder-system.com" +:+ LF
            +:+ "DTSTAMP:" +:+ now_ics +:+ LF),
           ("END:VEVENT" +:+ LF +:+ "END:VCALENDAR").
    unfold Invite.create_ics_file.
    rewrite ics_date_text_start, ics_date_text_end.
    destruct (String.eqb_spec description ""); [contradiction|].
    rewrite !append_assoc. reflexivity.
Qed.

(** ** Isolation of a failing row *)

Section Isolation.

Variable yf : year_format.
Variable to_datetime : value -> result stamp.
Variable transport : list dispatch -> dispatch -> bool.
Variable cfg : config.

Abbreviation process := (process_row yf to_datetime transport cfg).
Abbreviation check := (check_and_send_reminders yf to_datetime transport cfg).

(** A pass that raises has sent nothing, and raises whatever was
    sent before it. *)
Lemma process_row_raise today row ob e :
  result_of (process today row ob) = Raise e ->
  forall ob', outbox_of (process today row ob') = ob'
              /\ result_of (process today row ob') <> Ok true.
Proof.
  intros Hraise ob'.
  destruct (process_row_cases yf to_datetime transport cfg today row ob') as [H|H];
    [exact H|].
  destruct H as (sc & ec & sd & ed & l1 & l2 & ty & st & et
                 & H1 & H2 & H3 & H4 & H5 & H6 & H7).
  rewrite (process_row_due yf to_datetime transport cfg today row ob
             _ _ _ _ _ _ _ _ _ H1 H2 H3 H4 H5 H6 H7) in Hraise.
  discriminate.
Qed.

Lemma check_result_outbox today rows ob :
  result_of (check today rows ob)
  = result_of (iterrows yf to_datetime transport cfg today rows 0 ob)
  /\ outbox_of (check today rows ob)
     = outbox_of (iterrows yf to_datetime transport cfg today rows 0 ob).
Proof.
  destruct (iterrows_total yf to_datetime transport cfg today rows 0 ob)
    as (n & l & ob' & H).
  rewrite (check_and_send_reminders_eq _ _ _ _ _ _ _ _ _ _ H), H.
  split; reflexivity.
Qed.

Lemma check_drop today pre row post ob :
  (forall ob', outbox_of (process today row ob') = ob'
               /\ result_of (process today row ob') <> Ok true) ->
  result_of (check today (pre ++ row :: post) ob)
  = result_of (check today (pre ++ post) ob)
  /\ outbox_of (check today (pre ++ row :: post) ob)
     = outbox_of (check today (pre ++ post) ob).
Proof.
  intros H.
  destruct (check_result_outbox today (pre ++ row :: post) ob) as [-> ->].
  destruct (check_result_outbox today (pre ++ post) ob) as [-> ->].
  apply iterrows_drop, H.
Qed.

Lemma check_total today rows ob :
  exists n, result_of (check today rows ob) = Ok n.
Proof.
  destruct (iterrows_total yf to_datetime transport cfg today rows 0 ob)
    as (n & l & ob' & H).
  exists n. rewrite (check_and_send_reminders_eq _ _ _ _ _ _ _ _ _ _ H). reflexivity.
Qed.

Lemma parse_date_none_log v l :
  parse_date to_datetime v = (Ok None, l) ->
  l = if isna v then [] else [Could_not_parse_date v].
Proof.
  unfold parse_date. destruct (isna v); [congruence|].
  destruct (try_formats _ _) as [[t|]|]; try congruence.
  destruct (to_datetime v); congruence.
Qed.

End Isolation.

(** [C8] (amended) A row whose start date is missing, or is present
    and parsed by no format and not by the fallback, is passed over:
    it produces no reminder event and is not counted, and the run
    over the batch counts and sends what it counts and sends without
    that row.  The unparseable value is logged with one [WARNING]
    record by the parser; a missing value is passed over without a
    record.  A row whose processing raises is logged by the [except]
    clause and dropped in the same way, and the check of any batch
    returns its count: no exception leaves the loop. *)
Theorem unusable_start_date_isolated yf to_datetime transport cfg today
  pre row post ob sc l1 :
  date_column cfg "start_date" = Ok sc ->
  parse_date to_datetime (row_get row sc VNone) = (Ok None, l1) ->
  (outbox_of (process_row yf to_datetime transport cfg today row ob) = ob
   /\ result_of (process_row yf to_datetime transport cfg today row ob) <> Ok true)
  /\ l1 = (if isna (row_get row sc VNone) then []
           else [Could_not_parse_date (row_get row sc VNone)])
  /\ (exists l2,
        log_of (process_row yf to_datetime transport cfg today row ob) = l1 ++ l2
        /\ forall r, r ∈ l2 -> exists v, r = Could_not_parse_date v)
  /\ (result_of (check_and_send_reminders yf to_datetime transport cfg today
                   (pre ++ row :: post) ob)
      = result_of (check_and_send_reminders yf to_datetime transport cfg today
                     (pre ++ post) ob)
      /\ outbox_of (check_and_send_reminders yf to_datetime transport cfg today
                      (pre ++ row :: post) ob)
         = outbox_of (check_and_send_reminders yf to_datetime transport cfg today
                        (pre ++ post) ob))
  /\ (forall bad e,
        result_of (process_row yf to_datetime transport cfg today bad ob) = Raise e ->
        outbox_of (process_row yf to_datetime transport cfg today bad ob) = ob
        /\ result_of (check_and_send_reminders yf to_datetime transport cfg today
                        (pre ++ bad :: post) ob)
           = result_of (check_and_send_reminders yf to_datetime transport cfg today
                          (pre ++ post) ob)
        /\ outbox_of (check_and_send_reminders yf to_datetime transport cfg today
                        (pre ++ bad :: post) ob)
           = outbox_of (check_and_send_reminders yf to_datetime transport cfg today
                          (pre ++ post) ob))
  /\ (forall rows ob',
        exists n,
          result_of (check_and_send_reminders yf to_datetime transport cfg today rows ob')
          = Ok n).
Proof.
  intros Hsc Hparse.
  assert (Hinert : forall ob',
             outbox_of (process_row yf to_datetime transport cfg today row ob') = ob'
             /\ result_of (process_row yf to_datetime transport cfg today row ob')
                <> Ok true).
  { intros ob'.
    destruct (process_row_no_start yf to_datetime transport cfg today row ob' sc l1
                Hsc Hparse) as (H1 & H2 & _).
    split; assumption. }
  split; [apply Hinert|]. split; [eapply parse_date_none_log, Hparse|].
  split; [|split; [|split]].
  - destruct (process_row_no_start yf to_datetime transport cfg today row ob sc l1
                Hsc Hparse) as (_ & _ & H3).
    exact H3.
  - apply check_drop, Hinert.
  - intros bad e Hraise.
    pose proof (process_row_raise yf to_datetime transport cfg today bad ob e Hraise)
      as Hbad.
    split; [apply Hbad|]. apply check_drop, Hbad.
  - intros rows ob'. apply check_total.
Qed.

Lemma unusable_start_date_isolated_witness :
  result_of (check_and_send_reminders Unpadded failing_fallback delivering default_config
               sample_today
               ([open_row "A" "2025-01-24"]
                ++ open_row "B" "soon" :: [open_row "C" "2025-01-17"]) [])
  = result_of (check_and_send_reminders Unpadded failing_fallback delivering default_config
                 sample_today
                 ([open_row "A" "2025-01-24"] ++ [open_row "C" "2025-01-17"]) [])
  /\ outbox_of (check_and_send_reminders Unpadded failing_fallback delivering default_config
                  sample_today
                  ([open_row "A" "2025-01-24"]
                   ++ open_row "B" "soon" :: [open_row "C" "2025-01-17"]) [])
     = outbox_of (check_and_send_reminders Unpadded failing_fallback delivering default_config
                    sample_today
                    ([open_row "A" "2025-01-24"] ++ [open_row "C" "2025-01-17"]) []).
Proof.
  refine (proj1 (proj2 (proj2 (proj2
            (unusable_start_date_isolated Unpadded failing_fallback delivering default_config
               sample_today [open_row "A" "2025-01-24"] (open_row "B" "soon")
               [open_row "C" "2025-01-17"] [] "Start Date"
               [Could_not_parse_date (VStr "soon")] _ _))))).
  - reflexivity.
  - vm_compute. reflexivity.
Defined.

(** [C8], as stated, fails for a missing start date: the row is
    passed over without any log record, so no warning is logged. *)
Lemma missing_start_date_not_logged :
  row_get (undated_row "X") "Start Date" VNone = VNone
  /\ check_and_send_reminders Unpadded failing_fallback delivering default_config
       sample_today [undated_row "X"] []
     = (Ok 0, [Sent_reminders_today 0], [])
  /\ level (Sent_reminders_today 0) = INFO.
Proof.
  repeat split; vm_compute; reflexivity.
Qed.

(** * Further properties *)

(** ** What a run sends *)

Lemma omap_cons_option_list {A B} (f : A -> option B) (x : A) (l : list A) :
  omap f (x :: l) = option_list (f x) ++ omap f l.
Proof. simpl. destruct (f x); reflexivity. Qed.

Section Messages.

Variable yf : year_format.
Variable to_datetime : value -> result stamp.
Variable transport : list dispatch -> dispatch -> bool.
Variable cfg : config.

Abbreviation process := (process_row yf to_datetime transport cfg).
Abbreviation loop := (iterrows yf to_datetime transport cfg).
Abbreviation message := (row_message yf to_datetime cfg).

Lemma process_row_message today row ob :
  outbox_of (process today row ob) = ob ++ option_list (message today row)
  /\ counted (result_of (process today row ob))
     = match message today row with
       | Some d => transport ob d
       | None => false
       end.
Proof.
  unfold row_message.
  destruct (process_row_cases yf to_datetime transport cfg today row ob) as [[Hob Hres]|H].
  - assert (Hc : counted (result_of (process today row ob)) = false).
    { destruct (result_of (process today row ob)) as [[|]|];
        [congruence|reflexivity..]. }
    rewrite Hob, Hc. clear Hc Hres.
    assert (Hnone : forall d, message today row = Some d -> False).
    { intros d Hd. unfold row_message in Hd.
      destruct (date_column cfg "start_date") as [sc|] eqn:Hsc; [|discriminate].
      destruct (date_column cfg "end_date") as [ec|] eqn:Hec; [|discriminate].
      destruct (parse_date to_datetime (row_get row sc VNone)) as [[[sd|]|] l1] eqn:Hs;
        cbn [fst] in Hd; try discriminate.
      destruct (parse_date to_datetime (row_get row ec VNone)) as [[ed|] l2] eqn:He;
        cbn [fst] in Hd; try discriminate.
      destruct (reminder_due cfg today (Some sd) ed) as [[ty|]|] eqn:Hdue;
        try discriminate.
      destruct (stamp_strftime_iso yf sd) as [st|] eqn:Hst; try discriminate.
      destruct (match ed with Some e => stamp_strftime_iso yf e | None => Ok "N/A" end)
        as [et|] eqn:Het; try discriminate.
      pose proof (process_row_due yf to_datetime transport cfg today row ob
                    _ _ _ _ _ _ _ _ _ Hsc Hec Hs He Hdue Hst Het) as Heq.
      rewrite Heq in Hob. unfold outbox_of in Hob. cbn [snd] in Hob.
      apply (f_equal length) in Hob. rewrite length_app in Hob. simpl in Hob. lia. }
    fold (message today row).
    destruct (message today row) as [d|]; [destruct (Hnone d eq_refl)|].
    cbn. rewrite app_nil_r. split; reflexivity.
  - destruct H as (sc & ec & sd & ed & l1 & l2 & ty & st & et
                   & H1 & H2 & H3 & H4 & H5 & H6 & H7).
    rewrite (process_row_due yf to_datetime transport cfg today row ob
               _ _ _ _ _ _ _ _ _ H1 H2 H3 H4 H5 H6 H7).
    rewrite H1, H2, H3, H4. cbn [fst]. rewrite H5, H6, H7.
    split; reflexivity.
Qed.

Lemma iterrows_messages today rows : forall k ob,
  outbox_of (loop today rows k ob) = ob ++ omap (message today) rows
  /\ result_of (loop today rows k ob)
     = Ok (k + successes transport ob (omap (message today) rows)).
Proof.
  induction rows as [|row rest IH]; intros k ob.
  - cbn. rewrite app_nil_r, Z.add_0_r. split; reflexivity.
  - destruct (process_row_message today row ob) as [Hob Hc].
    destruct (process today row ob) as [[r0 l0] ob0] eqn:Hp.
    unfold outbox_of, result_of in Hob, Hc. cbn [fst snd] in Hob, Hc. subst ob0.
    destruct (IH (if counted r0 then k + 1 else k)
                (ob ++ option_list (message today row))) as [IHob IHres].
    destruct (loop today rest (if counted r0 then k + 1 else k)
                (ob ++ option_list (message today row)))
      as [[r2 l2] ob2] eqn:Hrest.
    erewrite iterrows_cons; [|exact Hp|exact Hrest].
    unfold outbox_of, result_of in *. cbn [fst snd] in *.
    rewrite IHob, IHres, Hc, omap_cons_option_list.
    destruct (message today row) as [d|].
    + change (option_list (Some d)) with [d]. cbn [app successes].
      rewrite <- app_assoc. cbn [app]. split; [reflexivity|].
      f_equal. destruct (transport ob d); lia.
    + change (option_list (@None dispatch)) with (@nil dispatch).
      rewrite app_nil_r. split; reflexivity.
Qed.

Lemma check_messages today rows ob :
  outbox_of (check_and_send_reminders yf to_datetime transport cfg today rows ob)
  = ob ++ omap (message today) rows
  /\ result_of (check_and_send_reminders yf to_datetime transport cfg today rows ob)
     = Ok (successes transport ob (omap (message today) rows)).
Proof.
  destruct (check_result_outbox yf to_datetime transport cfg today rows ob) as [-> ->].
  destruct (iterrows_messages today rows 0 ob) as [-> ->]. split; reflexivity.
Qed.

End Messages.

Lemma successes_bounds transport extra : forall ob,
  0 <= successes transport ob extra <= Z.of_nat (length extra).
Proof.
  induction extra as [|d rest IH]; intros ob; cbn [successes length]; [lia|].
  specialize (IH (ob ++ [d])). destruct (transport ob d); lia.
Qed.

Lemma successes_delivering extra : forall ob,
  successes delivering ob extra = Z.of_nat (length extra).
Proof.
  induction extra as [|d rest IH]; intros ob; cbn [successes length]; [lia|].
  rewrite IH. unfold delivering. lia.
Qed.

Lemma successes_refusing extra : forall ob, successes refusing ob extra = 0.
Proof.
  induction extra as [|d rest IH]; intros ob; cbn [successes]; [lia|].
  rewrite IH. reflexivity.
Qed.

Lemma length_omap_le {A B} (f : A -> option B) (l : list A) :
  (length (omap f l) <= length l)%nat.
Proof.
  induction l as [|x l IH]; cbn; [lia|]. destruct (f x); cbn; lia.
Qed.

Lemma successes_app transport e1 : forall ob e2,
  successes transport ob (e1 ++ e2)
  = successes transport ob e1 + successes transport (ob ++ e1) e2.
Proof.
  induction e1 as [|d rest IH]; intros ob e2.
  - cbn. rewrite app_nil_r. reflexivity.
  - cbn [app successes]. rewrite IH, <- app_assoc. cbn [app]. lia.
Qed.

(** [X1] The messages a run hands to the transport are read off the
    rows alone: they are the same whatever the transport answers and
    whatever was sent before.  So a failed delivery does not keep
    later reminders from being sent, and a second run on the same day
    sends the same reminders again. *)
Theorem messages_ignore_transport_and_history yf to_datetime cfg today rows
  transport1 transport2 ob1 ob2 :
  exists extra,
    outbox_of (check_and_send_reminders yf to_datetime transport1 cfg today rows ob1)
    = ob1 ++ extra
    /\ outbox_of (check_and_send_reminders yf to_datetime transport2 cfg today rows ob2)
       = ob2 ++ extra
    /\ outbox_of
         (check_and_send_reminders yf to_datetime transport1 cfg today rows
            (outbox_of
               (check_and_send_reminders yf to_datetime transport1 cfg today rows ob1)))
       = (ob1 ++ extra) ++ extra.
Proof.
  exists (omap (row_message yf to_datetime cfg today) rows).
  destruct (check_messages yf to_datetime transport1 cfg today rows ob1) as [H1 _].
  destruct (check_messages yf to_datetime transport2 cfg today rows ob2) as [H2 _].
  split; [exact H1|]. split; [exact H2|].
  rewrite H1.
  apply (check_messages yf to_datetime transport1 cfg today rows).
Qed.

(** [X2] A run over two batches one after the other is the run over
    the first followed by the run over the second: the messages come
    in row order and the counts add up. *)
Theorem run_over_concatenated_batches yf to_datetime transport cfg today rows1 rows2 ob :
  outbox_of (check_and_send_reminders yf to_datetime transport cfg today (rows1 ++ rows2) ob)
  = outbox_of
      (check_and_send_reminders yf to_datetime transport cfg today rows2
         (outbox_of (check_and_send_reminders yf to_datetime transport cfg today rows1 ob)))
  /\ exists n1 n2,
      result_of (check_and_send_reminders yf to_datetime transport cfg today rows1 ob)
      = Ok n1
      /\ result_of
           (check_and_send_reminders yf to_datetime transport cfg today rows2
              (outbox_of (check_and_send_reminders yf to_datetime transport cfg today rows1 ob)))
         = Ok n2
      /\ result_of
           (check_and_send_reminders yf to_datetime transport cfg today (rows1 ++ rows2) ob)
         = Ok (n1 + n2).
Proof.
  destruct (check_messages yf to_datetime transport cfg today rows1 ob) as [Ho1 Hr1].
  destruct (check_messages yf to_datetime transport cfg today (rows1 ++ rows2) ob)
    as [Ho Hr].
  rewrite Ho1.
  destruct (check_messages yf to_datetime transport cfg today rows2
              (ob ++ omap (row_message yf to_datetime cfg today) rows1)) as [Ho2 Hr2].
  rewrite Ho, Ho2, Hr, Hr1, Hr2, omap_app, successes_app, app_assoc.
  split; [reflexivity|]. eauto.
Qed.

(** [X3] The count a run returns is the number of messages the
    transport delivered; it lies between zero and the number of
    messages sent, which is at most the number of rows.  With a
    transport that delivers everything the count is the number of
    messages; with one that delivers nothing it is zero although the
    same messages were handed over. *)
Theorem sent_count_is_number_delivered yf to_datetime transport cfg today rows ob :
  exists extra,
    outbox_of (check_and_send_reminders yf to_datetime transport cfg today rows ob)
    = ob ++ extra
    /\ result_of (check_and_send_reminders yf to_datetime transport cfg today rows ob)
       = Ok (successes transport ob extra)
    /\ 0 <= successes transport ob extra <= Z.of_nat (length extra)
    /\ (length extra <= length rows)%nat
    /\ result_of (check_and_send_reminders yf to_datetime delivering cfg today rows ob)
       = Ok (Z.of_nat (length extra))
    /\ outbox_of (check_and_send_reminders yf to_datetime refusing cfg today rows ob)
       = ob ++ extra
    /\ result_of (check_and_send_reminders yf to_datetime refusing cfg today rows ob)
       = Ok 0.
Proof.
  exists (omap (row_message yf to_datetime cfg today) rows).
  destruct (check_messages yf to_datetime transport cfg today rows ob) as [Ho Hr].
  split; [exact Ho|]. split; [exact Hr|].
  split; [apply successes_bounds|]. split; [apply length_omap_le|].
  destruct (check_messages yf to_datetime delivering cfg today rows ob) as [_ Hr1].
  destruct (check_messages yf to_datetime refusing cfg today rows ob) as [Ho2 Hr2].
  rewrite successes_delivering in Hr1. rewrite successes_refusing in Hr2.
  split; [exact Hr1|]. split; [exact Ho2|exact Hr2].
Qed.

(** ** The messages themselves *)

Lemma determine_reminder_type_known today sd ed ty :
  determine_reminder_type today sd ed = Ok (Some ty) -> ty ∈ reminder_types.
Proof.
  unfold determine_reminder_type, reminder_types.
  destruct (stamp_date sd) as [d|]; cbn [rbind]; [|discriminate].
  repeat (destruct (_ =? _); [intros [= <-]; set_solver|]).
  destruct ed as [e|]; [|discriminate].
  destruct (stamp_date e) as [x|]; cbn [rbind]; [|discriminate].
  destruct (_ =? _); [intros [= <-]; set_solver|discriminate].
Qed.

Lemma row_message_inv yf to_datetime cfg today row msg :
  row_message yf to_datetime cfg today row = Some msg ->
  exists sd ed ty start_text end_text,
    reminder_due cfg today (Some sd) ed = Ok (Some ty)
    /\ stamp_strftime_iso yf sd = Ok start_text
    /\ msg = reminder_message (row_event_data row start_text end_text) ty.
Proof.
  unfold row_message.
  destruct (date_column cfg "start_date") as [sc|]; [|discriminate].
  destruct (date_column cfg "end_date") as [ec|]; [|discriminate].
  destruct (fst (parse_date to_datetime (row_get row sc VNone))) as [[sd|]|];
    try discriminate.
  destruct (fst (parse_date to_datetime (row_get row ec VNone))) as [ed|];
    try discriminate.
  destruct (reminder_due cfg today (Some sd) ed) as [[ty|]|] eqn:Hdue;
    try discriminate.
  destruct (stamp_strftime_iso yf sd) as [st|] eqn:Hst; try discriminate.
  destruct (match ed with Some e => stamp_strftime_iso yf e | None => Ok "N/A" end)
    as [et|]; try discriminate.
  intros [= <-]. exists sd, ed, ty, st, et. auto.
Qed.

(** [X4] Every message of a run has one of the five reminder types,
    so the general wording of [create_email_content] is never sent by
    the check.  Its subject and body are the ones
    [create_email_content] makes of its event and type, the subject is
    [Course Reminder: ] followed by the name, and the name and program
    are read from a row of the batch: the name from [Course Name],
    else [Event Name], else [Name], else the text [Event]; the program
    from [Program Name], else the text [N/A]. *)
Theorem messages_are_typed_reminders yf to_datetime transport cfg today rows ob :
  exists extra,
    outbox_of (check_and_send_reminders yf to_datetime transport cfg today rows ob)
    = ob ++ extra
    /\ Forall
         (fun msg =>
            d_type msg ∈ reminder_types
            /\ (d_subject msg, d_content msg)
               = create_email_content (d_event msg) (d_type msg)
            /\ d_subject msg = "Course Reminder: " +:+ str (event_name (d_event msg))
            /\ exists row,
                row ∈ rows
                /\ event_name (d_event msg)
                   = row_get row "Course Name"
                       (row_get row "Event Name" (row_get row "Name" (VStr "Event")))
                /\ program (d_event msg) = row_get row "Program Name" (VStr "N/A"))
         extra.
Proof.
  exists (omap (row_message yf to_datetime cfg today) rows).
  split; [apply (check_messages yf to_datetime transport cfg today rows ob)|].
  apply Forall_forall. intros msg Hmsg.
  apply list_elem_of_omap in Hmsg as (row & Hrow & Hmsg).
  apply row_message_inv in Hmsg as (sd & ed & ty & st & et & Hdue & _ & ->).
  apply reminder_due_some in Hdue as [Hty _].
  apply determine_reminder_type_known in Hty.
  cbn [reminder_message d_type d_subject d_content d_event].
  split; [exact Hty|]. split; [apply surjective_pairing|].
  split; [reflexivity|]. exists row. auto.
Qed.

(** ** A configuration without its date columns *)

Lemma process_row_no_start_column yf to_datetime transport cfg today row ob :
  date_columns cfg !! "start_date" = None ->
  process_row yf to_datetime transport cfg today row ob = (Raise KeyError, [], ob).
Proof.
  intros H. unfold process_row, bind, lift, date_column. rewrite H. reflexivity.
Qed.

Lemma iterrows_no_start_column yf to_datetime transport cfg today rows : forall k ob,
  date_columns cfg !! "start_date" = None ->
  iterrows yf to_datetime transport cfg today rows k ob
  = (Ok k, map (fun _ => Error_processing_row KeyError) rows, ob).
Proof.
  induction rows as [|row rest IH]; intros k ob H; [reflexivity|].
  erewrite iterrows_cons;
    [|apply process_row_no_start_column, H|cbn [counted]; apply IH, H].
  reflexivity.
Qed.

(** [X5] When the configuration has no [start_date] or no [end_date]
    entry under [date_columns], every row fails with [KeyError]
    inside the loop: the run sends nothing and returns zero.  Without
    the [start_date] entry its log is one error record per row and
    the closing count. *)
Theorem missing_date_column_skips_every_row yf to_datetime transport cfg today rows ob :
  date_columns cfg !! "start_date" = None \/ date_columns cfg !! "end_date" = None ->
  outbox_of (check_and_send_reminders yf to_datetime transport cfg today rows ob) = ob
  /\ result_of (check_and_send_reminders yf to_datetime transport cfg today rows ob) = Ok 0
  /\ (date_columns cfg !! "start_date" = None ->
      log_of (check_and_send_reminders yf to_datetime transport cfg today rows ob)
      = map (fun _ => Error_processing_row KeyError) rows ++ [Sent_reminders_today 0]).
Proof.
  intros Hcol.
  assert (Hnone : omap (row_message yf to_datetime cfg today) rows = []).
  { induction rows as [|row rest IH]; [reflexivity|].
    rewrite omap_cons_option_list, IH.
    unfold row_message, date_column.
    destruct Hcol as [-> | ->]; [reflexivity|].
    destruct (date_columns cfg !! "start_date"); reflexivity. }
  destruct (check_messages yf to_datetime transport cfg today rows ob) as [Ho Hr].
  rewrite Hnone in Ho, Hr. rewrite app_nil_r in Ho.
  split; [exact Ho|]. split; [exact Hr|].
  intros Hstart.
  erewrite check_and_send_reminders_eq by (apply iterrows_no_start_column, Hstart).
  reflexivity.
Qed.

Lemma missing_date_column_skips_every_row_witness :
  outbox_of (check_and_send_reminders Unpadded failing_fallback delivering columnless_config
               sample_today [open_row "X" "2025-01-24"] []) = []
  /\ result_of (check_and_send_reminders Unpadded failing_fallback delivering columnless_config
                  sample_today [open_row "X" "2025-01-24"] []) = Ok 0
  /\ (date_columns columnless_config !! "start_date" = None ->
      log_of (check_and_send_reminders Unpadded failing_fallback delivering columnless_config
                sample_today [open_row "X" "2025-01-24"] [])
      = map (fun _ => Error_processing_row KeyError) [open_row "X" "2025-01-24"]
        ++ [Sent_reminders_today 0]).
Proof.
  apply (missing_date_column_skips_every_row Unpadded failing_fallback delivering
           columnless_config sample_today [open_row "X" "2025-01-24"] []).
  left. reflexivity.
Defined.

(** ** The list of reminder dates *)

Lemma reminder_days_loop_upcoming today st ed days_list : forall acc l,
  reminder_days_loop today st ed days_list acc = Ok l ->
  Forall (fun x => today <= x) acc ->
  Forall (fun x => today <= x) l
  /\ (length l <= length acc + length days_list)%nat.
Proof.
  induction days_list as [|d rest IH]; intros acc l H Hacc.
  - cbn in H. injection H as <-. split; [exact Hacc|simpl; lia].
  - cbn [reminder_days_loop] in H.
    destruct (d >? 0).
    + destruct (stamp_date st) as [sd|]; cbn [rbind] in H; [|discriminate].
      destruct (date_minus_days sd d) as [rd|]; cbn [rbind] in H; [|discriminate].
      apply IH in H.
      * destruct H as [H1 H2]. split; [exact H1|].
        destruct (rd >=? today); [rewrite length_app in H2|]; simpl in *; lia.
      * destruct (Z.geb_spec rd today); [|exact Hacc].
        apply Forall_app. split; [exact Hacc|]. repeat constructor. lia.
    + destruct (d <? 0), ed as [e|];
        try (apply IH in H; [|exact Hacc]; destruct H as [H1 H2];
             split; [exact H1|simpl; lia]).
      destruct (stamp_date e) as [x|]; cbn [rbind] in H; [|discriminate].
      destruct (date_minus_days x d) as [rd|]; cbn [rbind] in H; [|discriminate].
      apply IH in H.
      * destruct H as [H1 H2]. split; [exact H1|].
        destruct (rd >=? today); [rewrite length_app in H2|]; simpl in *; lia.
      * destruct (Z.geb_spec rd today); [|exact Hacc].
        apply Forall_app. split; [exact Hacc|]. repeat constructor. lia.
Qed.

(** [X6] Whenever [get_reminder_dates] returns, its list is in
    ascending order, holds no date before today, and has at most one
    date per configured offset; without a start date it is empty.
    For a record with proper dates a date is listed exactly when it
    is not before today and is the candidate of a configured offset
    ([start_date - d] for a positive one, [end_date + |d|] for a
    negative one when there is an end date). *)
Theorem reminder_dates_sorted_upcoming cfg today start_date end_date dates :
  get_reminder_dates cfg today start_date end_date = Ok dates ->
  StronglySorted Z.le dates
  /\ Forall (fun x => today <= x) dates
  /\ (length dates <= length (reminder_days cfg))%nat
  /\ (start_date = None -> dates = [])
  /\ (forall s fin,
        start_date = Some (Moment s) -> end_date = option_map Moment fin ->
        forall x,
          x ∈ dates
          <-> today <= x
              /\ exists days,
                  days ∈ reminder_days cfg
                  /\ candidate (date_of s) (option_map date_of fin) days = Some x).
Proof.
  intros H.
  assert (Hgen : StronglySorted Z.le dates
                 /\ Forall (fun x => today <= x) dates
                 /\ (length dates <= length (reminder_days cfg))%nat).
  { unfold get_reminder_dates in H. destruct start_date as [st|].
    - destruct (reminder_days_loop today st end_date (reminder_days cfg) [])
        as [l|] eqn:Hl; [|discriminate].
      cbn [rbind] in H. injection H as <-.
      apply reminder_days_loop_upcoming in Hl as [H1 H2]; [|constructor].
      split; [apply StronglySorted_merge_sort; apply _|].
      rewrite merge_sort_Permutation. split; [exact H1|simpl in H2; lia].
    - injection H as <-. repeat split; [constructor|constructor|simpl; lia]. }
  destruct Hgen as (Hs & Hf & Hl).
  split; [exact Hs|]. split; [exact Hf|]. split; [exact Hl|]. split.
  - intros ->. cbn in H. congruence.
  - intros s fin -> -> x.
    apply get_reminder_dates_inv in H. subst dates.
    rewrite elem_of_merge_sort_le. apply elem_of_enumerate.
Qed.

Lemma reminder_dates_sorted_upcoming_witness :
  StronglySorted Z.le [sample_today; sample_today + 7; sample_today + 12; sample_today + 13]
  /\ Forall (fun x => sample_today <= x)
       [sample_today; sample_today + 7; sample_today + 12; sample_today + 13].
Proof.
  pose proof (reminder_dates_sorted_upcoming default_config sample_today
                (Some (Moment (mk_datetime 2025 1 24 0 0 0))) None
                [sample_today; sample_today + 7; sample_today + 12; sample_today + 13]
                eq_refl) as (H1 & H2 & _).
  split; [exact H1|exact H2].
Defined.

(** ** An offset outside the calendar *)

Lemma reminder_days_loop_overflow today s fin days_list : forall acc days c,
  days ∈ days_list ->
  candidate (date_of s) (option_map date_of fin) days = Some c ->
  ~ representable c ->
  reminder_days_loop today (Moment s) (option_map Moment fin) days_list acc
  = Raise OverflowError.
Proof.
  induction days_list as [|d rest IH]; intros acc days c Hin Hc Hrep.
  - inversion Hin.
  - rewrite reminder_days_loop_cons.
    apply elem_of_cons in Hin as [->|Hin].
    + rewrite Hc.
      destruct (representableb c) eqn:E; [|reflexivity].
      apply representableb_spec in E. contradiction.
    + destruct (candidate (date_of s) (option_map date_of fin) d) as [c'|];
        [|eapply IH; eassumption].
      destruct (representableb c'); [|reflexivity].
      eapply IH; eassumption.
Qed.

Lemma process_row_raises yf to_datetime transport cfg today row ob sc ec sd ed l1 l2 e :
  date_column cfg "start_date" = Ok sc ->
  date_column cfg "end_date" = Ok ec ->
  parse_date to_datetime (row_get row sc VNone) = (Ok sd, l1) ->
  parse_date to_datetime (row_get row ec VNone) = (Ok ed, l2) ->
  reminder_due cfg today sd ed = Raise e ->
  process_row yf to_datetime transport cfg today row ob = (Raise e, l1 ++ l2, ob).
Proof.
  intros Hsc Hec Hs He Hdue.
  unfold process_row, bind, lift, emit.
  rewrite Hsc, Hs. cbn [fst snd]. rewrite Hec, He. cbn [fst snd].
  rewrite Hdue, !app_nil_r. reflexivity.
Qed.

(** [X7] One configured offset whose candidate date lies outside
    what [datetime.date] can hold (before year 1 or after year 9999)
    makes [get_reminder_dates] raise [OverflowError] for the record.
    The row is then given up with an error record and nothing is sent
    for it, even on a day on which one of its reminders is due. *)
Theorem out_of_range_offset_silences_row yf to_datetime transport cfg today s fin days c :
  days ∈ reminder_days cfg ->
  candidate (date_of s) (option_map date_of fin) days = Some c ->
  ~ representable c ->
  get_reminder_dates cfg today (Some (Moment s)) (option_map Moment fin)
  = Raise OverflowError
  /\ reminder_due cfg today (Some (Moment s)) (option_map Moment fin)
     = Raise OverflowError
  /\ (forall row ob sc ec l1 l2,
        date_column cfg "start_date" = Ok sc ->
        date_column cfg "end_date" = Ok ec ->
        parse_date to_datetime (row_get row sc VNone) = (Ok (Some (Moment s)), l1) ->
        parse_date to_datetime (row_get row ec VNone) = (Ok (option_map Moment fin), l2) ->
        check_and_send_reminders yf to_datetime transport cfg today [row] ob
        = (Ok 0,
           l1 ++ l2 ++ [Error_processing_row OverflowError; Sent_reminders_today 0],
           ob)).
Proof.
  intros Hin Hc Hrep.
  assert (Hdates : get_reminder_dates cfg today (Some (Moment s)) (option_map Moment fin)
                   = Raise OverflowError).
  { unfold get_reminder_dates.
    rewrite (reminder_days_loop_overflow _ _ _ _ _ _ _ Hin Hc Hrep). reflexivity. }
  assert (Hdue : reminder_due cfg today (Some (Moment s)) (option_map Moment fin)
                 = Raise OverflowError).
  { unfold reminder_due. rewrite Hdates. reflexivity. }
  split; [exact Hdates|]. split; [exact Hdue|].
  intros row ob sc ec l1 l2 Hsc Hec Hs He.
  erewrite check_and_send_reminders_eq;
    [|eapply iterrows_cons;
      [eapply process_row_raises; eassumption|reflexivity]].
  cbn [caught]. rewrite !app_nil_r, <- !app_assoc. reflexivity.
Qed.

Lemma out_of_range_offset_silences_row_witness :
  get_reminder_dates far_offset_config sample_today
    (Some (Moment (mk_datetime 2025 1 24 0 0 0))) (option_map Moment None)
  = Raise OverflowError
  /\ reminder_due far_offset_config sample_today
       (Some (Moment (mk_datetime 2025 1 24 0 0 0))) (option_map Moment None)
     = Raise OverflowError.
Proof.
  pose proof (out_of_range_offset_silences_row Unpadded failing_fallback delivering
                far_offset_config sample_today (mk_datetime 2025 1 24 0 0 0) None
                1095000 (739275 - 1095000)) as H.
  destruct H as (H1 & H2 & _).
  - apply list_elem_of_In. simpl. tauto.
  - reflexivity.
  - unfold representable. lia.
  - split; [exact H1|exact H2].
Defined.

(** ** The wording of the reminders *)

Lemma reminder_sentence_inj name rest ty1 ty2 :
  ty1 ∈ reminder_types -> ty2 ∈ reminder_types ->
  reminder_sentence name ty1 +:+ rest = reminder_sentence name ty2 +:+ rest ->
  ty1 = ty2.
Proof.
  unfold reminder_types. intros H1 H2 H.
  repeat (apply elem_of_cons in H1 as [->|H1]); [| | | | | inversion H1];
    (repeat (apply elem_of_cons in H2 as [->|H2]); [| | | | | inversion H2]);
    try reflexivity; exfalso;
    cbn [reminder_sentence String.eqb Ascii.eqb Bool.eqb] in H;
    rewrite !append_assoc in H;
    try (apply (inj (String.append _)) in H;
         apply (inj (String.append name)) in H);
    vm_compute in H; discriminate H.
Qed.

(** [X8] For one event the five reminder types give five different
    bodies, so the body tells which reminder it is; the subject is the
    same for all of them.  A type outside the five gets the general
    wording. *)
Theorem reminder_body_tells_its_type ev :
  (forall ty1 ty2,
      ty1 ∈ reminder_types -> ty2 ∈ reminder_types ->
      snd (create_email_content ev ty1) = snd (create_email_content ev ty2) ->
      ty1 = ty2)
  /\ (forall ty,
        fst (create_email_content ev ty) = "Course Reminder: " +:+ str (event_name ev))
  /\ (forall ty,
        ty ∉ reminder_types ->
        reminder_sentence (str (event_name ev)) ty
        = "This is a reminder about " +:+ str (event_name ev) +:+ ".").
Proof.
  split; [|split].
  - intros ty1 ty2 H1 H2 H. cbn [create_email_content snd] in H.
    do 4 apply (inj (String.append _)) in H.
    eapply reminder_sentence_inj; eassumption.
  - reflexivity.
  - intros ty Hty. unfold reminder_types in Hty.
    repeat (apply not_elem_of_cons in Hty as [? Hty]).
    unfold reminder_sentence.
    rewrite !(proj2 (String.eqb_neq _ _)) by assumption.
    reflexivity.
Qed.

(** ** Reading back what was written *)

Lemma range_ok_spec f lo n v :
  range_ok f lo n = true -> lo <= v < lo + Z.of_nat n -> f v = true.
Proof.
  unfold range_ok. intros H Hv.
  rewrite forallb_forall in H.
  specialize (H (Z.to_nat (v - lo))).
  replace (lo + Z.of_nat (Z.to_nat (v - lo))) with v in H by lia.
  apply H. apply in_seq. lia.
Qed.

Lemma match_seq_extend ks : forall s r m r',
  Strptime.match_seq ks s = Some (m, r') ->
  Strptime.match_seq ks (s ++ r) = Some (m, r' ++ r).
Proof.
  induction ks as [|k ks IH]; intros s r m r' H; cbn in *.
  - injection H as <- <-. reflexivity.
  - destruct s as [|c s]; [discriminate|]. cbn.
    destruct (Strptime.in_class k c); [|discriminate].
    destruct (Strptime.match_seq ks s) as [[m0 r0]|] eqn:E; [|discriminate].
    injection H as <- <-. rewrite (IH _ r _ _ E). reflexivity.
Qed.

Lemma match_seq_extend_none ks : forall s r,
  Strptime.match_seq ks s = None ->
  (length ks <= length s)%nat ->
  Strptime.match_seq ks (s ++ r) = None.
Proof.
  induction ks as [|k ks IH]; intros s r H Hlen; cbn in *; [discriminate|].
  destruct s as [|c s]; [simpl in Hlen; lia|]. cbn.
  destruct (Strptime.in_class k c); [|reflexivity].
  destruct (Strptime.match_seq ks s) as [[m0 r0]|] eqn:E; [discriminate|].
  rewrite (IH _ r E) by (simpl in Hlen; lia). reflexivity.
Qed.

(** When the directive alone matches the whole of [s] first, the
    directive followed by [ts] matches [s ++ rr] first in the same
    way, whatever comes first for [ts] on [rr]. *)
Lemma matches_dir_head d ts s rr d' m tail f r' tl0 :
  Forall (fun alt => (length alt <= length s)%nat) (Strptime.alternatives d) ->
  Strptime.matches [Strptime.Dir d] s = ([(d', m)], []) :: tail ->
  Strptime.matches ts rr = (f, r') :: tl0 ->
  exists tl, Strptime.matches (Strptime.Dir d :: ts) (s ++ rr) = ((d, m) :: f, r') :: tl.
Proof.
  cbn [Strptime.matches]. generalize (Strptime.alternatives d) as alts.
  induction alts as [|alt alts IH]; intros Hlen Hone Hts; [discriminate|].
  apply Forall_cons in Hlen as [Hl Hlen]. cbn [flat_map] in *.
  destruct (Strptime.match_seq alt s) as [[m0 r0]|] eqn:E.
  - cbn in Hone. injection Hone; intros; subst.
    rewrite (match_seq_extend _ _ rr _ _ E). cbn [app]. rewrite Hts. cbn. eauto.
  - rewrite (match_seq_extend_none _ _ rr E Hl). cbn in *. apply IH; assumption.
Qed.

Lemma field_ok_head d w v ts rr f r' tl0 :
  field_ok d w v = true ->
  Strptime.matches ts rr = (f, r') :: tl0 ->
  (exists tl,
      Strptime.matches (Strptime.Dir d :: ts) (list_ascii_of_string (zfill w v) ++ rr)
      = ((d, list_ascii_of_string (zfill w v)) :: f, r') :: tl)
  /\ int_of_digits (list_ascii_of_string (zfill w v)) = v
  /\ exists c s, list_ascii_of_string (zfill w v) = c :: s
                 /\ is_digit c = true /\ Strptime.is_space c = false.
Proof.
  unfold field_ok. cbv zeta. intros H Hts.
  destruct (Strptime.matches [Strptime.Dir d] (list_ascii_of_string (zfill w v)))
    as [|[[|[d' m] [|]] [|]] tail] eqn:E; try discriminate.
  apply andb_true_iff in H as [H H4]. apply andb_true_iff in H as [H H3].
  apply andb_true_iff in H as [H1 H2].
  apply String.eqb_eq in H1. apply Z.eqb_eq in H2.
  assert (Hm : m = list_ascii_of_string (zfill w v)).
  { rewrite <- H1. symmetry. apply list_ascii_of_string_of_list_ascii. }
  split; [|split; [exact H2|]].
  - subst m. eapply matches_dir_head; [|exact E|exact Hts].
    apply Forall_forall. intros alt Halt. rewrite forallb_forall in H3.
    apply Nat.leb_le, H3, list_elem_of_In, Halt.
  - destruct (list_ascii_of_string (zfill w v)) as [|c s]; [discriminate|].
    apply andb_true_iff in H4 as [Hd Hs]. apply negb_true_iff in Hs.
    exists c, s. auto.
Qed.

Lemma matches_lit c ts rr :
  Strptime.matches (Strptime.Lit c :: ts) (c :: rr) = Strptime.matches ts rr.
Proof. cbn. rewrite Ascii.eqb_refl. reflexivity. Qed.

Lemma matches_blank ts c s :
  Strptime.is_space c = false ->
  Strptime.matches (Strptime.Blanks :: ts) (" "%char :: c :: s)
  = Strptime.matches ts (c :: s).
Proof.
  intros H. cbn [Strptime.matches Strptime.match_blanks].
  change (Strptime.is_space " ") with true. cbn iota. rewrite H.
  cbn. apply app_nil_r.
Qed.

Lemma years_ok : range_ok (field_ok Strptime.dY 4) 1 9999 = true.
Proof. vm_compute. reflexivity. Qed.

Lemma months_ok : range_ok (field_ok Strptime.dm 2) 1 12 = true.
Proof. vm_compute. reflexivity. Qed.

Lemma days_ok : range_ok (field_ok Strptime.dd 2) 1 31 = true.
Proof. vm_compute. reflexivity. Qed.

Lemma hours_ok : range_ok (field_ok Strptime.dH 2) 0 24 = true.
Proof. vm_compute. reflexivity. Qed.

Lemma minutes_ok : range_ok (field_ok Strptime.dM 2) 0 60 = true.
Proof. vm_compute. reflexivity. Qed.

Lemma seconds_ok : range_ok (field_ok Strptime.dS 2) 0 60 = true.
Proof. vm_compute. reflexivity. Qed.

Lemma list_ascii_of_string_app (a b : string) :
  list_ascii_of_string (a +:+ b) = list_ascii_of_string a ++ list_ascii_of_string b.
Proof.
  induction a as [|c a IH]; [reflexivity|].
  change (list_ascii_of_string (String c a +:+ b))
    with (c :: list_ascii_of_string (a +:+ b)).
  rewrite IH. reflexivity.
Qed.

Lemma days_in_month_le y m : 1 <= m <= 12 -> _days_in_month y m <= 31.
Proof.
  intros Hm. unfold _days_in_month.
  destruct ((m =? 2) && _is_leap y); [lia|].
  assert (Hcases : m = 1 \/ m = 2 \/ m = 3 \/ m = 4 \/ m = 5 \/ m = 6 \/ m = 7
                   \/ m = 8 \/ m = 9 \/ m = 10 \/ m = 11 \/ m = 12) by lia.
  repeat (destruct Hcases as [->|Hcases]; [apply Z.leb_le; vm_compute; reflexivity|]).
  rewrite Hcases. apply Z.leb_le. vm_compute. reflexivity.
Qed.

Lemma check_fields_ranges t :
  check_fields t = true ->
  1 <= year t <= 9999 /\ 1 <= month t <= 12 /\ 1 <= day t <= 31
  /\ 0 <= hour t <= 23 /\ 0 <= minute t <= 59 /\ 0 <= second t <= 59.
Proof.
  unfold check_fields, MINYEAR, MAXYEAR. intros H.
  repeat (apply andb_true_iff in H as [H ?]).
  repeat match goal with
         | X : (_ <=? _) = true |- _ => apply Z.leb_le in X
         end.
  pose proof (days_in_month_le (year t) (month t)). lia.
Qed.

Lemma digit_not_slash c : is_digit c = true -> Ascii.eqb c "/" = false.
Proof.
  destruct c as [[] [] [] [] [] [] [] []]; vm_compute; congruence.
Qed.

Lemma matches_slash_first_fails d ts a b c r :
  d = Strptime.dm \/ d = Strptime.dd ->
  is_digit b = true -> is_digit c = true ->
  Strptime.matches (Strptime.Dir d :: Strptime.Lit "/" :: ts) (a :: b :: c :: r) = [].
Proof.
  intros Hd Hb Hc.
  pose proof (digit_not_slash _ Hb) as Nb. pose proof (digit_not_slash _ Hc) as Nc.
  destruct Hd as [-> | ->];
    cbn [Strptime.matches Strptime.alternatives flat_map Strptime.match_seq];
    repeat match goal with
           | |- context [Strptime.in_class ?k ?x] => destruct (Strptime.in_class k x)
           end;
    cbn [map app fst snd]; rewrite ?Nb, ?Nc; reflexivity.
Qed.

Lemma four_digits_all : range_ok four_digits 1 9999 = true.
Proof. vm_compute. reflexivity. Qed.

Lemma compile_iso :
  Strptime.compile (list_ascii_of_string "%Y-%m-%d")
  = Some [Strptime.Dir Strptime.dY; Strptime.Lit "-"; Strptime.Dir Strptime.dm;
          Strptime.Lit "-"; Strptime.Dir Strptime.dd].
Proof. vm_compute. reflexivity. Qed.

Lemma compile_stamp :
  Strptime.compile (list_ascii_of_string "%Y-%m-%d %H:%M:%S")
  = Some [Strptime.Dir Strptime.dY; Strptime.Lit "-"; Strptime.Dir Strptime.dm;
          Strptime.Lit "-"; Strptime.Dir Strptime.dd; Strptime.Blanks;
          Strptime.Dir Strptime.dH; Strptime.Lit ":"; Strptime.Dir Strptime.dM;
          Strptime.Lit ":"; Strptime.Dir Strptime.dS].
Proof. vm_compute. reflexivity. Qed.

Lemma nat_9999 : Z.of_nat 9999 = 9999.
Proof. vm_compute. reflexivity. Qed.

Lemma year_field_ok y : 1 <= y <= 9999 -> field_ok Strptime.dY 4 y = true.
Proof.
  intros H. apply (range_ok_spec _ _ _ y years_ok). rewrite nat_9999. lia.
Qed.

Lemma year_four_digits y : 1 <= y <= 9999 -> four_digits y = true.
Proof.
  intros H. apply (range_ok_spec _ _ _ y four_digits_all). rewrite nat_9999. lia.
Qed.

(** The date part of a written date, followed by anything: the
    tokens of [%Y-%m-%d] followed by [ts] match it first with the
    three fields read back, when [ts] matches what follows. *)
Lemma matches_iso_head t ts rr f r' tl0 :
  check_fields t = true ->
  Strptime.matches ts rr = (f, r') :: tl0 ->
  exists ys ms ds tl,
    Strptime.matches
      (Strptime.Dir Strptime.dY :: Strptime.Lit "-" :: Strptime.Dir Strptime.dm
       :: Strptime.Lit "-" :: Strptime.Dir Strptime.dd :: ts)
      (list_ascii_of_string (isoformat_date t) ++ rr)
    = ((Strptime.dY, ys) :: (Strptime.dm, ms) :: (Strptime.dd, ds) :: f, r') :: tl
    /\ int_of_digits ys = year t /\ int_of_digits ms = month t
    /\ int_of_digits ds = day t.
Proof.
  intros Hv Hts. apply check_fields_ranges in Hv as (Hy & Hm & Hd & _).
  pose proof (year_field_ok _ Hy) as Fy.
  pose proof (range_ok_spec _ _ _ (month t) months_ok ltac:(simpl; lia)) as Fm.
  pose proof (range_ok_spec _ _ _ (day t) days_ok ltac:(simpl; lia)) as Fd.
  unfold isoformat_date. rewrite !list_ascii_of_string_app, <- !app_assoc.
  change (list_ascii_of_string "-") with ["-"%char]. cbn [app].
  destruct (field_ok_head _ _ _ _ _ _ _ _ Fd Hts) as ((tl3 & E3) & I3 & _).
  rewrite <- (matches_lit "-") in E3.
  destruct (field_ok_head _ _ _ _ _ _ _ _ Fm E3) as ((tl2 & E2) & I2 & _).
  rewrite <- (matches_lit "-") in E2.
  destruct (field_ok_head _ _ _ _ _ _ _ _ Fy E2) as ((tl1 & E1) & I1 & _).
  eauto 10.
Qed.

(** The time part of a written time stamp, with the blank before it. *)
Lemma matches_time_head t :
  check_fields t = true ->
  exists hs ms ss tl,
    Strptime.matches
      [Strptime.Blanks; Strptime.Dir Strptime.dH; Strptime.Lit ":";
       Strptime.Dir Strptime.dM; Strptime.Lit ":"; Strptime.Dir Strptime.dS]
      (list_ascii_of_string
         (" " +:+ zfill 2 (hour t) +:+ ":" +:+ zfill 2 (minute t) +:+ ":"
          +:+ zfill 2 (second t)))
    = ([(Strptime.dH, hs); (Strptime.dM, ms); (Strptime.dS, ss)], []) :: tl
    /\ int_of_digits hs = hour t /\ int_of_digits ms = minute t
    /\ int_of_digits ss = second t.
Proof.
  intros Hv. apply check_fields_ranges in Hv as (_ & _ & _ & HH & HM & HS).
  pose proof (range_ok_spec _ _ _ (hour t) hours_ok ltac:(simpl; lia)) as Fh.
  pose proof (range_ok_spec _ _ _ (minute t) minutes_ok ltac:(simpl; lia)) as Fm.
  pose proof (range_ok_spec _ _ _ (second t) seconds_ok ltac:(simpl; lia)) as Fs.
  rewrite !list_ascii_of_string_app.
  change (list_ascii_of_string ":") with [":"%char].
  change (list_ascii_of_string " ") with [" "%char]. cbn [app].
  rewrite <- (app_nil_r (list_ascii_of_string (zfill 2 (second t)))).
  destruct (field_ok_head _ _ _ [] [] [] [] [] Fs eq_refl) as ((tl3 & E3) & I3 & _).
  rewrite <- (matches_lit ":") in E3.
  destruct (field_ok_head _ _ _ _ _ _ _ _ Fm E3) as ((tl2 & E2) & I2 & _).
  rewrite <- (matches_lit ":") in E2.
  destruct (field_ok_head _ _ _ _ _ _ _ _ Fh E2)
    as ((tl1 & E1) & I1 & c & s & Hshape & _ & Hsp).
  rewrite Hshape in *. cbn [app] in *.
  rewrite (matches_blank _ _ _ Hsp), E1. eauto 10.
Qed.

Lemma check_fields_midnight t : check_fields t = true -> check_fields (midnight t) = true.
Proof.
  unfold check_fields. cbn [midnight year month day hour minute second].
  intros H. repeat (apply andb_true_iff in H as [H ?]).
  repeat (apply andb_true_iff; split); try assumption; reflexivity.
Qed.

Lemma strptime_iso_round_trip t :
  check_fields t = true ->
  Strptime.strptime (isoformat_date t) "%Y-%m-%d" = Ok (midnight t).
Proof.
  intros Hv. unfold Strptime.strptime. rewrite compile_iso.
  rewrite <- (app_nil_r (list_ascii_of_string (isoformat_date t))).
  destruct (matches_iso_head t [] [] [] [] [] Hv eq_refl)
    as (ys & ms & ds & tl & E & Iy & Im & Id).
  rewrite E. cbn [Strptime.group Strptime.directive_eqb].
  rewrite Iy, Im, Id. unfold new_datetime. cbv zeta.
  change (mk_datetime (year t) (month t) (day t) 0 0 0) with (midnight t).
  rewrite (check_fields_midnight _ Hv). reflexivity.
Qed.

Lemma str_datetime_split t :
  list_ascii_of_string (str_datetime t)
  = list_ascii_of_string (isoformat_date t)
    ++ list_ascii_of_string
         (" " +:+ zfill 2 (hour t) +:+ ":" +:+ zfill 2 (minute t) +:+ ":"
          +:+ zfill 2 (second t)).
Proof. unfold str_datetime. apply list_ascii_of_string_app. Qed.

Lemma strptime_stamp_round_trip t :
  check_fields t = true ->
  Strptime.strptime (str_datetime t) "%Y-%m-%d %H:%M:%S" = Ok t.
Proof.
  intros Hv. unfold Strptime.strptime. rewrite compile_stamp, str_datetime_split.
  destruct (matches_time_head t Hv) as (hs & mis & ss & tl0 & E0 & Ih & Imi & Is).
  destruct (matches_iso_head t _ _ _ _ _ Hv E0)
    as (ys & ms & ds & tl & E & Iy & Im & Id).
  rewrite E. cbn [Strptime.group Strptime.directive_eqb].
  rewrite Iy, Im, Id, Ih, Imi, Is. unfold new_datetime. cbv zeta.
  destruct t as [y m d H M S]. cbn [year month day hour minute second] in *.
  rewrite Hv. reflexivity.
Qed.

(** A written time stamp is not a bare date: [%Y-%m-%d] leaves the
    time unread. *)
Lemma strptime_iso_on_stamp t :
  check_fields t = true ->
  Strptime.strptime (str_datetime t) "%Y-%m-%d" = Raise ValueError.
Proof.
  intros Hv. unfold Strptime.strptime. rewrite compile_iso, str_datetime_split.
  rewrite list_ascii_of_string_app.
  change (list_ascii_of_string " ") with [" "%char]. cbn [app].
  destruct (matches_iso_head t [] (" "%char :: list_ascii_of_string
              (zfill 2 (hour t) +:+ ":" +:+ zfill 2 (minute t) +:+ ":"
               +:+ zfill 2 (second t))) [] _ [] Hv eq_refl)
    as (ys & ms & ds & tl & E & _).
  rewrite E. reflexivity.
Qed.

(** Neither slash format reads a text that starts with a year. *)
Lemma strptime_slash_on_year t rest fmt :
  check_fields t = true ->
  fmt = "%m/%d/%Y" \/ fmt = "%d/%m/%Y" ->
  Strptime.strptime (zfill 4 (year t) +:+ rest) fmt = Raise ValueError.
Proof.
  intros Hv Hfmt. apply check_fields_ranges in Hv as (Hy & _).
  pose proof (year_four_digits _ Hy) as H4. unfold four_digits in H4.
  unfold Strptime.strptime. rewrite list_ascii_of_string_app.
  destruct (list_ascii_of_string (zfill 4 (year t))) as [|a [|b [|c [|d [|? ?]]]]];
    try discriminate.
  apply andb_true_iff in H4 as [H4 _]. apply andb_true_iff in H4 as [H4 Hc].
  apply andb_true_iff in H4 as [_ Hb].
  destruct Hfmt as [-> | ->].
  - change (Strptime.compile (list_ascii_of_string "%m/%d/%Y"))
      with (Some [Strptime.Dir Strptime.dm; Strptime.Lit "/"; Strptime.Dir Strptime.dd;
                  Strptime.Lit "/"; Strptime.Dir Strptime.dY]).
    cbn [app]. rewrite matches_slash_first_fails by auto. reflexivity.
  - change (Strptime.compile (list_ascii_of_string "%d/%m/%Y"))
      with (Some [Strptime.Dir Strptime.dd; Strptime.Lit "/"; Strptime.Dir Strptime.dm;
                  Strptime.Lit "/"; Strptime.Dir Strptime.dY]).
    cbn [app]. rewrite matches_slash_first_fails by auto. reflexivity.
Qed.

Lemma str_datetime_year_first t :
  exists rest, str_datetime t = zfill 4 (year t) +:+ rest.
Proof.
  unfold str_datetime, isoformat_date. eexists. rewrite !append_assoc. reflexivity.
Qed.

Lemma new_datetime_valid y m d H M S t :
  new_datetime y m d H M S = Ok t -> check_fields t = true.
Proof.
  unfold new_datetime. cbv zeta.
  destruct (check_fields _) eqn:E; [|discriminate]. intros [= <-]. exact E.
Qed.

Lemma strptime_valid data fmt t :
  Strptime.strptime data fmt = Ok t -> check_fields t = true.
Proof.
  unfold Strptime.strptime.
  destruct (Strptime.compile _) as [ts|]; [|discriminate].
  destruct (Strptime.matches _ _) as [|[found rest] ?]; [discriminate|].
  destruct rest; [|discriminate].
  apply new_datetime_valid.
Qed.

Lemma try_formats_valid s fmts t :
  try_formats s fmts = Ok (Some t) -> check_fields t = true.
Proof.
  induction fmts as [|fmt rest IH]; cbn; [discriminate|].
  destruct (Strptime.strptime s fmt) as [t'|e] eqn:E.
  - intros [= <-]. eapply strptime_valid, E.
  - destruct e; try discriminate. exact IH.
Qed.

Lemma try_formats_stamp t :
  check_fields t = true ->
  try_formats (str_datetime t) date_formats = Ok (Some t).
Proof.
  intros Hv. unfold date_formats.
  destruct (str_datetime_year_first t) as [rest Hrest].
  cbn [try_formats].
  rewrite (strptime_iso_on_stamp _ Hv).
  rewrite Hrest.
  rewrite (strptime_slash_on_year t rest "%m/%d/%Y" Hv) by auto.
  rewrite (strptime_slash_on_year t rest "%d/%m/%Y" Hv) by auto.
  rewrite <- Hrest. rewrite (strptime_stamp_round_trip _ Hv). reflexivity.
Qed.

(** ** The formats of the date parser *)

(** [C6] (amended) [parse_date] tries [%Y-%m-%d], [%m/%d/%Y],
    [%d/%m/%Y] and then the time-stamped variants of the first two,
    [%Y-%m-%d %H:%M:%S] and [%m/%d/%Y %H:%M:%S], in this order; the
    day-first format has no time-stamped variant.  The first format
    that parses gives the result: ["01/02/2025"], which both slash
    formats accept, is read month first, with or without a time, and a
    written time stamp is read by its own format after the three date
    formats have failed on it.  When every format fails, as on a
    day-first date with a time, the fallback decides; when it fails
    as well the result is [None] and one record of level [WARNING] is
    written.  No exception leaves the parser. *)
Theorem parse_date_first_format_wins to_datetime :
  date_formats
  = ["%Y-%m-%d"; "%m/%d/%Y"; "%d/%m/%Y"; "%Y-%m-%d %H:%M:%S"; "%m/%d/%Y %H:%M:%S"]
  /\ (forall v pre fmt post t,
        isna v = false ->
        date_formats = pre ++ fmt :: post ->
        Forall (fun f => Strptime.strptime (str v) f = Raise ValueError) pre ->
        Strptime.strptime (str v) fmt = Ok t ->
        parse_date to_datetime v = (Ok (Some (Moment t)), []))
  /\ (Strptime.strptime "01/02/2025" "%m/%d/%Y" = Ok (mk_datetime 2025 1 2 0 0 0)
      /\ Strptime.strptime "01/02/2025" "%d/%m/%Y" = Ok (mk_datetime 2025 2 1 0 0 0)
      /\ parse_date to_datetime (VStr "01/02/2025")
         = (Ok (Some (Moment (mk_datetime 2025 1 2 0 0 0))), []))
  /\ (forall t,
        check_fields t = true ->
        Forall (fun f => Strptime.strptime (str_datetime t) f = Raise ValueError)
          ["%Y-%m-%d"; "%m/%d/%Y"; "%d/%m/%Y"]
        /\ Strptime.strptime (str_datetime t) "%Y-%m-%d %H:%M:%S" = Ok t
        /\ parse_date to_datetime (VStr (str_datetime t)) = (Ok (Some (Moment t)), []))
  /\ (Forall (fun f => Strptime.strptime "01/02/2025 10:30:00" f = Raise ValueError)
        ["%Y-%m-%d"; "%m/%d/%Y"; "%d/%m/%Y"; "%Y-%m-%d %H:%M:%S"]
      /\ parse_date to_datetime (VStr "01/02/2025 10:30:00")
         = (Ok (Some (Moment (mk_datetime 2025 1 2 10 30 0))), [])
      /\ parse_date to_datetime (VStr "2025-01-10  09:05:00")
         = (Ok (Some (Moment (mk_datetime 2025 1 10 9 5 0))), []))
  /\ (forall v,
        isna v = false ->
        Forall (fun f => Strptime.strptime (str v) f = Raise ValueError) date_formats ->
        parse_date to_datetime v
        = match to_datetime v with
          | Ok st => (Ok (Some st), [])
          | Raise _ => (Ok None, [Could_not_parse_date v])
          end)
  /\ (Strptime.strptime "25/12/2025 10:30:00" "%d/%m/%Y %H:%M:%S"
      = Ok (mk_datetime 2025 12 25 10 30 0)
      /\ parse_date to_datetime (VStr "25/12/2025 10:30:00")
         = match to_datetime (VStr "25/12/2025 10:30:00") with
           | Ok st => (Ok (Some st), [])
           | Raise _ => (Ok None, [Could_not_parse_date (VStr "25/12/2025 10:30:00")])
           end)
  /\ (forall v, level (Could_not_parse_date v) = WARNING)
  /\ (forall v, isna v = true -> parse_date to_datetime v = (Ok None, []))
  /\ (forall v, exists o l, parse_date to_datetime v = (Ok o, l)).
Proof.
  assert (Hnone : forall v,
             isna v = false ->
             Forall (fun f => Strptime.strptime (str v) f = Raise ValueError)
               date_formats ->
             parse_date to_datetime v
             = match to_datetime v with
               | Ok st => (Ok (Some st), [])
               | Raise _ => (Ok None, [Could_not_parse_date v])
               end).
  { intros v Hna Hall. unfold parse_date. rewrite Hna.
    rewrite (try_formats_none _ _ Hall).
    destruct (to_datetime v); reflexivity. }
  split; [reflexivity|].
  split; [|split; [|split; [|split; [|split; [|split; [|split; [|split]]]]]]].
  - intros v pre fmt post t Hna Hfmts Hpre Hfmt.
    unfold parse_date. rewrite Hna, Hfmts.
    rewrite (try_formats_first _ _ _ _ _ Hpre Hfmt). reflexivity.
  - repeat split; vm_compute; reflexivity.
  - intros t Hv. destruct (str_datetime_year_first t) as [rest Hrest].
    split; [|split].
    + repeat constructor.
      * apply strptime_iso_on_stamp, Hv.
      * rewrite Hrest. apply strptime_slash_on_year; auto.
      * rewrite Hrest. apply strptime_slash_on_year; auto.
    + apply strptime_stamp_round_trip, Hv.
    + unfold parse_date. cbn [isna str]. rewrite (try_formats_stamp _ Hv). reflexivity.
  - split; [repeat constructor; vm_compute; reflexivity|].
    split; vm_compute; reflexivity.
  - exact Hnone.
  - split; [vm_compute; reflexivity|].
    apply Hnone; [reflexivity|].
    repeat constructor; vm_compute; reflexivity.
  - reflexivity.
  - intros v Hna. unfold parse_date. rewrite Hna. reflexivity.
  - apply parse_date_total.
Qed.

(** [C6], as stated, fails for the day-first format: it has no
    time-stamped variant among the formats tried.  The text
    ["25/12/2025 10:30:00"] is a day-first date with a time, and every
    format of [parse_date] raises [ValueError] on it: it is not parsed
    by a format but left to the fallback, and with a fallback that
    fails the result is [None] and a warning. *)
Lemma day_first_time_stamp_unread :
  Strptime.strptime "25/12/2025 10:30:00" "%d/%m/%Y %H:%M:%S"
  = Ok (mk_datetime 2025 12 25 10 30 0)
  /\ ~ In "%d/%m/%Y %H:%M:%S" date_formats
  /\ Forall (fun f => Strptime.strptime "25/12/2025 10:30:00" f = Raise ValueError)
       date_formats
  /\ try_formats "25/12/2025 10:30:00" date_formats = Ok None
  /\ parse_date failing_fallback (VStr "25/12/2025 10:30:00")
     = (Ok None, [Could_not_parse_date (VStr "25/12/2025 10:30:00")]).
Proof.
  split; [vm_compute; reflexivity|].
  split; [cbn; intuition discriminate|].
  split; [repeat constructor; vm_compute; reflexivity|].
  split; vm_compute; reflexivity.
Qed.

(** ** A time stamp in a date cell *)

(** [X9] A date cell that reaches [parse_date] as a time stamp with
    valid fields is returned as it is: its text is read by the fourth
    format, [%Y-%m-%d %H:%M:%S], after the first three have failed on
    it; the fallback is not asked and nothing is logged. *)
Theorem timestamp_cell_parses_to_itself to_datetime t :
  check_fields t = true ->
  Strptime.strptime (str (VTimestamp t)) "%Y-%m-%d" = Raise ValueError
  /\ Strptime.strptime (str (VTimestamp t)) "%m/%d/%Y" = Raise ValueError
  /\ Strptime.strptime (str (VTimestamp t)) "%d/%m/%Y" = Raise ValueError
  /\ Strptime.strptime (str (VTimestamp t)) "%Y-%m-%d %H:%M:%S" = Ok t
  /\ parse_date to_datetime (VTimestamp t) = (Ok (Some (Moment t)), []).
Proof.
  intros Hv. cbn [str].
  destruct (str_datetime_year_first t) as [rest Hrest].
  split; [apply strptime_iso_on_stamp, Hv|].
  split; [rewrite Hrest; apply strptime_slash_on_year; auto|].
  split; [rewrite Hrest; apply strptime_slash_on_year; auto|].
  split; [apply strptime_stamp_round_trip, Hv|].
  unfold parse_date. cbn [isna str]. rewrite (try_formats_stamp _ Hv). reflexivity.
Qed.

Lemma timestamp_cell_parses_to_itself_witness :
  parse_date failing_fallback (VTimestamp (mk_datetime 2025 1 24 9 30 0))
  = (Ok (Some (Moment (mk_datetime 2025 1 24 9 30 0))), []).
Proof.
  apply (timestamp_cell_parses_to_itself failing_fallback
           (mk_datetime 2025 1 24 9 30 0)).
  reflexivity.
Defined.

(** ** Dates of an invitation *)

(** [X11] For a start and an end date with valid fields
    [create_ics_file] returns an invitation, whether the dates come as
    [%Y-%m-%d] text or as time stamps, and writes the same [DTSTART]
    and [DTEND] values ([%Y%m%d]) in both cases; with a description
    supplied the two invitations are the same. *)
Theorem invite_same_for_text_and_timestamp yf event_id now_ics name program s e :
  check_fields s = true ->
  check_fields e = true ->
  Invite.ics_date yf (VStr (isoformat_date s)) = Ok (strftime_basic yf s)
  /\ Invite.ics_date yf (VTimestamp s) = Ok (strftime_basic yf s)
  /\ (forall description,
        is_ok (Invite.create_ics_file yf event_id now_ics name (VStr (isoformat_date s))
                 (VStr (isoformat_date e)) program description) = true
        /\ is_ok (Invite.create_ics_file yf event_id now_ics name (VTimestamp s)
                    (VTimestamp e) program description) = true)
  /\ (forall description,
        description <> "" ->
        Invite.create_ics_file yf event_id now_ics name (VStr (isoformat_date s))
          (VStr (isoformat_date e)) program description
        = Invite.create_ics_file yf event_id now_ics name (VTimestamp s) (VTimestamp e)
            program description).
Proof.
  intros Hs He.
  assert (Htext : forall t, check_fields t = true ->
                            Invite.ics_date yf (VStr (isoformat_date t))
                            = Ok (strftime_basic yf t)).
  { intros t Ht. unfold Invite.ics_date.
    rewrite (strptime_iso_round_trip _ Ht). reflexivity. }
  split; [apply Htext, Hs|]. split; [reflexivity|]. split.
  - intros description. unfold Invite.create_ics_file.
    rewrite (Htext _ Hs), (Htext _ He). cbn [Invite.ics_date]. split; reflexivity.
  - intros description Hne. unfold Invite.create_ics_file.
    rewrite (Htext _ Hs), (Htext _ He). cbn [Invite.ics_date].
    destruct (String.eqb_spec description ""); [contradiction|reflexivity].
Qed.

Lemma invite_same_for_text_and_timestamp_witness :
  Invite.ics_date Unpadded (VStr (isoformat_date (mk_datetime 2025 1 10 0 0 0)))
  = Ok (strftime_basic Unpadded (mk_datetime 2025 1 10 0 0 0)).
Proof.
  refine (proj1 (invite_same_for_text_and_timestamp Unpadded "" "" VNone VNone
                   (mk_datetime 2025 1 10 0 0 0) (mk_datetime 2025 1 12 0 0 0) _ _));
    reflexivity.
Defined.

(** ** The loop over the invitations *)

Section InvitationLoop.

Variable yf : year_format.
Variable uuid4 : Z -> string.
Variable now_ics : Z -> string.

Abbreviation from := (Invite.invitations_from yf uuid4 now_ics).
Abbreviation for_row := (Invite.invitation_for_row yf uuid4 now_ics).

Lemma invitations_from_app pre : forall i post,
  from i (pre ++ post) = from i pre ++ from (i + Z.of_nat (length pre)) post.
Proof.
  induction pre as [|row pre IH]; intros i post.
  - cbn. rewrite Z.add_0_r. reflexivity.
  - cbn [app Invite.invitations_from length]. rewrite IH.
    replace (i + 1 + Z.of_nat (length pre)) with (i + Z.of_nat (S (length pre))) by lia.
    destruct (for_row i row) as [[f|]|]; reflexivity.
Qed.

Lemma invitations_from_length rows : forall i,
  (length (from i rows) <= length rows)%nat.
Proof.
  induction rows as [|row rows IH]; intros i; cbn; [lia|].
  specialize (IH (i + 1)).
  destruct (for_row i row) as [[f|]|]; cbn; lia.
Qed.

Lemma invitation_for_row_needs_dates i row :
  isna (row_get row "Start Date" VNone) = true
  \/ isna (row_get row "End Date" VNone) = true ->
  for_row i row = Ok None.
Proof.
  intros H. unfold Invite.invitation_for_row.
  destruct H as [-> | ->]; [reflexivity|]. rewrite orb_true_r. reflexivity.
Qed.

Lemma invitation_for_row_needs_iso i row s :
  row_get row "Start Date" VNone = VStr s \/ row_get row "End Date" VNone = VStr s ->
  Strptime.strptime s "%Y-%m-%d" = Raise ValueError ->
  for_row i row = Ok None \/ exists e, for_row i row = Raise e.
Proof.
  intros Hrow Hs. unfold Invite.invitation_for_row.
  destruct (isna _ || isna _); [left; reflexivity|]. right.
  unfold Invite.create_ics_file.
  destruct Hrow as [-> | ->].
  - cbn [Invite.ics_date]. rewrite Hs. cbn. eauto.
  - destruct (Invite.ics_date yf (row_get row "Start Date" VNone)); [|eauto].
    cbn [Invite.ics_date]. rewrite Hs. cbn. eauto.
Qed.

End InvitationLoop.

(** [X12] The invitation loop leaves out, and goes on after, a row
    whose start or end date is missing and a row with a date text
    that is not in [%Y-%m-%d] form (such as a slash date, which
    [parse_date] accepts): the files written are those of the rows
    before it followed by those of the rows after it, each row
    keeping its position as index.  There is at most one file per
    row. *)
Theorem invitation_rows_isolated yf uuid4 now_ics pre row post s :
  isna (row_get row "Start Date" VNone) = true
  \/ isna (row_get row "End Date" VNone) = true
  \/ ((row_get row "Start Date" VNone = VStr s \/ row_get row "End Date" VNone = VStr s)
      /\ Strptime.strptime s "%Y-%m-%d" = Raise ValueError) ->
  Invite.create_calendar_invitations yf uuid4 now_ics (pre ++ row :: post)
  = Invite.create_calendar_invitations yf uuid4 now_ics pre
    ++ Invite.invitations_from yf uuid4 now_ics (Z.of_nat (length pre) + 1) post
  /\ (length (Invite.create_calendar_invitations yf uuid4 now_ics (pre ++ row :: post))
      <= length pre + length post)%nat.
Proof.
  intros Hrow.
  assert (Hskip : forall i, Invite.invitations_from yf uuid4 now_ics i (row :: post)
                            = Invite.invitations_from yf uuid4 now_ics (i + 1) post).
  { intros i. cbn [Invite.invitations_from].
    assert (H : Invite.invitation_for_row yf uuid4 now_ics i row = Ok None
                \/ exists e, Invite.invitation_for_row yf uuid4 now_ics i row = Raise e).
    { destruct Hrow as [H|[H|[H1 H2]]].
      - left. apply invitation_for_row_needs_dates. auto.
      - left. apply invitation_for_row_needs_dates. auto.
      - eapply invitation_for_row_needs_iso; eassumption. }
    destruct H as [-> | [e ->]]; reflexivity. }
  assert (Heq : Invite.create_calendar_invitations yf uuid4 now_ics (pre ++ row :: post)
                = Invite.create_calendar_invitations yf uuid4 now_ics pre
                  ++ Invite.invitations_from yf uuid4 now_ics (Z.of_nat (length pre) + 1) post).
  { unfold Invite.create_calendar_invitations.
    rewrite invitations_from_app, Hskip. reflexivity. }
  split; [exact Heq|].
  rewrite Heq, length_app.
  pose proof (invitations_from_length yf uuid4 now_ics pre 0).
  pose proof (invitations_from_length yf uuid4 now_ics post (Z.of_nat (length pre) + 1)).
  unfold Invite.create_calendar_invitations. lia.
Qed.

Lemma invitation_rows_isolated_witness :
  Invite.create_calendar_invitations Unpadded sample_uuid4 sample_now_ics
    ([course_row "A" "2025-01-10" "2025-01-12"]
     ++ course_row "B" "01/10/2025" "01/12/2025"
     :: [course_row "C" "2025-02-10" "2025-02-12"])
  = Invite.create_calendar_invitations Unpadded sample_uuid4 sample_now_ics
      [course_row "A" "2025-01-10" "2025-01-12"]
    ++ Invite.invitations_from Unpadded sample_uuid4 sample_now_ics
         (Z.of_nat (length [course_row "A" "2025-01-10" "2025-01-12"]) + 1)
         [course_row "C" "2025-02-10" "2025-02-12"].
Proof.
  refine (proj1 (invitation_rows_isolated Unpadded sample_uuid4 sample_now_ics
                   [course_row "A" "2025-01-10" "2025-01-12"]
                   (course_row "B" "01/10/2025" "01/12/2025")
                   [course_row "C" "2025-02-10" "2025-02-12"] "01/10/2025" _)).
  right. right. split; [left|]; vm_compute; reflexivity.
Defined.

(** ** The names of the invitation files *)

Lemma replace_char_removes a b s :
  a <> b -> ~ In a (list_ascii_of_string (replace_char a b s)).
Proof.
  intros Hab. induction s as [|c s IH]; cbn; [tauto|].
  intros [H|H]; [|exact (IH H)].
  destruct (Ascii.eqb_spec c a); congruence.
Qed.

Lemma replace_char_keeps_absent a b c s :
  c <> b ->
  ~ In c (list_ascii_of_string s) ->
  ~ In c (list_ascii_of_string (replace_char a b s)).
Proof.
  intros Hcb. induction s as [|x s IH]; cbn; [tauto|].
  intros Hs [H|H]; [|apply IH; tauto].
  destruct (Ascii.eqb_spec x a); [congruence|]. tauto.
Qed.

Lemma replace_char_length a b s :
  String.length (replace_char a b s) = String.length s.
Proof. induction s as [|c s IH]; cbn; congruence. Qed.

Lemma replace_char_id a b s :
  ~ In a (list_ascii_of_string s) -> replace_char a b s = s.
Proof.
  induction s as [|c s IH]; cbn; [reflexivity|]. intros H.
  destruct (Ascii.eqb_spec c a); [tauto|]. rewrite IH by tauto. reflexivity.
Qed.

Lemma replace_char_app a b s1 s2 :
  replace_char a b (s1 +:+ s2) = replace_char a b s1 +:+ replace_char a b s2.
Proof.
  induction s1 as [|c s1 IH]; [reflexivity|].
  change (String c s1 +:+ s2) with (String c (s1 +:+ s2)).
  cbn [replace_char]. rewrite IH. reflexivity.
Qed.

Lemma invitations_from_inv yf uuid4 now_ics rows : forall i f,
  f ∈ Invite.invitations_from yf uuid4 now_ics i rows ->
  exists k row,
    rows !! k = Some row
    /\ Invite.invitation_for_row yf uuid4 now_ics (i + Z.of_nat k) row = Ok (Some f).
Proof.
  induction rows as [|row rows IH]; intros i f H; [inversion H|].
  cbn [Invite.invitations_from] in H.
  assert (Hrest : f ∈ Invite.invitations_from yf uuid4 now_ics (i + 1) rows ->
                  exists k row0, (row :: rows) !! k = Some row0
                    /\ Invite.invitation_for_row yf uuid4 now_ics (i + Z.of_nat k) row0
                       = Ok (Some f)).
  { intros Hin. destruct (IH _ _ Hin) as (k & row0 & Hk & Hf).
    exists (S k), row0. split; [exact Hk|].
    replace (i + Z.of_nat (S k)) with (i + 1 + Z.of_nat k) by lia. exact Hf. }
  destruct (Invite.invitation_for_row yf uuid4 now_ics i row) as [[f0|]|] eqn:E;
    [|auto..].
  apply elem_of_cons in H as [-> | H]; [|auto].
  exists 0%nat, row. split; [reflexivity|]. rewrite Z.add_0_r. exact E.
Qed.

(** [X13] Every file the invitation loop writes is named
    [calendar_invites/<n>.ics], where [<n>] is the course name of a
    row of the batch, a text, with every blank and every slash turned
    into an underscore: [<n>] is as long as the name and holds no
    blank and no slash, so the file lies in the directory itself. *)
Theorem invitation_file_names_sanitized yf uuid4 now_ics rows f ics :
  (f, ics) ∈ Invite.create_calendar_invitations yf uuid4 now_ics rows ->
  exists k row name n,
    rows !! k = Some row
    /\ row_get row "Course Name" (VStr ("Course " +:+ str_of_Z (Z.of_nat k + 1)))
       = VStr name
    /\ n = replace_char "/" "_" (replace_char " " "_" name)
    /\ f = "calendar_invites/" +:+ n +:+ ".ics"
    /\ ~ In " "%char (list_ascii_of_string n)
    /\ ~ In "/"%char (list_ascii_of_string n)
    /\ String.length n = String.length name.
Proof.
  intros H. unfold Invite.create_calendar_invitations in H.
  apply invitations_from_inv in H as (k & row & Hk & Hrow).
  rewrite Z.add_0_l in Hrow. unfold Invite.invitation_for_row in Hrow.
  destruct (isna _ || isna _); [discriminate|].
  destruct (Invite.create_ics_file _ _ _ _ _ _ _ _) as [content|]; [|discriminate].
  destruct (row_get row "Course Name" _) as [| | |name|] eqn:Hname;
    cbn [Invite.sanitized_name] in Hrow; try discriminate.
  injection Hrow as <- _.
  exists k, row, name, (replace_char "/" "_" (replace_char " " "_" name)).
  split; [exact Hk|]. split; [exact Hname|]. split; [reflexivity|].
  split; [reflexivity|]. split; [|split].
  - apply replace_char_keeps_absent; [discriminate|].
    apply replace_char_removes. discriminate.
  - apply replace_char_removes. discriminate.
  - rewrite !replace_char_length. reflexivity.
Qed.

Lemma invitation_file_names_sanitized_witness :
  exists k row name n,
    [course_row "Intro to R / Python" "2025-01-10" "2025-01-12"] !! k = Some row
    /\ row_get row "Course Name" (VStr ("Course " +:+ str_of_Z (Z.of_nat k + 1)))
       = VStr name
    /\ n = replace_char "/" "_" (replace_char " " "_" name)
    /\ "calendar_invites/Intro_to_R___Python.ics" = "calendar_invites/" +:+ n +:+ ".ics"
    /\ ~ In " "%char (list_ascii_of_string n)
    /\ ~ In "/"%char (list_ascii_of_string n)
    /\ String.length n = String.length name.
Proof.
  apply (invitation_file_names_sanitized Unpadded sample_uuid4 sample_now_ics
           [course_row "Intro to R / Python" "2025-01-10" "2025-01-12"]
           "calendar_invites/Intro_to_R___Python.ics"
           (snd (default ("", "")
                   (head (Invite.create_calendar_invitations Unpadded sample_uuid4 sample_now_ics
                            [course_row "Intro to R / Python" "2025-01-10"
                               "2025-01-12"]))))).
  vm_compute. apply list_elem_of_here.
Defined.

Lemma string_of_uint_digits d c :
  In c (list_ascii_of_string (NilEmpty.string_of_uint d)) -> is_digit c = true.
Proof.
  induction d as [|d IH|d IH|d IH|d IH|d IH|d IH|d IH|d IH|d IH|d IH]; cbn;
    [tauto|intros [<-|H]; [reflexivity|exact (IH H)]..].
Qed.

Lemma str_of_Z_digits n c :
  In c (list_ascii_of_string (str_of_Z n)) -> is_digit c = true.
Proof.
  unfold str_of_Z, NilZero.string_of_uint.
  destruct (N.to_uint (Z.to_N n)) eqn:E;
    try (rewrite <- E; apply string_of_uint_digits);
    try (intros H; apply (string_of_uint_digits _ _ H)).
  cbn. intros [<-|[]]. reflexivity.
Qed.

Lemma str_of_Z_sanitized n :
  replace_char "/" "_" (replace_char " " "_" (str_of_Z n)) = str_of_Z n.
Proof.
  rewrite (replace_char_id " " "_" (str_of_Z n)).
  - apply replace_char_id. intros H. apply str_of_Z_digits in H. discriminate.
  - intros H. apply str_of_Z_digits in H. discriminate.
Qed.

Lemma invitations_from_intro yf uuid4 now_ics rows : forall i k row f,
  rows !! k = Some row ->
  Invite.invitation_for_row yf uuid4 now_ics (i + Z.of_nat k) row = Ok (Some f) ->
  f ∈ Invite.invitations_from yf uuid4 now_ics i rows.
Proof.
  induction rows as [|row0 rows IH]; intros i k row f Hk Hf; [discriminate|].
  cbn [Invite.invitations_from]. destruct k as [|k].
  - injection Hk as ->. rewrite Z.add_0_r in Hf. rewrite Hf. apply list_elem_of_here.
  - assert (Hin : f ∈ Invite.invitations_from yf uuid4 now_ics (i + 1) rows).
    { apply (IH _ k row); [exact Hk|].
      replace (i + 1 + Z.of_nat k) with (i + Z.of_nat (S k)) by lia. exact Hf. }
    destruct (Invite.invitation_for_row yf uuid4 now_ics i row0) as [[f0|]|];
      [apply list_elem_of_further|..]; exact Hin.
Qed.

(** [X14] A row without a [Course Name] column whose dates can be
    written is named after its position in the batch, rows left out
    before it counted: the row at index [k] gives the file
    [calendar_invites/Course_<k+1>.ics] with the summary
    [Course <k+1>]. *)
Theorem default_course_name_by_position yf uuid4 now_ics rows k row start_ics end_ics :
  rows !! k = Some row ->
  row !! "Course Name" = None ->
  Invite.ics_date yf (row_get row "Start Date" VNone) = Ok start_ics ->
  Invite.ics_date yf (row_get row "End Date" VNone) = Ok end_ics ->
  exists ics,
    ("calendar_invites/Course_" +:+ str_of_Z (Z.of_nat k + 1) +:+ ".ics", ics)
    ∈ Invite.create_calendar_invitations yf uuid4 now_ics rows
    /\ contains ics
         ("DTSTART;VALUE=DATE:" +:+ start_ics +:+ LF
          +:+ "DTEND;VALUE=DATE:" +:+ end_ics +:+ LF
          +:+ "SUMMARY:Course " +:+ str_of_Z (Z.of_nat k + 1) +:+ LF).
Proof.
  intros Hk Hname Hs He.
  assert (Hrow : exists ics,
             Invite.invitation_for_row yf uuid4 now_ics (0 + Z.of_nat k) row
             = Ok (Some ("calendar_invites/Course_" +:+ str_of_Z (Z.of_nat k + 1)
                         +:+ ".ics", ics))
             /\ contains ics
                  ("DTSTART;VALUE=DATE:" +:+ start_ics +:+ LF
                   +:+ "DTEND;VALUE=DATE:" +:+ end_ics +:+ LF
                   +:+ "SUMMARY:Course " +:+ str_of_Z (Z.of_nat k + 1) +:+ LF)).
  { rewrite Z.add_0_l.
    assert (Hcn : forall default, row_get row "Course Name" default = default).
    { intros default. unfold row_get. rewrite Hname. reflexivity. }
    unfold Invite.invitation_for_row. rewrite !Hcn.
    assert (Hna : forall v x, Invite.ics_date yf v = Ok x -> isna v = false).
    { intros [| | |?|?] x; cbn; congruence. }
    rewrite (Hna _ _ Hs), (Hna _ _ He). cbn [orb].
    unfold Invite.create_ics_file. rewrite Hs, He.
    cbn [Invite.sanitized_name String.eqb str].
    eexists. split.
    - rewrite !replace_char_app, str_of_Z_sanitized. reflexivity.
    - exists ("BEGIN:VCALENDAR" +:+ LF +:+ "VERSION:2.0" +:+ LF
              +:+ "PRODID:-//Course Reminder System//Course Event//EN" +:+ LF
              +:+ "BEGIN:VEVENT" +:+ LF
              +:+ "UID:" +:+ uuid4 (Z.of_nat k) +:+ "@course-reminder-system.com" +:+ LF
              +:+ "DTSTAMP:" +:+ now_ics (Z.of_nat k) +:+ LF),
             ("DESCRIPTION:"
              +:+ Invite.synthesized_description
                    (VStr ("Course " +:+ str_of_Z (Z.of_nat k + 1)))
                    (row_get row "Start Date" VNone) (row_get row "End Date" VNone)
                    (row_get row "Program Name" (VStr "Unknown Program")) +:+ LF
              +:+ "LOCATION:UBC" +:+ LF
              +:+ "STATUS:CONFIRMED" +:+ LF
              +:+ "TRANSP:OPAQUE" +:+ LF
              +:+ "END:VEVENT" +:+ LF
              +:+ "END:VCALENDAR").
      rewrite !append_assoc. reflexivity. }
  destruct Hrow as (ics & Hrow & Hc). exists ics. split; [|exact Hc].
  unfold Invite.create_calendar_invitations.
  eapply invitations_from_intro; eassumption.
Qed.

Lemma default_course_name_by_position_witness :
  exists ics,
    ("calendar_invites/Course_" +:+ str_of_Z (Z.of_nat 1 + 1) +:+ ".ics", ics)
    ∈ Invite.create_calendar_invitations Unpadded sample_uuid4 sample_now_ics
        [undated_row "A";
         <["Start Date" := VStr "2025-01-10"]> (<["End Date" := VStr "2025-01-12"]> ∅)]
    /\ contains ics
         ("DTSTART;VALUE=DATE:" +:+ "20250110" +:+ LF
          +:+ "DTEND;VALUE=DATE:" +:+ "20250112" +:+ LF
          +:+ "SUMMARY:Course " +:+ str_of_Z (Z.of_nat 1 + 1) +:+ LF).
Proof.
  apply (default_course_name_by_position Unpadded sample_uuid4 sample_now_ics
           [undated_row "A";
            <["Start Date" := VStr "2025-01-10"]> (<["End Date" := VStr "2025-01-12"]> ∅)]
           1%nat
           (<["Start Date" := VStr "2025-01-10"]> (<["End Date" := VStr "2025-01-12"]> ∅))
           "20250110" "20250112"); vm_compute; reflexivity.
Defined.

(** ** Reminders and the configured offsets *)

(** [X15] For a record whose end date is absent or not before its
    start date, a reminder is due only for a configured offset: a
    before-start reminder of the type of [d] only when [d] is among
    [reminder_days] and today is [start_date - d], the follow-up only
    when -14 is among them and today is [end_date + 14].  Taking an
    offset out of the configuration turns its reminder off. *)
Theorem reminder_only_for_configured_offset cfg today s fin ty :
  (forall e, fin = Some e -> date_of s <= date_of e) ->
  reminder_due cfg today (Some (Moment s)) (option_map Moment fin) = Ok (Some ty) ->
  (exists d,
      d ∈ reminder_days cfg /\ before_start_type d = Some ty
      /\ today = date_of s - d)
  \/ (ty = "2_weeks_after" /\ -14 ∈ reminder_days cfg
      /\ exists e, fin = Some e /\ today = date_of e + 14).
Proof.
  intros Hwf Hdue.
  apply reminder_due_some in Hdue as (Hty & dates & Hdates & Hin).
  apply get_reminder_dates_inv in Hdates. subst dates.
  apply elem_of_merge_sort_le, elem_of_enumerate in Hin
    as (_ & days & Hdays & Hcand).
  unfold candidate in Hcand.
  destruct (before_start_type (days_between (date_of s) today)) as [ty'|] eqn:Hb.
  - rewrite (determine_reminder_type_before _ _ _ _ Hb) in Hty. injection Hty as ->.
    left. exists (days_between (date_of s) today).
    split; [|split; [exact Hb|unfold days_between; lia]].
    assert (Hp : days_between (date_of s) today > 0).
    { apply before_start_type_inv in Hb. lia. }
    unfold days_between in *.
    destruct (Z.gtb_spec days 0).
    + injection Hcand as Hc. replace (date_of s - today) with days by lia. exact Hdays.
    + destruct (days <? 0); [|discriminate].
      destruct fin as [e|]; cbn in Hcand; [|discriminate].
      injection Hcand as Hc. specialize (Hwf e eq_refl). lia.
  - rewrite (determine_reminder_type_else _ _ _ Hb) in Hty.
    destruct fin as [e|]; cbn in Hty; [|discriminate].
    destruct (Z.eqb_spec (days_between today (date_of e)) 14) as [E|_];
      [|discriminate].
    injection Hty as <-. specialize (Hwf e eq_refl). unfold days_between in E.
    right. split; [reflexivity|]. split; [|exists e; split; [reflexivity|lia]].
    destruct (Z.gtb_spec days 0).
    + injection Hcand as Hc. lia.
    + destruct (days <? 0); [|discriminate]. cbn in Hcand.
      injection Hcand as Hc. replace (-14) with days by lia. exact Hdays.
Qed.

Lemma reminder_only_for_configured_offset_witness :
  (exists d,
      d ∈ reminder_days default_config /\ before_start_type d = Some "1_week_before"
      /\ sample_today = date_of (mk_datetime 2025 1 17 0 0 0) - d)
  \/ ("1_week_before" = "2_weeks_after" /\ -14 ∈ reminder_days default_config
      /\ exists e, Some (mk_datetime 2025 1 19 0 0 0) = Some e
                   /\ sample_today = date_of e + 14).
Proof.
  apply (reminder_only_for_configured_offset default_config sample_today
           (mk_datetime 2025 1 17 0 0 0) (Some (mk_datetime 2025 1 19 0 0 0))
           "1_week_before").
  - intros e [= <-]. vm_compute. discriminate.
  - vm_compute. reflexivity.
Defined.

(** ** The loaded schedule *)

Lemma reindex_lookup fill cols row c :
  Loading.reindex fill cols row !! c
  = if decide (c ∈ cols) then Some (default (fill c) (row !! c)) else None.
Proof.
  unfold Loading.reindex. apply option_eq. intros x.
  rewrite lookup_set_to_map by (intros ?? _ _ H; exact H).
  destruct (decide (c ∈ cols)); split.
  - intros (y & Hy & [= -> <-]). reflexivity.
  - intros [= <-]. eauto.
  - intros (y & Hy & [= -> <-]). contradiction.
  - discriminate.
Qed.

Lemma tagged_columns (excel_data : list (string * Loading.frame)) :
  excel_data <> [] ->
  ⋃ (Loading.columns <$> map (fun nd => Loading.set_sheet (fst nd) (snd nd)) excel_data)
  = all_columns excel_data.
Proof.
  intros Hne. unfold all_columns. apply set_eq. intros c.
  rewrite elem_of_union, !elem_of_union_list, elem_of_singleton. split.
  - intros (X & HX & Hc). apply list_elem_of_fmap in HX as (df & -> & Hdf).
    apply list_elem_of_fmap in Hdf as (nd & -> & Hnd).
    cbn in Hc. apply elem_of_union in Hc as [Hc|Hc].
    + left. apply elem_of_singleton in Hc. exact Hc.
    + right. exists (Loading.columns (snd nd)). split; [|exact Hc].
      apply list_elem_of_fmap. eauto.
  - intros [-> | (X & HX & Hc)].
    + destruct excel_data as [|nd rest]; [contradiction|].
      exists (Loading.columns (Loading.set_sheet (fst nd) (snd nd))). split.
      * cbn. apply list_elem_of_here.
      * cbn. apply elem_of_union. left. apply elem_of_singleton. reflexivity.
    + apply list_elem_of_fmap in HX as (nd & -> & Hnd).
      exists (Loading.columns (Loading.set_sheet (fst nd) (snd nd))). split.
      * apply list_elem_of_fmap. eexists. split; [reflexivity|].
        apply list_elem_of_fmap. eauto.
      * cbn. apply elem_of_union. right. exact Hc.
Qed.

Lemma load_schedule_data_eq fill excel_data :
  excel_data <> [] ->
  Loading.load_schedule_data fill (Some excel_data)
  = (Loading.Returned
       (flat_map (fun nd => map (loaded_row fill excel_data (fst nd))
                              (Loading.rows (snd nd))) excel_data),
     [Loading.Loaded_records
        (length (flat_map (fun nd => map (loaded_row fill excel_data (fst nd))
                                      (Loading.rows (snd nd))) excel_data))]).
Proof.
  intros Hne. unfold Loading.load_schedule_data, Loading.concat.
  destruct (map _ excel_data) as [|df dfs] eqn:E.
  { destruct excel_data; [contradiction|discriminate]. }
  rewrite <- E. rewrite (tagged_columns _ Hne).
  assert (Hrows : flat_map
                    (fun df => map (Loading.reindex fill (all_columns excel_data))
                                 (Loading.rows df))
                    (map (fun nd => Loading.set_sheet (fst nd) (snd nd)) excel_data)
                  = flat_map (fun nd => map (loaded_row fill excel_data (fst nd))
                                          (Loading.rows (snd nd))) excel_data).
  { unfold loaded_row. generalize (all_columns excel_data) as cols.
    generalize excel_data as l.
    induction l as [|nd l IH]; intros cols; [reflexivity|].
    cbn [map flat_map Loading.set_sheet Loading.rows].
    rewrite map_map, IH. reflexivity. }
  rewrite Hrows. reflexivity.
Qed.

Lemma loaded_row_lookup fill excel_data sheet_name row c :
  loaded_row fill excel_data sheet_name row !! c
  = if decide (c ∈ all_columns excel_data)
    then Some (if decide (c = "Sheet") then VStr sheet_name
               else default (fill c) (row !! c))
    else None.
Proof.
  unfold loaded_row. rewrite reindex_lookup.
  destruct (decide (c ∈ all_columns excel_data)); [|reflexivity].
  destruct (decide (c = "Sheet")) as [->|Hne].
  - rewrite lookup_insert_eq. reflexivity.
  - rewrite lookup_insert_ne by congruence. reflexivity.
Qed.

Lemma column_in_all_columns excel_data sheet_name df c :
  (sheet_name, df) ∈ excel_data -> c ∈ Loading.columns df -> c ∈ all_columns excel_data.
Proof.
  intros Hin Hc. unfold all_columns. apply elem_of_union. right.
  apply elem_of_union_list. exists (Loading.columns df). split; [|exact Hc].
  apply list_elem_of_fmap. exists (sheet_name, df). auto.
Qed.

Lemma length_flat_map_rows {A B} (f : A -> list B) (l : list A) :
  length (flat_map f l) = sum_list (map (fun x => length (f x)) l).
Proof.
  induction l as [|x l IH]; [reflexivity|].
  cbn. rewrite length_app, IH. reflexivity.
Qed.

(** [X16] Loading a workbook with at least one sheet returns the
    rows of all sheets in sheet order, as many as the sheets have
    together, and logs their number.  Every loaded row has the same
    columns, [Sheet] and the columns of every sheet: [Sheet] holds
    the name of the row's sheet (also when the sheet had such a
    column), a cell of the row is kept, and a column the row's sheet
    does not have holds the missing value. *)
Theorem loaded_rows_tagged_and_aligned fill excel_data :
  excel_data <> [] ->
  exists schedule_data,
    Loading.load_schedule_data fill (Some excel_data)
    = (Loading.Returned schedule_data, [Loading.Loaded_records (length schedule_data)])
    /\ schedule_data
       = flat_map (fun nd => map (loaded_row fill excel_data (fst nd))
                               (Loading.rows (snd nd))) excel_data
    /\ length schedule_data
       = sum_list (map (fun nd => length (Loading.rows (snd nd))) excel_data)
    /\ Forall (fun row => dom row = all_columns excel_data) schedule_data
    /\ (forall sheet_name row,
          loaded_row fill excel_data sheet_name row !! "Sheet" = Some (VStr sheet_name))
    /\ (forall sheet_name df row c v,
          (sheet_name, df) ∈ excel_data -> Loading.well_formed df ->
          row ∈ Loading.rows df -> c <> "Sheet" ->
          (row !! c = Some v ->
           loaded_row fill excel_data sheet_name row !! c = Some v)
          /\ (c ∉ Loading.columns df -> c ∈ all_columns excel_data ->
              loaded_row fill excel_data sheet_name row !! c = Some (fill c))).
Proof.
  intros Hne. eexists. split; [apply load_schedule_data_eq, Hne|].
  split; [reflexivity|]. split; [|split; [|split]].
  - rewrite length_flat_map_rows. f_equal. apply map_ext. intros nd.
    apply length_map.
  - apply Forall_forall. intros loaded Hin.
    apply list_elem_of_In, in_flat_map in Hin as (nd & _ & Hin).
    apply in_map_iff in Hin as (row & <- & _).
    apply set_eq. intros c. rewrite elem_of_dom, loaded_row_lookup.
    destruct (decide (c ∈ all_columns excel_data)); split; intros H;
      try assumption; try (eexists; reflexivity); try contradiction.
    destruct H as [? H]. discriminate.
  - intros sheet_name row. rewrite loaded_row_lookup.
    destruct (decide ("Sheet" ∈ all_columns excel_data)) as [_|Hout].
    + reflexivity.
    + exfalso. apply Hout. unfold all_columns. apply elem_of_union. left.
      apply elem_of_singleton. reflexivity.
  - intros sheet_name df row c v Hin Hwf Hrow Hc. split.
    + intros Hv. rewrite loaded_row_lookup.
      assert (Hcol : c ∈ all_columns excel_data).
      { eapply column_in_all_columns; [exact Hin|].
        unfold Loading.well_formed in Hwf. rewrite Forall_forall in Hwf.
        rewrite <- (Hwf row Hrow). apply elem_of_dom. eauto. }
      destruct (decide (c ∈ all_columns excel_data)); [|contradiction].
      destruct (decide (c = "Sheet")); [contradiction|]. rewrite Hv. reflexivity.
    + intros Hout Hall. rewrite loaded_row_lookup.
      destruct (decide (c ∈ all_columns excel_data)); [|contradiction].
      destruct (decide (c = "Sheet")); [contradiction|].
      assert (Hnone : row !! c = None).
      { apply not_elem_of_dom. unfold Loading.well_formed in Hwf.
        rewrite Forall_forall in Hwf. rewrite (Hwf row Hrow). exact Hout. }
      rewrite Hnone. reflexivity.
Qed.

Lemma loaded_rows_tagged_and_aligned_witness :
  exists schedule_data,
    Loading.load_schedule_data nan_fill (Some sample_workbook)
    = (Loading.Returned schedule_data, [Loading.Loaded_records (length schedule_data)])
    /\ length schedule_data
       = sum_list (map (fun nd => length (Loading.rows (snd nd))) sample_workbook).
Proof.
  destruct (loaded_rows_tagged_and_aligned nan_fill sample_workbook)
    as (schedule_data & H1 & _ & H3 & _).
  - discriminate.
  - exists schedule_data. split; [exact H1|exact H3].
Defined.

(** [X17] After loading, [row.get(key, default)] gives the default
    only for a column that no sheet has.  For a column of the row's
    own sheet it gives the row's cell; for a column that only other
    sheets have it gives the missing value: so a row of a sheet
    without [Program Name], loaded next to a sheet that has it, gets
    the missing value as program of its reminder and not [N/A]. *)
Theorem defaults_after_loading fill excel_data sheet_name df row key default :
  (sheet_name, df) ∈ excel_data ->
  Loading.well_formed df ->
  row ∈ Loading.rows df ->
  key <> "Sheet" ->
  (key ∈ Loading.columns df ->
   row_get (loaded_row fill excel_data sheet_name row) key default
   = row_get row key default)
  /\ (key ∉ Loading.columns df -> key ∈ all_columns excel_data ->
      row_get (loaded_row fill excel_data sheet_name row) key default = fill key)
  /\ (key ∉ all_columns excel_data ->
      row_get (loaded_row fill excel_data sheet_name row) key default = default)
  /\ (forall start_text end_text,
        "Program Name" ∉ Loading.columns df ->
        "Program Name" ∈ all_columns excel_data ->
        program (row_event_data (loaded_row fill excel_data sheet_name row)
                   start_text end_text)
        = fill "Program Name").
Proof.
  intros Hin Hwf Hrow Hkey.
  assert (Hdom : forall c, c ∈ Loading.columns df <-> is_Some (row !! c)).
  { intros c. unfold Loading.well_formed in Hwf. rewrite Forall_forall in Hwf.
    rewrite <- (Hwf row Hrow). apply elem_of_dom. }
  assert (Hmissing : forall c d,
             c <> "Sheet" -> c ∉ Loading.columns df -> c ∈ all_columns excel_data ->
             row_get (loaded_row fill excel_data sheet_name row) c d = fill c).
  { intros c d Hc Hout Hall. unfold row_get. rewrite loaded_row_lookup.
    destruct (decide (c ∈ all_columns excel_data)); [|contradiction].
    destruct (decide (c = "Sheet")); [contradiction|].
    assert (Hnone : row !! c = None).
    { destruct (row !! c) eqn:E; [|reflexivity].
      exfalso. apply Hout, Hdom. eauto. }
    rewrite Hnone. reflexivity. }
  split; [|split; [|split]].
  - intros Hcol. unfold row_get. rewrite loaded_row_lookup.
    destruct (decide (key ∈ all_columns excel_data)) as [_|Hout].
    + destruct (decide (key = "Sheet")); [contradiction|].
      apply Hdom in Hcol as [v Hv]. rewrite Hv. reflexivity.
    + exfalso. apply Hout. eapply column_in_all_columns; eassumption.
  - apply Hmissing, Hkey.
  - intros Hout. unfold row_get. rewrite loaded_row_lookup.
    destruct (decide (key ∈ all_columns excel_data)); [contradiction|reflexivity].
  - intros start_text end_text Hout Hall. cbn [row_event_data program].
    apply Hmissing; [discriminate|assumption..].
Qed.

Lemma defaults_after_loading_witness :
  row_get
    (loaded_row nan_fill sample_workbook "NLP"
       (<["Course Name" := VStr "B"]> (<["Start Date" := VStr "2025-01-17"]> ∅)))
    "Program Name" (VStr "N/A")
  = nan_fill "Program Name".
Proof.
  refine (proj1 (proj2
            (defaults_after_loading nan_fill sample_workbook "NLP"
               (Loading.mk_frame {["Course Name"; "Start Date"]}
                  [<["Course Name" := VStr "B"]>
                     (<["Start Date" := VStr "2025-01-17"]> ∅)])
               (<["Course Name" := VStr "B"]> (<["Start Date" := VStr "2025-01-17"]> ∅))
               "Program Name" (VStr "N/A") _ _ _ _)) _ _).
  - apply list_elem_of_further, list_elem_of_here.
  - repeat constructor.
  - apply list_elem_of_here.
  - discriminate.
  - vm_compute. discriminate.
  - apply (column_in_all_columns sample_workbook "KCDS"
             (Loading.mk_frame {["Course Name"; "Start Date"; "Program Name"]}
                [<["Course Name" := VStr "A"]>
                   (<["Start Date" := VStr "2025-01-24"]>
                      (<["Program Name" := VStr "P"]> ∅))])).
    + apply list_elem_of_here.
    + set_solver.
Defined.

(** ** The program of a record *)

(** The program line of a reminder holds what [row.get] gives. *)
Lemma reminder_program_line row start_text end_text ty :
  contains (d_content (reminder_message (row_event_data row start_text end_text) ty))
    ("- Program: " +:+ str (row_get row "Program Name" (VStr "N/A")) +:+ LF).
Proof.
  cbn [reminder_message d_event d_content row_event_data program
         create_email_content snd event_name start_date end_date].
  set (name := str (row_get row "Course Name"
                      (row_get row "Event Name" (row_get row "Name" (VStr "Event"))))).
  exists (LF +:+ "Dear Team," +:+ LF +:+ LF +:+ reminder_sentence name ty
          +:+ LF +:+ LF +:+ "Course Details:" +:+ LF
          +:+ "- Course: " +:+ name +:+ LF),
         ("- Start Date: " +:+ start_text +:+ LF +:+ "- End Date: " +:+ end_text +:+ LF).
  rewrite !append_assoc. reflexivity.
Qed.

(** The invitation of a row whose dates can be written and whose
    name is text, and its program line. *)
Lemma invitation_program_line yf uuid4 now_ics i row start_ics end_ics name :
  Invite.ics_date yf (row_get row "Start Date" VNone) = Ok start_ics ->
  Invite.ics_date yf (row_get row "End Date" VNone) = Ok end_ics ->
  Invite.sanitized_name
    (row_get row "Course Name" (VStr ("Course " +:+ str_of_Z (i + 1)))) = Ok name ->
  exists ics,
    Invite.invitation_for_row yf uuid4 now_ics i row
    = Ok (Some ("calendar_invites/" +:+ name +:+ ".ics", ics))
    /\ contains ics
         ("\nProgram: "
          +:+ str (row_get row "Program Name" (VStr "Unknown Program"))
          +:+ "\nStart: ").
Proof.
  intros Hs He Hn.
  assert (Hna : forall v x, Invite.ics_date yf v = Ok x -> isna v = false).
  { intros [| | |?|?] x; cbn; congruence. }
  unfold Invite.invitation_for_row.
  rewrite (Hna _ _ Hs), (Hna _ _ He). cbn [orb].
  unfold Invite.create_ics_file. rewrite Hs, He, Hn.
  eexists. split; [reflexivity|].
  unfold Invite.synthesized_description. cbn [String.eqb].
  set (course := row_get row "Course Name" (VStr ("Course " +:+ str_of_Z (i + 1)))).
  exists ("BEGIN:VCALENDAR" +:+ LF +:+ "VERSION:2.0" +:+ LF
          +:+ "PRODID:-//Course Reminder System//Course Event//EN" +:+ LF
          +:+ "BEGIN:VEVENT" +:+ LF
          +:+ "UID:" +:+ uuid4 i +:+ "@course-reminder-system.com" +:+ LF
          +:+ "DTSTAMP:" +:+ now_ics i +:+ LF
          +:+ "DTSTART;VALUE=DATE:" +:+ start_ics +:+ LF
          +:+ "DTEND;VALUE=DATE:" +:+ end_ics +:+ LF
          +:+ "SUMMARY:" +:+ str course +:+ LF
          +:+ "DESCRIPTION:Course: " +:+ str course),
         (str (row_get row "Start Date" VNone)
          +:+ "\n" +:+ "End: " +:+ str (row_get row "End Date" VNone) +:+ LF
          +:+ "LOCATION:UBC" +:+ LF
          +:+ "STATUS:CONFIRMED" +:+ LF
          +:+ "TRANSP:OPAQUE" +:+ LF
          +:+ "END:VEVENT" +:+ LF
          +:+ "END:VCALENDAR").
  rewrite !append_assoc. reflexivity.
Qed.

(** [C9] (amended) The program of a record of the loaded schedule.
    When no sheet of the workbook has a [Program Name] column,
    [row.get] gives its default: the text [N/A] in a reminder and the
    text [Unknown Program] in a calendar invitation.  When the
    record's sheet lacks the column and another sheet has it, the
    record holds the missing value loading put there, and a cell of
    the record's own, an empty one too, is used as it is; the missing
    value is printed [nan].  The value goes into the event and the
    program line of the reminder the row sends, and into the
    description of its invitation. *)
Theorem absent_program_defaults yf to_datetime transport cfg today uuid4 now_ics
  fill excel_data sheet_name df row :
  (sheet_name, df) ∈ excel_data ->
  Loading.well_formed df ->
  row ∈ Loading.rows df ->
  let record := loaded_row fill excel_data sheet_name row in
  ("Program Name" ∉ all_columns excel_data ->
   row_get record "Program Name" (VStr "N/A") = VStr "N/A"
   /\ row_get record "Program Name" (VStr "Unknown Program") = VStr "Unknown Program")
  /\ ("Program Name" ∈ all_columns excel_data ->
      "Program Name" ∉ Loading.columns df ->
      forall dflt, row_get record "Program Name" dflt = fill "Program Name")
  /\ (forall v dflt,
        row !! "Program Name" = Some v ->
        row_get record "Program Name" dflt = v)
  /\ str VNaN = "nan"
  /\ (forall ob,
        outbox_of (process_row yf to_datetime transport cfg today record ob)
        = ob ++ option_list (row_message yf to_datetime cfg today record))
  /\ (forall msg,
        row_message yf to_datetime cfg today record = Some msg ->
        program (d_event msg) = row_get record "Program Name" (VStr "N/A")
        /\ contains (d_content msg)
             ("- Program: " +:+ str (row_get record "Program Name" (VStr "N/A"))
              +:+ LF))
  /\ (forall i start_ics end_ics name,
        Invite.ics_date yf (row_get record "Start Date" VNone) = Ok start_ics ->
        Invite.ics_date yf (row_get record "End Date" VNone) = Ok end_ics ->
        Invite.sanitized_name
          (row_get record "Course Name" (VStr ("Course " +:+ str_of_Z (i + 1))))
        = Ok name ->
        exists ics,
          Invite.invitation_for_row yf uuid4 now_ics i record
          = Ok (Some ("calendar_invites/" +:+ name +:+ ".ics", ics))
          /\ contains ics
               ("\nProgram: "
                +:+ str (row_get record "Program Name" (VStr "Unknown Program"))
                +:+ "\nStart: ")).
Proof.
  intros Hin Hwf Hrow record.
  assert (Hdom : forall c, c ∈ Loading.columns df <-> is_Some (row !! c)).
  { intros c. unfold Loading.well_formed in Hwf. rewrite Forall_forall in Hwf.
    rewrite <- (Hwf row Hrow). apply elem_of_dom. }
  assert (Hget : forall dflt,
             row_get record "Program Name" dflt
             = if decide ("Program Name" ∈ all_columns excel_data)
               then default (fill "Program Name") (row !! "Program Name")
               else dflt).
  { intros dflt. unfold row_get, record. rewrite loaded_row_lookup.
    destruct (decide ("Program Name" ∈ all_columns excel_data)); [|reflexivity].
    destruct (decide ("Program Name" = "Sheet")); [discriminate|reflexivity]. }
  split; [|split; [|split; [|split; [|split; [|split]]]]].
  - intros Hout. rewrite !Hget.
    destruct (decide ("Program Name" ∈ all_columns excel_data)); [contradiction|].
    split; reflexivity.
  - intros Hall Hout dflt. rewrite Hget.
    destruct (decide ("Program Name" ∈ all_columns excel_data)); [|contradiction].
    destruct (row !! "Program Name") eqn:E; [|reflexivity].
    exfalso. apply Hout, Hdom. eauto.
  - intros v dflt Hv. rewrite Hget.
    destruct (decide ("Program Name" ∈ all_columns excel_data)) as [_|Hout].
    + rewrite Hv. reflexivity.
    + exfalso. apply Hout. eapply column_in_all_columns; [exact Hin|].
      apply Hdom. eauto.
  - reflexivity.
  - intros ob. apply process_row_message.
  - intros msg Hmsg.
    apply row_message_inv in Hmsg as (sd & ed & ty & st & et & _ & _ & ->).
    split; [reflexivity|]. apply reminder_program_line.
  - intros i start_ics end_ics name. apply invitation_program_line.
Qed.

Lemma absent_program_defaults_witness :
  exists msg,
    row_message Unpadded failing_fallback default_config sample_today
      (loaded_row nan_fill sample_workbook "NLP"
         (<["Course Name" := VStr "B"]> (<["Start Date" := VStr "2025-01-17"]> ∅)))
    = Some msg
    /\ d_type msg = "1_week_before"
    /\ program (d_event msg) = VNaN
    /\ contains (d_content msg) ("- Program: nan" +:+ LF).
Proof.
  destruct (absent_program_defaults Unpadded failing_fallback delivering default_config
              sample_today sample_uuid4 sample_now_ics nan_fill sample_workbook "NLP"
              (Loading.mk_frame {["Course Name"; "Start Date"]}
                 [<["Course Name" := VStr "B"]>
                    (<["Start Date" := VStr "2025-01-17"]> ∅)])
              (<["Course Name" := VStr "B"]> (<["Start Date" := VStr "2025-01-17"]> ∅)))
    as (_ & Hfill & _ & _ & _ & Hmsg & _).
  - apply list_elem_of_further, list_elem_of_here.
  - repeat constructor.
  - apply list_elem_of_here.
  - destruct (row_message Unpadded failing_fallback default_config sample_today
                (loaded_row nan_fill sample_workbook "NLP"
                   (<["Course Name" := VStr "B"]>
                      (<["Start Date" := VStr "2025-01-17"]> ∅))))
      as [msg|] eqn:E; [|vm_compute in E; discriminate].
    exists msg. split; [reflexivity|].
    destruct (Hmsg msg eq_refl) as [Hp Hc].
    rewrite Hfill in Hp, Hc.
    + split; [|split; [exact Hp|exact Hc]].
      vm_compute in E. injection E as <-. reflexivity.
    + apply (column_in_all_columns sample_workbook "KCDS"
               (Loading.mk_frame {["Course Name"; "Start Date"; "Program Name"]}
                  [<["Course Name" := VStr "A"]>
                     (<["Start Date" := VStr "2025-01-24"]>
                        (<["Program Name" := VStr "P"]> ∅))])).
      * apply list_elem_of_here.
      * set_solver.
    + vm_compute. discriminate.
    + apply (column_in_all_columns sample_workbook "KCDS"
               (Loading.mk_frame {["Course Name"; "Start Date"; "Program Name"]}
                  [<["Course Name" := VStr "A"]>
                     (<["Start Date" := VStr "2025-01-24"]>
                        (<["Program Name" := VStr "P"]> ∅))])).
      * apply list_elem_of_here.
      * set_solver.
    + vm_compute. discriminate.
Defined.

(** [C9], as stated, fails: for a row without a program the reminder
    carries [N/A] and the invitation [Unknown Program]; neither is the
    text [Unknown]. *)
Lemma absent_program_is_not_unknown :
  open_row "X" "2025-01-24" !! "Program Name" = None
  /\ map (fun msg => program (d_event msg))
       (outbox_of (check_and_send_reminders Unpadded failing_fallback delivering
                     default_config sample_today [open_row "X" "2025-01-24"] []))
     = [VStr "N/A"]
  /\ VStr "N/A" <> VStr "Unknown"
  /\ course_row "X" "2025-01-10" "2025-01-12" !! "Program Name" = None
  /\ Invite.create_calendar_invitations Unpadded sample_uuid4 sample_now_ics
       [course_row "X" "2025-01-10" "2025-01-12"]
     = [("calendar_invites/X.ics",
         "BEGIN:VCALENDAR" +:+ LF
         +:+ "VERSION:2.0" +:+ LF
         +:+ "PRODID:-//Course Reminder System//Course Event//EN" +:+ LF
         +:+ "BEGIN:VEVENT" +:+ LF
         +:+ "UID:123e4567-e89b-42d3-a456-426614174000@course-reminder-system.com"
         +:+ LF
         +:+ "DTSTAMP:20250110T090000Z" +:+ LF
         +:+ "DTSTART;VALUE=DATE:20250110" +:+ LF
         +:+ "DTEND;VALUE=DATE:20250112" +:+ LF
         +:+ "SUMMARY:X" +:+ LF
         +:+ "DESCRIPTION:Course: X\nProgram: Unknown Program\nStart: 2025-01-10\nEnd: 2025-01-12"
         +:+ LF
         +:+ "LOCATION:UBC" +:+ LF
         +:+ "STATUS:CONFIRMED" +:+ LF
         +:+ "TRANSP:OPAQUE" +:+ LF
         +:+ "END:VEVENT" +:+ LF
         +:+ "END:VCALENDAR")]
  /\ "Unknown Program" <> "Unknown".
Proof.
  split; [vm_compute; reflexivity|].
  split; [vm_compute; reflexivity|].
  split; [discriminate|].
  split; [vm_compute; reflexivity|].
  split; [vm_compute; reflexivity|discriminate].
Qed.

(** ** The daily check *)

(** [X18] [run_daily_check] with no workbook file, or with a workbook
    without sheets, sends nothing and logs the failed load twice, once
    by the loader and once by its own handler.  With at least one
    sheet it sends the messages of the loaded rows in order, on top
    of what was sent before, and closes its log with the number of
    messages delivered; the handler is not reached. *)
Theorem daily_check_outcome fill yf to_datetime transport cfg today ob :
  (forall workbook,
      workbook = None \/ workbook = Some [] ->
      exists e,
        Loading.run_daily_check fill yf to_datetime transport cfg workbook today ob
        = ([Loading.Starting_daily_check; Loading.Error_loading_schedule_data e;
            Loading.Error_in_daily_check (inl e)], ob))
  /\ (forall excel_data,
        excel_data <> [] ->
        exists schedule_data l,
          fst (Loading.load_schedule_data fill (Some excel_data))
          = Loading.Returned schedule_data
          /\ Loading.run_daily_check fill yf to_datetime transport cfg (Some excel_data)
               today ob
             = (Loading.Starting_daily_check
                :: Loading.Loaded_records (length schedule_data)
                :: map Loading.During_check l
                ++ [Loading.Daily_check_completed
                      (successes transport ob
                         (omap (row_message yf to_datetime cfg today) schedule_data))],
                ob ++ omap (row_message yf to_datetime cfg today) schedule_data)).
Proof.
  split.
  - intros workbook [-> | ->].
    + exists Loading.FileNotFoundError. reflexivity.
    + exists Loading.No_objects_to_concatenate. reflexivity.
  - intros excel_data Hne.
    unfold Loading.run_daily_check. rewrite (load_schedule_data_eq fill _ Hne).
    set (schedule_data :=
           flat_map (fun nd => map (loaded_row fill excel_data (fst nd))
                                 (Loading.rows (snd nd))) excel_data).
    destruct (check_messages yf to_datetime transport cfg today schedule_data ob)
      as [Ho Hr].
    destruct (check_and_send_reminders yf to_datetime transport cfg today schedule_data ob)
      as [[r l] ob'].
    unfold outbox_of, result_of in Ho, Hr. cbn [fst snd] in Ho, Hr. subst r ob'.
    exists schedule_data, l. split; reflexivity.
Qed.

(** ** From a file name back to the course name *)

Lemma basename_from_no_slash s : forall acc,
  ~ In "/"%char (list_ascii_of_string s) ->
  Sending.basename_from acc s = acc +:+ s.
Proof.
  induction s as [|c s IH]; intros acc H.
  - cbn. clear H. induction acc as [|a acc IHa]; [reflexivity|].
    exact (f_equal (String a) IHa).
  - cbn [Sending.basename_from]. cbn in H.
    destruct (Ascii.eqb_spec c "/") as [->|_]; [tauto|].
    rewrite IH by tauto. apply append_assoc.
Qed.

Lemma replace_from_strips_suffix n :
  ~ In "."%char (list_ascii_of_string n) ->
  Sending.replace_from 0 ".ics" "" (n +:+ ".ics") = n.
Proof.
  induction n as [|c n IH]; intros H; [reflexivity|].
  change (String c n +:+ ".ics") with (String c (n +:+ ".ics")).
  cbn [Sending.replace_from String.prefix]. cbn in H.
  destruct (ascii_dec "." c) as [<-|_]; [tauto|].
  rewrite IH by tauto. reflexivity.
Qed.

Lemma sanitize_then_unsanitize name :
  ~ In "_"%char (list_ascii_of_string name) ->
  ~ In "/"%char (list_ascii_of_string name) ->
  replace_char "_" " " (replace_char "/" "_" (replace_char " " "_" name)) = name.
Proof.
  induction name as [|c name IH]; intros H1 H2; [reflexivity|].
  cbn in H1, H2. cbn [replace_char]. rewrite IH by tauto. f_equal.
  destruct (Ascii.eqb_spec c " ") as [->|Hs]; [reflexivity|].
  destruct (Ascii.eqb_spec c "/") as [->|Hslash]; [tauto|].
  destruct (Ascii.eqb_spec c "_") as [->|_]; [tauto|reflexivity].
Qed.

(** [X19] The course name [send_all_calendar_invitations] reads off
    a file name is the name the file was written for whenever that
    name holds no dot, no underscore and no slash.  The name read off
    never holds an underscore, so a course name with an underscore is
    not given back as it was. *)
Theorem file_name_gives_back_course_name :
  (forall name,
      ~ In "."%char (list_ascii_of_string name) ->
      ~ In "_"%char (list_ascii_of_string name) ->
      ~ In "/"%char (list_ascii_of_string name) ->
      Invite.sanitized_name (VStr name)
      = Ok (replace_char "/" "_" (replace_char " " "_" name))
      /\ Sending.course_name_of_file
           ("calendar_invites/" +:+ replace_char "/" "_" (replace_char " " "_" name)
            +:+ ".ics")
         = name)
  /\ (forall file,
        ~ In "_"%char (list_ascii_of_string (Sending.course_name_of_file file)))
  /\ (forall file name,
        In "_"%char (list_ascii_of_string name) ->
        Sending.course_name_of_file file <> name).
Proof.
  assert (Hnone : forall file,
             ~ In "_"%char (list_ascii_of_string (Sending.course_name_of_file file))).
  { intros file. apply replace_char_removes. discriminate. }
  split; [|split; [exact Hnone|]].
  - intros name Hdot Hus Hsl. split; [reflexivity|].
    set (n := replace_char "/" "_" (replace_char " " "_" name)).
    assert (Hn_slash : ~ In "/"%char (list_ascii_of_string n)).
    { apply replace_char_removes. discriminate. }
    assert (Hn_dot : ~ In "."%char (list_ascii_of_string n)).
    { apply replace_char_keeps_absent; [discriminate|].
      apply replace_char_keeps_absent; [discriminate|exact Hdot]. }
    unfold Sending.course_name_of_file, Sending.basename, Sending.str_replace.
    change (Sending.basename_from "" ("calendar_invites/" +:+ n +:+ ".ics"))
      with (Sending.basename_from "" (n +:+ ".ics")).
    rewrite basename_from_no_slash.
    + change ("" +:+ n +:+ ".ics") with (n +:+ ".ics").
      rewrite (replace_from_strips_suffix _ Hn_dot).
      apply sanitize_then_unsanitize; assumption.
    + rewrite list_ascii_of_string_app. intros H. apply in_app_or in H as [H|H].
      * exact (Hn_slash H).
      * cbn in H. intuition discriminate.
  - intros file name Hin Heq. apply (Hnone file). rewrite Heq. exact Hin.
Qed.

(** ** Writing a date and reading it back *)

Lemma late_years_as_they_are : range_ok year_as_it_is 1000 9000 = true.
Proof. vm_compute. reflexivity. Qed.

Lemma early_years_short : range_ok short_year 1 999 = true.
Proof. vm_compute. reflexivity. Qed.

Lemma strftime_Y_padded yf y :
  yf = Padded \/ 1000 <= y <= 9999 -> strftime_Y yf y = zfill 4 y.
Proof.
  intros [-> | Hy]; [reflexivity|]. destruct yf; [reflexivity|].
  apply String.eqb_eq. apply (range_ok_spec _ _ _ y late_years_as_they_are).
  change (Z.of_nat 9000) with 9000. lia.
Qed.

Lemma strftime_iso_padded yf t :
  yf = Padded \/ 1000 <= year t <= 9999 -> strftime_iso yf t = isoformat_date t.
Proof.
  intros H. unfold strftime_iso, isoformat_date.
  rewrite (strftime_Y_padded _ _ H). reflexivity.
Qed.

(** [%Y] reads four digits: it does not read a text with a hyphen
    among its first four characters. *)
Lemma year_directive_on_short_year ts ys r :
  (length ys <= 3)%nat ->
  Strptime.matches (Strptime.Dir Strptime.dY :: ts) (ys ++ "-"%char :: r) = [].
Proof.
  intros Hlen.
  cbn [Strptime.matches Strptime.alternatives flat_map].
  assert (H : Strptime.match_seq
                [Strptime.Digit; Strptime.Digit; Strptime.Digit; Strptime.Digit]
                (ys ++ "-"%char :: r) = None).
  { destruct ys as [|a [|b [|c [|d ys]]]]; cbn [length] in Hlen; try lia;
      cbn [app Strptime.match_seq Strptime.in_class];
      change (is_digit "-") with false;
      repeat match goal with
             | |- context [is_digit ?x] => destruct (is_digit x)
             end; reflexivity. }
  rewrite H. reflexivity.
Qed.

(** The slash formats read one or two characters and then a slash. *)
Lemma slash_format_needs_slash d ts a b c r :
  d = Strptime.dm \/ d = Strptime.dd ->
  Ascii.eqb b "/" = false -> Ascii.eqb c "/" = false ->
  Strptime.matches (Strptime.Dir d :: Strptime.Lit "/" :: ts) (a :: b :: c :: r) = [].
Proof.
  intros Hd Nb Nc.
  destruct Hd as [-> | ->];
    cbn [Strptime.matches Strptime.alternatives flat_map Strptime.match_seq];
    repeat match goal with
           | |- context [Strptime.in_class ?k ?x] => destruct (Strptime.in_class k x)
           end;
    cbn [map app fst snd]; rewrite ?Nb, ?Nc; reflexivity.
Qed.

(** The text of a date before the year 1000, written with the year
    as it is: one to three digits, a hyphen, and the month. *)
Lemma short_year_text t :
  check_fields t = true -> year t < 1000 ->
  exists ys m1 rest,
    list_ascii_of_string (strftime_iso Unpadded t) = ys ++ "-"%char :: m1 :: rest
    /\ (1 <= length ys <= 3)%nat
    /\ forallb is_digit ys = true
    /\ is_digit m1 = true.
Proof.
  intros Hv Hy. apply check_fields_ranges in Hv as (Hy1 & Hm & _).
  pose proof (range_ok_spec _ _ _ (year t) early_years_short
                ltac:(change (Z.of_nat 999) with 999; lia)) as Hs.
  pose proof (range_ok_spec _ _ _ (month t) months_ok ltac:(simpl; lia)) as Fm.
  destruct (field_ok_head _ _ _ [] [] [] [] [] Fm eq_refl)
    as (_ & _ & m1 & ms & Hms & Hm1 & _).
  unfold short_year in Hs. cbv zeta in Hs.
  apply andb_true_iff in Hs as [Hs Hdig]. apply andb_true_iff in Hs as [Hl1 Hl3].
  apply Nat.leb_le in Hl1, Hl3.
  unfold strftime_iso, strftime_Y.
  rewrite !list_ascii_of_string_app, Hms.
  change (list_ascii_of_string "-") with ["-"%char]. cbn [app].
  eexists _, m1, _. split; [reflexivity|]. auto.
Qed.

(** None of the formats of [parse_date] reads such a text. *)
Lemma short_year_unread t :
  check_fields t = true -> year t < 1000 ->
  try_formats (strftime_iso Unpadded t) date_formats = Ok None.
Proof.
  intros Hv Hy.
  destruct (short_year_text t Hv Hy) as (ys & m1 & rest & Htext & Hlen & Hdig & Hm1).
  assert (Hyear : forall ts,
             Strptime.matches (Strptime.Dir Strptime.dY :: ts)
               (list_ascii_of_string (strftime_iso Unpadded t)) = []).
  { intros ts. rewrite Htext. apply year_directive_on_short_year. lia. }
  assert (Hslash : forall d ts,
             d = Strptime.dm \/ d = Strptime.dd ->
             Strptime.matches (Strptime.Dir d :: Strptime.Lit "/" :: ts)
               (list_ascii_of_string (strftime_iso Unpadded t)) = []).
  { intros d ts Hd. rewrite Htext.
    pose proof (digit_not_slash _ Hm1) as Nm.
    destruct ys as [|y1 [|y2 [|y3 [|? ?]]]]; cbn [length] in Hlen; try lia;
      cbn [forallb] in Hdig;
      repeat (apply andb_true_iff in Hdig as [? Hdig]);
      cbn [app]; apply slash_format_needs_slash;
      auto using digit_not_slash. }
  apply try_formats_none. unfold date_formats.
  repeat constructor; unfold Strptime.strptime.
  - rewrite compile_iso, Hyear. reflexivity.
  - change (Strptime.compile (list_ascii_of_string "%m/%d/%Y"))
      with (Some [Strptime.Dir Strptime.dm; Strptime.Lit "/"; Strptime.Dir Strptime.dd;
                  Strptime.Lit "/"; Strptime.Dir Strptime.dY]).
    cbn [app]. rewrite Hslash by auto. reflexivity.
  - change (Strptime.compile (list_ascii_of_string "%d/%m/%Y"))
      with (Some [Strptime.Dir Strptime.dd; Strptime.Lit "/"; Strptime.Dir Strptime.dm;
                  Strptime.Lit "/"; Strptime.Dir Strptime.dY]).
    cbn [app]. rewrite Hslash by auto. reflexivity.
  - rewrite compile_stamp, Hyear. reflexivity.
  - change (Strptime.compile (list_ascii_of_string "%m/%d/%Y %H:%M:%S"))
      with (Some [Strptime.Dir Strptime.dm; Strptime.Lit "/"; Strptime.Dir Strptime.dd;
                  Strptime.Lit "/"; Strptime.Dir Strptime.dY; Strptime.Blanks;
                  Strptime.Dir Strptime.dH; Strptime.Lit ":"; Strptime.Dir Strptime.dM;
                  Strptime.Lit ":"; Strptime.Dir Strptime.dS]).
    cbn [app]. rewrite Hslash by auto. reflexivity.
Qed.

(** [X10] Parsing and writing back.  When one of the formats reads a
    cell as [t], then [t] has valid fields and the time stamp [t] is
    parsed to [t] again.  The date text [t.strftime('%Y-%m-%d')] that
    the check writes into the reminder is the ISO date and is parsed,
    by the first format, to the same day at midnight, when the
    platform pads the year or the year is 1000 or later.  Where the
    year is written as it is, a date before the year 1000 (which
    [%Y-%m-%d] reads from [0999-01-24]) is written as [999-01-24], a
    text none of the formats reads: it is left to the fallback. *)
Theorem parse_date_of_written_date yf to_datetime v t :
  isna v = false ->
  try_formats (str v) date_formats = Ok (Some t) ->
  parse_date to_datetime v = (Ok (Some (Moment t)), [])
  /\ check_fields t = true
  /\ parse_date to_datetime (VTimestamp t) = (Ok (Some (Moment t)), [])
  /\ (yf = Padded \/ 1000 <= year t ->
      strftime_iso yf t = isoformat_date t
      /\ parse_date to_datetime (VStr (strftime_iso yf t))
         = (Ok (Some (Moment (midnight t))), []))
  /\ (yf = Unpadded -> year t < 1000 ->
      try_formats (strftime_iso yf t) date_formats = Ok None
      /\ parse_date to_datetime (VStr (strftime_iso yf t))
         = match to_datetime (VStr (strftime_iso yf t)) with
           | Ok s => (Ok (Some s), [])
           | Raise _ => (Ok None, [Could_not_parse_date (VStr (strftime_iso yf t))])
           end)
  /\ date_of (midnight t) = date_of t.
Proof.
  intros Hna Htry.
  pose proof (try_formats_valid _ _ _ Htry) as Hv.
  split; [unfold parse_date; rewrite Hna, Htry; reflexivity|].
  split; [exact Hv|].
  split; [unfold parse_date; cbn [isna str]; rewrite (try_formats_stamp _ Hv);
          reflexivity|].
  split; [|split; [|reflexivity]].
  - intros Hpad.
    assert (Heq : strftime_iso yf t = isoformat_date t).
    { apply strftime_iso_padded. destruct Hpad as [H|H]; [auto|].
      right. apply check_fields_ranges in Hv. lia. }
    split; [exact Heq|]. rewrite Heq.
    unfold parse_date. cbn [isna str]. unfold date_formats. cbn [try_formats].
    rewrite (strptime_iso_round_trip _ Hv). reflexivity.
  - intros -> Hy. pose proof (short_year_unread t Hv Hy) as Hnone.
    split; [exact Hnone|].
    unfold parse_date. cbn [isna str]. rewrite Hnone. reflexivity.
Qed.

Lemma parse_date_of_written_date_witness :
  try_formats (strftime_iso Unpadded (mk_datetime 999 1 24 0 0 0)) date_formats = Ok None
  /\ parse_date failing_fallback (VStr (strftime_iso Unpadded (mk_datetime 999 1 24 0 0 0)))
     = (Ok None,
        [Could_not_parse_date (VStr (strftime_iso Unpadded (mk_datetime 999 1 24 0 0 0)))]).
Proof.
  refine (proj1 (proj2 (proj2 (proj2 (proj2
            (parse_date_of_written_date Unpadded failing_fallback
               (VStr "0999-01-24") (mk_datetime 999 1 24 0 0 0) _ _))))) _ _).
  - reflexivity.
  - vm_compute. reflexivity.
  - reflexivity.
  - simpl. lia.
Defined.

(** ** Mailing the invitations *)

(** A file that was written is on the disk. *)
Lemma write_files_lookup files : forall disk path,
  path ∈ map fst files \/ is_Some (disk !! path) ->
  is_Some (Sending.write_files disk files !! path).
Proof.
  induction files as [|[p c] rest IH]; intros disk path H; cbn [Sending.write_files].
  - destruct H as [H|H]; [inversion H|exact H].
  - apply IH. cbn [map fst] in H.
    destruct (decide (path = p)) as [->|Hne].
    + right. rewrite lookup_insert_eq. eauto.
    + destruct H as [H|H].
      * apply elem_of_cons in H as [H|H]; [contradiction|]. left. exact H.
      * right. rewrite lookup_insert_ne by congruence. exact H.
Qed.

(** The call does not get as far as the SMTP session. *)
Lemma send_calendar_invitation_email_raises transport disk r path name sent :
  Sending.send_calendar_invitation_email transport disk r path name sent
  = (Raise (if decide (is_Some (disk !! path)) then AttributeError else OtherError),
     sent).
Proof.
  unfold Sending.send_calendar_invitation_email, Sending.read_bytes.
  destruct (disk !! path) as [c|] eqn:E.
  - rewrite decide_True by eauto. reflexivity.
  - rewrite decide_False by (intros [x Hx]; discriminate). reflexivity.
Qed.

Lemma send_files_raises transport disk file files r recipients sent n :
  is_Some (disk !! file) ->
  Sending.send_files transport disk (file :: files) (r :: recipients) sent n
  = (Raise AttributeError, sent).
Proof.
  intros H. cbn [Sending.send_files Sending.send_to_recipients].
  rewrite send_calendar_invitation_email_raises, decide_True by exact H.
  reflexivity.
Qed.

Lemma send_files_no_recipients transport disk files : forall sent n,
  Sending.send_files transport disk files [] sent n = (Ok n, sent).
Proof.
  induction files as [|f rest IH]; intros sent n; [reflexivity|].
  cbn [Sending.send_files Sending.send_to_recipients]. apply IH.
Qed.

(** [X20] [send_all_calendar_invitations] hands no mail to the SMTP
    session.  [send_calendar_invitation_email] reads the invitation
    file as bytes and gives them to [MIMEText], which raises
    [AttributeError] ahead of the [try] that guards the session; so
    no call of it returns.  With an invitation file written and a
    recipient configured the exception leaves
    [send_all_calendar_invitations] at the first file and recipient
    and the closing line is not logged.  Without files the function
    returns early, and without recipients it logs 0 of 0. *)
Theorem invitation_mails_never_sent yf uuid4 now_ics transport disk schedule_data
  recipients :
  (forall r path name sent,
      exists e,
        Sending.send_calendar_invitation_email transport disk r path name sent
        = (Raise e, sent)
        /\ (is_Some (disk !! path) -> e = AttributeError))
  /\ snd (Sending.send_all_calendar_invitations yf uuid4 now_ics transport disk
            schedule_data recipients) = []
  /\ (Invite.create_calendar_invitations yf uuid4 now_ics schedule_data = [] ->
      fst (Sending.send_all_calendar_invitations yf uuid4 now_ics transport disk
             schedule_data recipients) = Ok None)
  /\ (Invite.create_calendar_invitations yf uuid4 now_ics schedule_data <> [] ->
      fst (Sending.send_all_calendar_invitations yf uuid4 now_ics transport disk
             schedule_data recipients)
      = match recipients with
        | [] => Ok (Some (0, 0))
        | _ :: _ => Raise AttributeError
        end).
Proof.
  split.
  { intros r path name sent. eexists. split.
    - apply send_calendar_invitation_email_raises.
    - intros H. rewrite decide_True by exact H. reflexivity. }
  unfold Sending.send_all_calendar_invitations.
  set (created := Invite.create_calendar_invitations yf uuid4 now_ics schedule_data).
  cbv zeta.
  destruct created as [|[p c] rest] eqn:E.
  { cbn [map]. split; [reflexivity|]. split; [reflexivity|]. intros H. contradiction. }
  assert (Hdisk : is_Some (Sending.write_files disk ((p, c) :: rest) !! p)).
  { apply write_files_lookup. left. apply list_elem_of_here. }
  cbn [map fst].
  destruct recipients as [|r recipients].
  - rewrite send_files_no_recipients. cbn [fst snd length].
    split; [reflexivity|]. split; [discriminate|].
    intros _. repeat f_equal; lia.
  - rewrite (send_files_raises _ _ _ _ _ _ _ _ Hdisk). cbn [fst snd].
    split; [reflexivity|]. split; [discriminate|]. reflexivity.
Qed.
